(** * Browser Crush: the file store, its index, the change tracker and the tools

    A shallow embedding of the JavaScript sources of the in-browser coding
    assistant:

    - [Utils], [StorageManager] (core/utils.js, core/storage.js),
    - [FileIndex] and [VirtualFileSystem] (the virtual file system script),
    - [ChangeTracker] (core/change-tracker.js),
    - [BaseTool], [ToolRegistry] and the file tools (tools/base-tool.js,
      tools/file-tools.js),
    - [ContextManager] (core/utils.js).

    Conventions.  A JavaScript string is a Rocq [string]; the model speaks
    about ASCII text (one character per UTF-16 code unit, ASCII case folding,
    the six ASCII white-space characters).  A [Map] is an association list
    in insertion order ([JsMap]), a [Set] a duplicate-free list in insertion
    order.  An array is a list in array order: [push] appends at the end,
    [pop] takes the last element, [shift] the first.  Methods that mutate
    an object take the object and return the new one; a method that can
    throw returns an [outcome] next to the state it leaves behind.  The value
    read from the clock ([new Date()], [Date.now()]) during a call is an
    argument [now] of the call.  Scores are JavaScript numbers in the source
    and exact rationals here.  Listener callbacks (run inside [try]/[catch]
    by [notifyListeners]) and logging are outside the model.  The global
    [Storage] the file system calls is part of the state of the store:
    the built-in interface of the browser, which is what the scripts
    leave under that name, or a [StorageManager]. *)

From Stdlib Require Import String Ascii List ZArith QArith Lia Bool Arith DecimalString.
From Stdlib Require Import Sorted Permutation.
Import ListNotations.

Close Scope Q_scope.
Close Scope Z_scope.
Open Scope list_scope.
Open Scope string_scope.
Open Scope nat_scope.

Set Implicit Arguments.
Set Warnings "-register-all,-abstract-large-number".

(* ================================================================== *)
(** * Outcomes of calls that may throw *)

(** What a [throw] carries: an [Error] with its [message], or another
    value, kept as the text [String(value)]. *)
Inductive JsError : Type :=
| Err (message : string)
| Value (rendering : string).

(** The text of [error.message] inside a template. *)
Definition messageOf (e : JsError) : string :=
  match e with
  | Err m => m
  | Value _ => "undefined"
  end.

(** [error instanceof Error ? error.message : String(error)] *)
Definition describe (e : JsError) : string :=
  match e with
  | Err m => m
  | Value r => r
  end.

Inductive outcome (A : Type) : Type :=
| Returned (a : A)
| Thrown (e : JsError).

Arguments Returned {A} a.
Arguments Thrown {A} e.

(** The text of the [TypeError] an engine raises when a property of
    [null] is read.  The text is engine defined; the model fixes one. *)
Definition nullPropertyMessage (prop : string) : string :=
  "Cannot read properties of null (reading '" ++ prop ++ "')".

(** The text of the [TypeError] an engine raises when something that is
    not a function is called, as in [Storage.getFileContent(path)] when
    [Storage] has no such method.  Engine defined as well. *)
Definition notAFunctionMessage (callee : string) : string :=
  callee ++ " is not a function".

(* ================================================================== *)
(** * String primitives *)

Module Str.

Definition code (c : ascii) : nat := nat_of_ascii c.

Definition isUpper (c : ascii) : bool := (65 <=? code c) && (code c <=? 90).
Definition isLower (c : ascii) : bool := (97 <=? code c) && (code c <=? 122).
Definition isDigit (c : ascii) : bool := (48 <=? code c) && (code c <=? 57).

(** [\w] *)
Definition isWordChar (c : ascii) : bool :=
  isUpper c || isLower c || isDigit c || (code c =? 95).

(** [\s] on ASCII: tab, line feed, vertical tab, form feed, carriage
    return, space. *)
Definition isSpace (c : ascii) : bool :=
  ((9 <=? code c) && (code c <=? 13)) || (code c =? 32).

Definition lowerChar (c : ascii) : ascii :=
  if isUpper c then ascii_of_nat (code c + 32) else c.

(** [s.toLowerCase()] *)
Fixpoint toLowerCase (s : string) : string :=
  match s with
  | EmptyString => EmptyString
  | String c s' => String (lowerChar c) (toLowerCase s')
  end.

Fixpoint mapChars (f : ascii -> ascii) (s : string) : string :=
  match s with
  | EmptyString => EmptyString
  | String c s' => String (f c) (mapChars f s')
  end.

(** [s.startsWith(p)] *)
Fixpoint startsWith (s p : string) : bool :=
  match p, s with
  | EmptyString, _ => true
  | String _ _, EmptyString => false
  | String a p', String b s' => Ascii.eqb a b && startsWith s' p'
  end.

Fixpoint indexOfFrom (s p : string) (i : nat) : option nat :=
  if startsWith s p then Some i
  else match s with
       | EmptyString => None
       | String _ s' => indexOfFrom s' p (S i)
       end.

(** [s.indexOf(p)], with [None] for [-1]. *)
Definition indexOf (s p : string) : option nat := indexOfFrom s p 0.

(** [s.includes(p)] *)
Definition includes (s p : string) : bool :=
  match indexOf s p with Some _ => true | None => false end.

(** [s.endsWith(p)] *)
Fixpoint endsWith (s p : string) : bool :=
  String.eqb s p ||
  match s with
  | EmptyString => false
  | String _ s' => endsWith s' p
  end.

(** [s.substring(0, n)] *)
Fixpoint take (n : nat) (s : string) : string :=
  match n, s with
  | O, _ => EmptyString
  | S _, EmptyString => EmptyString
  | S n', String c s' => String c (take n' s')
  end.

Fixpoint drop (n : nat) (s : string) : string :=
  match n, s with
  | O, _ => s
  | S _, EmptyString => EmptyString
  | S n', String _ s' => drop n' s'
  end.

Fixpoint dropWhile (f : ascii -> bool) (s : string) : string :=
  match s with
  | EmptyString => EmptyString
  | String c s' => if f c then dropWhile f s' else s
  end.

Fixpoint takeWhile (f : ascii -> bool) (s : string) : string :=
  match s with
  | EmptyString => EmptyString
  | String c s' => if f c then String c (takeWhile f s') else EmptyString
  end.

Fixpoint rev (s acc : string) : string :=
  match s with
  | EmptyString => acc
  | String c s' => rev s' (String c acc)
  end.

(** [s.trim()] *)
Definition trim (s : string) : string :=
  rev (dropWhile isSpace (rev (dropWhile isSpace s) EmptyString)) EmptyString.

(** [s.split(sep)] for a one-character separator. *)
Fixpoint split (sep : ascii) (s : string) : list string :=
  match s with
  | EmptyString => [EmptyString]
  | String c s' =>
      if Ascii.eqb c sep then EmptyString :: split sep s'
      else match split sep s' with
           | [] => [String c EmptyString]
           | w :: ws => String c w :: ws
           end
  end.

(** [s.split(/\s+/)]: a maximal run of white space is one separator. *)
Fixpoint splitSpacesFrom (inRun : bool) (s : string) : list string :=
  match s with
  | EmptyString => [EmptyString]
  | String c s' =>
      if isSpace c then
        if inRun then splitSpacesFrom true s'
        else EmptyString :: splitSpacesFrom true s'
      else match splitSpacesFrom false s' with
           | [] => [String c EmptyString]
           | w :: ws => String c w :: ws
           end
  end.

Definition splitSpaces (s : string) : list string := splitSpacesFrom false s.

(** [parts.join(sep)] *)
Fixpoint join (sep : string) (parts : list string) : string :=
  match parts with
  | [] => EmptyString
  | [p] => p
  | p :: ps => p ++ sep ++ join sep ps
  end.

(** Decimal rendering of a non-negative integer, [String(n)]. *)
Definition ofNat (n : nat) : string :=
  NilZero.string_of_uint (Nat.to_uint n).

(** ** Literal patterns: global match and replace

    [text.match(new RegExp(p, 'g'))] for a pattern [p] that stands for
    itself (every character escaped, or free of metacharacters): the
    matches are found left to right and do not overlap; the empty pattern
    matches once at every index, the end included.  [skip] counts the
    characters of the current match still to be passed over. *)
Fixpoint countFrom (p s : string) (skip : nat) : nat :=
  match skip with
  | S k => match s with
           | String _ s' => countFrom p s' k
           | EmptyString => 0
           end
  | O =>
      if startsWith s p then
        match s with
        | String _ s' => S (countFrom p s' (String.length p - 1))
        | EmptyString => 1
        end
      else match s with
           | String _ s' => countFrom p s' 0
           | EmptyString => 0
           end
  end.

Definition countOccurrences (p text : string) : nat := countFrom p text 0.

Definition dollar : ascii := "$"%char.

(** The replacement text of one match (GetSubstitution of the language
    standard, for a pattern without capture groups): [$$] is a dollar
    sign, [$&] the match, [$`] the text before it, [$'] the text after
    it; every other character stands for itself. *)
Fixpoint expand (template matched before after : string) : string :=
  match template with
  | EmptyString => EmptyString
  | String c t =>
      if Ascii.eqb c dollar then
        match t with
        | String d t' =>
            if Ascii.eqb d dollar then String dollar (expand t' matched before after)
            else if Ascii.eqb d "&"%char then matched ++ expand t' matched before after
            else if Ascii.eqb d "`"%char then before ++ expand t' matched before after
            else if Ascii.eqb d "'"%char then after ++ expand t' matched before after
            else String c (expand t matched before after)
        | EmptyString => String c EmptyString
        end
      else String c (expand t matched before after)
  end.

(** [whole.replace(new RegExp(escaped p, 'g'), template)]; [s] is the
    part of [whole] from index [pos] on. *)
Fixpoint replaceAllFrom (p template whole s : string) (pos skip : nat) : string :=
  match skip with
  | S k => match s with
           | String _ s' => replaceAllFrom p template whole s' (S pos) k
           | EmptyString => EmptyString
           end
  | O =>
      if startsWith s p then
        let r := expand template p (take pos whole)
                        (drop (pos + String.length p) whole) in
        match s with
        | String c s' =>
            match p with
            | EmptyString => r ++ String c (replaceAllFrom p template whole s' (S pos) 0)
            | String _ p' => r ++ replaceAllFrom p template whole s' (S pos) (String.length p')
            end
        | EmptyString => r
        end
      else match s with
           | String c s' => String c (replaceAllFrom p template whole s' (S pos) 0)
           | EmptyString => EmptyString
           end
  end.

Definition replaceAll (text p template : string) : string :=
  replaceAllFrom p template text text 0 0.

(** [text.replace(p, template)] for a string [p]: the first occurrence. *)
Definition replaceFirst (text p template : string) : string :=
  match indexOf text p with
  | None => text
  | Some pos =>
      take pos text
      ++ expand template p (take pos text) (drop (pos + String.length p) text)
      ++ drop (pos + String.length p) text
  end.

(** The characters with a meaning of their own in a regular expression. *)
Definition isMetaChar (c : ascii) : bool :=
  existsb (Ascii.eqb c)
    ["\"%char; "^"%char; "$"%char; "."%char; "*"%char; "+"%char; "?"%char;
     "("%char; ")"%char; "["%char; "]"%char; "{"%char; "}"%char; "|"%char].

Fixpoint isLiteralPattern (p : string) : bool :=
  match p with
  | EmptyString => true
  | String c p' => negb (isMetaChar c) && isLiteralPattern p'
  end.

End Str.

(* ================================================================== *)
(** * Maps and sets in insertion order *)

Class Key (K : Type) : Type :=
  { keq : K -> K -> bool;
    keq_spec : forall a b, keq a b = true <-> a = b }.

#[global] Instance string_Key : Key string :=
  {| keq := String.eqb; keq_spec := String.eqb_eq |}.

#[global] Instance Z_Key : Key Z :=
  {| keq := Z.eqb; keq_spec := Z.eqb_eq |}.

(** A [Map]: bindings in insertion order, one per key. *)
Definition JsMap (K V : Type) : Type := list (K * V).

Module JsMap.
Section Ops.
Context {K V : Type} {keyK : Key K}.

Fixpoint get (m : JsMap K V) (k : K) : option V :=
  match m with
  | [] => None
  | (k', v) :: m' => if keq k' k then Some v else get m' k
  end.

Definition has (m : JsMap K V) (k : K) : bool :=
  match get m k with Some _ => true | None => false end.

(** [m.set(k, v)]: a bound key keeps its place, a new key goes last. *)
Fixpoint set (m : JsMap K V) (k : K) (v : V) : JsMap K V :=
  match m with
  | [] => [(k, v)]
  | (k', v') :: m' =>
      if keq k' k then (k', v) :: m' else (k', v') :: set m' k v
  end.

(** [m.delete(k)] *)
Fixpoint delete (m : JsMap K V) (k : K) : JsMap K V :=
  match m with
  | [] => []
  | (k', v') :: m' =>
      if keq k' k then delete m' k else (k', v') :: delete m' k
  end.

Definition keys (m : JsMap K V) : list K := map fst m.
Definition values (m : JsMap K V) : list V := map snd m.
End Ops.
End JsMap.

(** A [Set] of strings: members in insertion order. *)
Definition JsSet : Type := list string.

Module JsSet.
Definition has (s : JsSet) (x : string) : bool := existsb (String.eqb x) s.
Definition add (s : JsSet) (x : string) : JsSet :=
  if has s x then s else (s ++ [x])%list.
End JsSet.

(** Arrays used as stacks and queues. *)
Module Arr.
Section Ops.
Context {A : Type}.
Definition push (l : list A) (x : A) : list A := (l ++ [x])%list.
Fixpoint pop (l : list A) : option (A * list A) :=
  match l with
  | [] => None
  | [x] => Some (x, [])
  | y :: l' => match pop l' with
               | Some (x, r) => Some (x, y :: r)
               | None => None
               end
  end.
Definition shift (l : list A) : list A := tl l.
(** [l.slice(0, n)] *)
Definition slice0 (n : nat) (l : list A) : list A := firstn n l.
(** [l.slice(i, j)] for indices [i] and [j] that are not negative. *)
Definition slice (l : list A) (i j : nat) : list A := firstn (j - i) (skipn i l).
End Ops.
End Arr.


(* ================================================================== *)
(** * Utils (core/utils.js) *)

Module Utils.

Definition slash : ascii := "/"%char.
Definition backslash : ascii := "\"%char.
Definition dot : ascii := "."%char.
Definition newline : ascii := "010"%char.

Definition lastOr (d : string) (l : list string) : string := List.last l d.

(** [path.replace(/\/+/g, '/')]; [prev] tells that the character before
    was a slash. *)
Fixpoint collapseSlashes (prev : bool) (s : string) : string :=
  match s with
  | EmptyString => EmptyString
  | String c s' =>
      if Ascii.eqb c slash then
        if prev then collapseSlashes true s'
        else String slash (collapseSlashes true s')
      else String c (collapseSlashes false s')
  end.

Definition toSlash (c : ascii) : ascii :=
  if Ascii.eqb c backslash then slash else c.

(** [path.replace(/\\/g, '/').replace(/\/+/g, '/')] *)
Definition normalizePath (path : string) : string :=
  collapseSlashes false (Str.mapChars toSlash path).

(** [filePath.split('.').pop()?.toLowerCase() || ''] *)
Definition getFileExtension (filePath : string) : string :=
  Str.toLowerCase (lastOr "" (Str.split dot filePath)).

(** [filePath.split('/').pop() || filePath] *)
Definition getFileName (filePath : string) : string :=
  match lastOr "" (Str.split slash filePath) with
  | EmptyString => filePath
  | name => name
  end.

(** [parts.pop(); parts.join('/')] *)
Definition getDirectoryPath (filePath : string) : string :=
  Str.join "/" (List.removelast (Str.split slash filePath)).

(** ToInt32 *)
Definition toInt32 (z : Z) : Z :=
  ((z + 2147483648) mod 4294967296 - 2147483648)%Z.

Fixpoint hashFrom (hash : Z) (str : string) : Z :=
  match str with
  | EmptyString => hash
  | String c str' =>
      let char := Z.of_nat (Str.code c) in
(* hash = ((hash << 5) - hash) + char; hash = hash & hash *)
hashFrom (toInt32 (toInt32 (hash * 32) - hash + char)) str'
end.

(** [simpleHash(str)].  The source returns the base-36 rendering of the
    32-bit integer; the rendering is one-to-one, the model keeps the
    integer. *)
Definition simpleHash (str : string) : Z := hashFrom 0%Z str.

(** One row of the edit-distance matrix: [diag] and [up] come from the
    row above, [left] is the cell just computed. *)
Fixpoint nextRow (c2 : ascii) (str1 : string) (above : list nat) (left : nat)
  : list nat :=
  match str1, above with
  | String c1 str1', diag :: ((up :: _) as above') =>
      let cell := if Ascii.eqb c2 c1 then diag
                  else Nat.min (diag + 1) (Nat.min (left + 1) (up + 1)) in
      cell :: nextRow c2 str1' above' cell
  | _, _ => []
  end.

Fixpoint lastRow (str2 str1 : string) (above : list nat) (i : nat) : list nat :=
  match str2 with
  | EmptyString => above
  | String c2 str2' => lastRow str2' str1 (i :: nextRow c2 str1 above i) (S i)
  end.

Definition editDistance (str1 str2 : string) : nat :=
  List.last (lastRow str2 str1 (List.seq 0 (S (String.length str1))) 1) 0.

(** [calculateSimilarity(str1, str2)] *)
Definition calculateSimilarity (str1 str2 : string) : Q :=
  let maxLen := Nat.max (String.length str1) (String.length str2) in
  match maxLen with
  | O => 1%Q
  | S _ => Qmake (Z.of_nat maxLen - Z.of_nat (editDistance str1 str2))
                 (Pos.of_nat maxLen)
  end.

(** The loop of [chunkArray], from index [i] on; [fuel] bounds the
    number of rounds. *)
Fixpoint chunksFrom {A : Type} (fuel : nat) (array : list A)
         (chunkSize i : nat) : list (list A) :=
  match fuel with
  | O => []
  | S fuel' =>
      if i <? List.length array
      then Arr.slice array i (i + chunkSize)
           :: chunksFrom fuel' array chunkSize (i + chunkSize)
      else []
  end.

(** [chunkArray(array, chunkSize)] for a whole number [chunkSize].  With
    [chunkSize] zero and an array that is not empty the index never moves
    and the loop does not end: [None].  Otherwise every round moves the
    index by at least one, and [array.length] rounds are enough. *)
Definition chunkArray {A : Type} (array : list A) (chunkSize : nat)
  : option (list (list A)) :=
  match chunkSize, array with
  | O, _ :: _ => None
  | _, _ => Some (chunksFrom (List.length array) array chunkSize 0)
  end.

End Utils.

(* ================================================================== *)
(** * Base64, as the browser's [btoa] and [atob] write and read it

    A character of a binary string is one byte.  Six bits, the most
    significant first, make one character of the alphabet. *)

Module Base64.

Definition Sextet : Type := (bool * bool * bool * bool * bool * bool)%type.

Definition alphabet : string :=
  "ABCDEFGHIJKLMNOPQRSTUVWXYZabcdefghijklmnopqrstuvwxyz0123456789+/".

Definition pad : ascii := "="%char.

Definition bit (b : bool) (weight : nat) : nat := if b then weight else 0.

Definition sextetValue (s : Sextet) : nat :=
  let '(b5, b4, b3, b2, b1, b0) := s in
  bit b5 32 + bit b4 16 + bit b3 8 + bit b2 4 + bit b1 2 + bit b0 1.

(** The character that stands for six bits. *)
Definition charOf (s : Sextet) : ascii :=
  match String.get (sextetValue s) alphabet with
  | Some c => c
  | None => pad
  end.

Definition allSextets : list Sextet :=
  let bools := [false; true] in
  flat_map (fun b5 => flat_map (fun b4 => flat_map (fun b3 =>
  flat_map (fun b2 => flat_map (fun b1 => map (fun b0 => (b5, b4, b3, b2, b1, b0))
  bools) bools) bools) bools) bools) bools.

(** The six bits a character of the alphabet stands for. *)
Definition valueOf (c : ascii) : option Sextet :=
  List.find (fun s => Ascii.eqb (charOf s) c) allSextets.

(** The bits of a byte, the least significant first, are the arguments
    of [Ascii]. *)
Definition encode3 (a b c : ascii) : string :=
  let '(Ascii a0 a1 a2 a3 a4 a5 a6 a7) := a in
  let '(Ascii b0 b1 b2 b3 b4 b5 b6 b7) := b in
  let '(Ascii c0 c1 c2 c3 c4 c5 c6 c7) := c in
  String (charOf (a7, a6, a5, a4, a3, a2))
    (String (charOf (a1, a0, b7, b6, b5, b4))
       (String (charOf (b3, b2, b1, b0, c7, c6))
          (String (charOf (c5, c4, c3, c2, c1, c0)) EmptyString))).

Definition encode2 (a b : ascii) : string :=
  let '(Ascii a0 a1 a2 a3 a4 a5 a6 a7) := a in
  let '(Ascii b0 b1 b2 b3 b4 b5 b6 b7) := b in
  String (charOf (a7, a6, a5, a4, a3, a2))
    (String (charOf (a1, a0, b7, b6, b5, b4))
       (String (charOf (b3, b2, b1, b0, false, false)) EmptyString)).

Definition encode1 (a : ascii) : string :=
  let '(Ascii a0 a1 a2 a3 a4 a5 a6 a7) := a in
  String (charOf (a7, a6, a5, a4, a3, a2))
    (String (charOf (a1, a0, false, false, false, false)) EmptyString).

(** [btoa(data)]: three bytes give four characters; one or two bytes
    left over give two or three characters and the padding. *)
Fixpoint btoa (data : string) : string :=
  match data with
  | EmptyString => EmptyString
  | String a EmptyString => encode1 a ++ String pad (String pad EmptyString)
  | String a (String b EmptyString) => encode2 a b ++ String pad EmptyString
  | String a (String b (String c rest)) => encode3 a b c ++ btoa rest
  end.

(** What [btoa] writes before the padding. *)
Fixpoint body (data : string) : string :=
  match data with
  | EmptyString => EmptyString
  | String a EmptyString => encode1 a
  | String a (String b EmptyString) => encode2 a b
  | String a (String b (String c rest)) => encode3 a b c ++ body rest
  end.

(** ASCII white space: tab, line feed, form feed, carriage return,
    space. *)
Definition isAsciiWhitespace (c : ascii) : bool :=
  existsb (Nat.eqb (Str.code c)) [9; 10; 12; 13; 32].

Fixpoint removeWhitespace (data : string) : string :=
  match data with
  | EmptyString => EmptyString
  | String c rest =>
      if isAsciiWhitespace c then removeWhitespace rest
      else String c (removeWhitespace rest)
  end.

(** One or two padding characters at the end are removed. *)
Fixpoint removePadding (data : string) : string :=
  match data with
  | EmptyString => EmptyString
  | String c rest =>
      if Ascii.eqb c pad
         && (String.eqb rest EmptyString || String.eqb rest (String pad EmptyString))
      then EmptyString
      else String c (removePadding rest)
  end.

(** The values of the characters; [None] when one of them is not of
    the alphabet. *)
Fixpoint valuesOf (data : string) : option (list Sextet) :=
  match data with
  | EmptyString => Some []
  | String c rest =>
      match valueOf c, valuesOf rest with
      | Some v, Some vs => Some (v :: vs)
      | _, _ => None
      end
  end.

Definition byte1 (w x : Sextet) : ascii :=
  let '(w5, w4, w3, w2, w1, w0) := w in
  let '(x5, x4, _, _, _, _) := x in
  Ascii x4 x5 w0 w1 w2 w3 w4 w5.

Definition byte2 (x y : Sextet) : ascii :=
  let '(_, _, x3, x2, x1, x0) := x in
  let '(y5, y4, y3, y2, _, _) := y in
  Ascii y2 y3 y4 y5 x0 x1 x2 x3.

Definition byte3 (y z : Sextet) : ascii :=
  let '(_, _, _, _, y1, y0) := y in
  let '(z5, z4, z3, z2, z1, z0) := z in
  Ascii z0 z1 z2 z3 z4 z5 y0 y1.

(** Four values give three bytes; of three values left over the last
    two bits are dropped, of two values the last four. *)
Fixpoint bytesOf (values : list Sextet) : string :=
  match values with
  | w :: x :: y :: z :: rest =>
      String (byte1 w x) (String (byte2 x y) (String (byte3 y z) (bytesOf rest)))
  | [w; x; y] => String (byte1 w x) (String (byte2 x y) EmptyString)
  | [w; x] => String (byte1 w x) EmptyString
  | _ => EmptyString
  end.

(** [atob(data)]: white space is passed over; when the length is then a
    multiple of four, one or two padding characters at the end are
    removed; a length that leaves a remainder of one, or a character
    outside the alphabet, makes the call throw ([None]). *)
Definition atob (data : string) : option string :=
  let data1 := removeWhitespace data in
  let data2 := if String.length data1 mod 4 =? 0 then removePadding data1
               else data1 in
  if String.length data2 mod 4 =? 1 then None
  else option_map bytesOf (valuesOf data2).

End Base64.

(* ================================================================== *)
(** * The content cache of StorageManager (core/storage.js)

    The items of the cache live in [sessionStorage] under the key
    [browser_crush_file_<simpleHash(filePath)>]; the model keys them by the
    hash.  Storing is taken to succeed (no quota error). *)

Module CacheItem.
Record t : Type := mk
  { content : string;
    timestamp : Z;
    ttl : Z }.
End CacheItem.

Definition SessionStorage : Type := JsMap Z CacheItem.t.

Module StorageManager.

Definition encryptionKey : string := "crush_encrypt_key_2024".

(** [a ^ b] on two character codes below 256. *)
Definition xorChar (a b : ascii) : ascii :=
  let '(Ascii a0 a1 a2 a3 a4 a5 a6 a7) := a in
  let '(Ascii b0 b1 b2 b3 b4 b5 b6 b7) := b in
  Ascii (xorb a0 b0) (xorb a1 b1) (xorb a2 b2) (xorb a3 b3)
        (xorb a4 b4) (xorb a5 b5) (xorb a6 b6) (xorb a7 b7).

(** [this.encryptionKey.charCodeAt(i % this.encryptionKey.length)] *)
Definition keyChar (i : nat) : ascii :=
  match String.get (i mod String.length encryptionKey) encryptionKey with
  | Some c => c
  | None => zero
  end.

(** The loop of [encrypt] and of [decrypt], from index [i] on. *)
Fixpoint xorWithKey (text : string) (i : nat) : string :=
  match text with
  | EmptyString => EmptyString
  | String c rest => String (xorChar c (keyChar i)) (xorWithKey rest (S i))
  end.

(** [encrypt(text)].  Every character code is below 256 here, so
    [btoa] does not throw. *)
Definition encrypt (text : string) : string :=
  Base64.btoa (xorWithKey text 0).

(** [decrypt(encryptedText)]: when [atob] throws, the text given is
    returned as it is. *)
Definition decrypt (encryptedText : string) : string :=
  match Base64.atob encryptedText with
  | Some decoded => xorWithKey decoded 0
  | None => encryptedText
  end.

(** [storeFileContent(filePath, content, ttl = 3600000)] at time [now]. *)
Definition storeFileContent (now : Z) (st : SessionStorage)
           (filePath content : string) : SessionStorage :=
  JsMap.set st (Utils.simpleHash filePath)
            (CacheItem.mk content now 3600000%Z).

(** [getFileContent(filePath)] at time [now]: the cached content, or
    [None] for [null]; an expired item is removed. *)
Definition getFileContent (now : Z) (st : SessionStorage) (filePath : string)
  : option string * SessionStorage :=
  let key := Utils.simpleHash filePath in
  match JsMap.get st key with
  | None => (None, st)
  | Some data =>
      if (now - CacheItem.timestamp data >? CacheItem.ttl data)%Z
      then (None, JsMap.delete st key)
      else (Some (CacheItem.content data), st)
  end.

(** [now - data.timestamp > data.ttl] *)
Definition isExpired (now : Z) (data : CacheItem.t) : bool :=
  (now - CacheItem.timestamp data >? CacheItem.ttl data)%Z.

(** [clearExpiredCache()] at time [now]: the keys of the expired items
    are collected first, then removed one by one.  Every item of the
    model is a file item, written by [storeFileContent]. *)
Definition clearExpiredCache (now : Z) (st : SessionStorage) : SessionStorage :=
  let keysToRemove :=
    filter (fun key => match JsMap.get st key with
                       | Some data => isExpired now data
                       | None => false
                       end)
           (JsMap.keys st) in
  fold_left (fun storage key => JsMap.delete storage key) keysToRemove st.

End StorageManager.

(** The global [Storage].  The file system calls
    [Storage.getFileContent] and [Storage.storeFileContent], and no
    script of the sources binds that name: core/storage.js exports its
    manager as [CrushStorage], the name the other scripts use.  In a
    browser [Storage] is then the built-in interface of [localStorage]
    and [sessionStorage], which has neither method, and each of the two
    calls throws a [TypeError]: that is [Builtin], the sources as they
    are.  [Manager st] is a page that binds the name to a
    [StorageManager] before the scripts run, [st] the session storage
    behind it. *)
Inductive StorageGlobal : Type :=
| Builtin
| Manager (st : SessionStorage).

(* ================================================================== *)
(** * Core types (the type definitions script) *)

Inductive FileKind : Type := KFile | KDirectory.

Definition FileKind_eqb (a b : FileKind) : bool :=
  match a, b with
  | KFile, KFile | KDirectory, KDirectory => true
  | _, _ => false
  end.

(** [FileEntry]; [content] is [None] for [null].  The constant fields
    [encoding] and [sha] are left out. *)
Module FileEntry.
Record t : Type := mk
  { path : string;
    content : option string;
    type : FileKind;
    size : nat;
    lastModified : Z }.
Definition withContent (f : t) (c : option string) : t :=
  mk (path f) c (type f) (size f) (lastModified f).
End FileEntry.

Inductive SymbolKind : Type :=
| SFunction | SClass | SInterface | SVariable | SMethod.

Module SymbolInfo.
Record t : Type := mk
  { name : string;
    type : SymbolKind;
    filePath : string;
    lineNumber : nat;
    column : nat;
    context : string }.
End SymbolInfo.

Module LineInfo.
Record t : Type := mk
  { lineNumber : nat;
    content : string;
    tokens : list string;
    indentation : nat }.
End LineInfo.

Module SearchOptions.
Record t : Type := mk
  { includeFilenames : bool;
    includeContent : bool;
    caseSensitive : bool;
    maxResults : nat }.
(** [new SearchOptions()] *)
Definition default : t := mk true true false 50.
End SearchOptions.

Module MatchedLine.
Record t : Type := mk
  { lineNumber : nat;
    content : string;
    matchStart : nat;
    matchEnd : nat }.
End MatchedLine.

Module FileSearchResult.
Record t : Type := mk
  { filePath : string;
    content : option string;
    score : Q;
    matchedLines : list MatchedLine.t;
    reason : string }.
Definition withContent (r : t) (c : option string) : t :=
  mk (filePath r) c (score r) (matchedLines r) (reason r).
End FileSearchResult.

Module RelevantFile.
Record t : Type := mk
  { path : string;
    content : option string;
    relevanceScore : Q;
    reason : string;
    matchedLines : list MatchedLine.t }.
End RelevantFile.

Module UserIntent.
Record t : Type := mk
  { targetFiles : list string;
    keywords : list string }.
End UserIntent.

Inductive ChangeKind : Type :=
| Create | Edit | Delete | OtherKind (name : string).

Definition ChangeKind_name (k : ChangeKind) : string :=
  match k with
  | Create => "create" | Edit => "edit" | Delete => "delete"
  | OtherKind n => n
  end.

(** [Change]; [oldContent] and [newContent] are [None] for [null].  The
    [id] is drawn from the clock and [Math.random()]; it is given to the
    model with the change. *)
Module Change.
Record t : Type := mk
  { type : ChangeKind;
    filePath : string;
    oldContent : option string;
    newContent : option string;
    timestamp : Z;
    id : string }.
End Change.

Module UndoAction.
Record t : Type := mk
  { type : string;
    change : Change.t;
    timestamp : Z }.
End UndoAction.

(** Source functions the model keeps abstract: the regular-expression
    heuristics of the five language families (each maps the content and
    the path of a file to the symbols found), and the rendering of sizes
    and dates, which goes through floating point and the locale. *)
Class Externals : Type :=
  { extractJavaScriptSymbols : string -> string -> list SymbolInfo.t;
    extractPythonSymbols : string -> string -> list SymbolInfo.t;
    extractJavaSymbols : string -> string -> list SymbolInfo.t;
    extractCSymbols : string -> string -> list SymbolInfo.t;
    extractGoSymbols : string -> string -> list SymbolInfo.t;
    formatFileSize : nat -> string;
    formatDate : Z -> string }.

(** [Array.prototype.sort] is stable.  [after x y] tells that the
    comparator puts [x] strictly after [y] (a positive result). *)
Module Sort.
Section Ops.
Context {A : Type} (after : A -> A -> bool).
Fixpoint insert (x : A) (sorted : list A) : list A :=
  match sorted with
  | [] => [x]
  | y :: rest => if after x y then y :: insert x rest else x :: sorted
  end.
Definition sort (l : list A) : list A := fold_right insert [] l.
End Ops.
End Sort.

Definition Qltb (x y : Q) : bool := negb (Qle_bool y x).

(** [n || 50] *)
Definition orDefault (n d : nat) : nat :=
  match n with O => d | S _ => n end.

(* ================================================================== *)
(** * FileIndex (the virtual file system script) *)

Module FileIndex.

Record t : Type := mk
  { tokenIndex : JsMap string JsSet;
    lineIndex : JsMap string (list LineInfo.t);
    symbolIndex : JsMap string (list SymbolInfo.t);
    fileHashes : JsMap string Z }.

(** [new FileIndex()], also the state after [clear()]. *)
Definition empty : t := mk [] [] [] [].
Definition clear (_ : t) : t := empty.

Definition stopWords : list string :=
  ["the"; "and"; "or"; "but"; "in"; "on"; "at"; "to"; "for"; "of"; "with";
   "by"; "from"; "up"; "about"; "into"; "through"; "during"; "before";
   "after"; "above"; "below"; "between"; "among"; "through"; "during";
   "before"; "after"].

Definition isStopWord (word : string) : bool :=
  existsb (String.eqb word) stopWords.

(** [/[^\w\s]/g] replaced by a space *)
Definition blankPunctuation (c : ascii) : ascii :=
  if Str.isWordChar c || Str.isSpace c then c else " "%char.

Definition tokenize (text : string) : list string :=
  filter (fun token => (2 <? String.length token) && negb (isStopWord token))
         (Str.splitSpaces (Str.mapChars blankPunctuation (Str.toLowerCase text))).

(** The length of the leading white space of [line]. *)
Definition getIndentation (line : string) : nat :=
  String.length (Str.takeWhile Str.isSpace line).

(** One attempt of the call pattern at the start of [s]: a run of word
    characters, optional white space, an opening parenthesis and, after
    any characters other than a closing parenthesis, a closing one.  The
    result is the run of word characters. *)
Definition callAt (s : string) : option string :=
  let word := Str.takeWhile Str.isWordChar s in
  match word with
  | EmptyString => None
  | String _ _ =>
      match Str.dropWhile Str.isSpace (Str.dropWhile Str.isWordChar s) with
      | String c rest =>
          if Ascii.eqb c "("%char && Str.includes rest ")" then Some word
          else None
      | EmptyString => None
      end
  end.

(** The match of the call pattern in [line]: the leftmost attempt that
    succeeds; the result is the first group. *)
Fixpoint matchCall (line : string) : option string :=
  match callAt line with
  | Some word => Some word
  | None => match line with
            | EmptyString => None
            | String _ line' => matchCall line'
            end
  end.

Definition indexOr0 (line name : string) : nat :=
  match Str.indexOf line name with Some i => i | None => 0 end.

Fixpoint genericLines (filePath : string) (lines : list string) (index : nat)
  : list SymbolInfo.t :=
  match lines with
  | [] => []
  | line :: rest =>
      let lineNum := index + 1 in
      match matchCall line with
      | Some name =>
          if Str.includes line "{" then
            SymbolInfo.mk name SFunction filePath lineNum
                          (indexOr0 line name) (Str.trim line)
            :: genericLines filePath rest (S index)
          else genericLines filePath rest (S index)
      | None => genericLines filePath rest (S index)
      end
  end.

(** [extractGenericSymbols(content, filePath)] *)
Definition extractGenericSymbols (content filePath : string)
  : list SymbolInfo.t :=
  genericLines filePath (Str.split Utils.newline content) 0.

Definition addToken (filePath : string) (tokenIndex : JsMap string JsSet)
           (token : string) : JsMap string JsSet :=
  match JsMap.get tokenIndex token with
  | None => JsMap.set tokenIndex token (JsSet.add [] filePath)
  | Some files => JsMap.set tokenIndex token (JsSet.add files filePath)
  end.

Definition addSymbol (symbolIndex : JsMap string (list SymbolInfo.t))
           (symbol : SymbolInfo.t) : JsMap string (list SymbolInfo.t) :=
  match JsMap.get symbolIndex (SymbolInfo.name symbol) with
  | None => JsMap.set symbolIndex (SymbolInfo.name symbol) [symbol]
  | Some symbols =>
      JsMap.set symbolIndex (SymbolInfo.name symbol) (Arr.push symbols symbol)
  end.

(** The loop over the lines of [indexFile]: the line records, and the
    token index with the tokens of each line added. *)
Fixpoint indexLines (filePath : string) (lines : list string) (index : nat)
         (tokenIndex : JsMap string JsSet)
  : list LineInfo.t * JsMap string JsSet :=
  match lines with
  | [] => ([], tokenIndex)
  | line :: rest =>
      let tokens := tokenize line in
      let lineInfo := LineInfo.mk (index + 1) line tokens (getIndentation line) in
      let tokenIndex' := fold_left (addToken filePath) tokens tokenIndex in
      let (lineInfos, tokenIndex'') :=
        indexLines filePath rest (S index) tokenIndex' in
      (lineInfo :: lineInfos, tokenIndex'')
  end.

Section WithExternals.
Context {ext : Externals}.

(** The [switch] of [extractSymbols]. *)
Definition symbolsOf (filePath content : string) : list SymbolInfo.t :=
  let extension := Utils.getFileExtension filePath in
  if existsb (String.eqb extension) ["js"; "jsx"; "ts"; "tsx"]
  then extractJavaScriptSymbols content filePath
  else if String.eqb extension "py"
  then extractPythonSymbols content filePath
  else if String.eqb extension "java"
  then extractJavaSymbols content filePath
  else if existsb (String.eqb extension) ["cpp"; "c"]
  then extractCSymbols content filePath
  else if String.eqb extension "go"
  then extractGoSymbols content filePath
  else extractGenericSymbols content filePath.

(** [extractSymbols(filePath, content)] *)
Definition extractSymbols (idx : t) (filePath content : string) : t :=
  mk (tokenIndex idx) (lineIndex idx)
     (fold_left addSymbol (symbolsOf filePath content) (symbolIndex idx))
     (fileHashes idx).

(** [indexFile(filePath, content)] *)
Definition indexFile (idx : t) (filePath content : string) : t :=
  let lines := Str.split Utils.newline content in
  let (lineInfos, tokenIndex') :=
    indexLines filePath lines 0 (tokenIndex idx) in
  let idx1 := mk tokenIndex' (JsMap.set (lineIndex idx) filePath lineInfos)
                 (symbolIndex idx) (fileHashes idx) in
  let idx2 := extractSymbols idx1 filePath content in
  mk (tokenIndex idx2) (lineIndex idx2) (symbolIndex idx2)
     (JsMap.set (fileHashes idx2) filePath (Utils.simpleHash content)).
End WithExternals.

(** [searchSymbols(query, limit = 50)] *)
Definition searchSymbols (idx : t) (query : string) (limit : nat)
  : list SymbolInfo.t :=
  let queryLower := Str.toLowerCase query in
  Arr.slice0 limit
    (flat_map (fun entry : string * list SymbolInfo.t =>
                 if Str.includes (Str.toLowerCase (fst entry)) queryLower
                 then snd entry else [])
              (symbolIndex idx)).

(** [getSymbols(filePath)] *)
Definition getSymbols (idx : t) (filePath : string) : list SymbolInfo.t :=
  Sort.sort (fun a b => SymbolInfo.lineNumber b <? SymbolInfo.lineNumber a)
    (flat_map (fun symbolList =>
                 filter (fun s => String.eqb (SymbolInfo.filePath s) filePath)
                        symbolList)
              (JsMap.values (symbolIndex idx))).

(** [content.match(new RegExp(queryLower, 'g'))]: the number of matches.
    The pattern is the query itself, not escaped; the model covers the
    queries without metacharacters and answers [None] for the others. *)
Definition regexpCount (queryLower content : string) : option nat :=
  if Str.isLiteralPattern queryLower
  then Some (Str.countOccurrences queryLower content)
  else None.

Definition lineScore (queryLower : string) (line : MatchedLine.t) : option Q :=
  let content := Str.toLowerCase (MatchedLine.content line) in
  match regexpCount queryLower content with
  | None => None
  | Some matches =>
      let s1 := inject_Z (Z.of_nat matches) in
      let s2 := Qmake (Z.of_nat (100 - String.length (MatchedLine.content line)))
                      100 in
      let s3 := if Str.includes content (" " ++ queryLower ++ " ")
                then 2%Q else 0%Q in
      Some (s1 + s2 + s3)%Q
  end.

Fixpoint sumScores (queryLower : string) (lines : list MatchedLine.t)
         (score : Q) : option Q :=
  match lines with
  | [] => Some score
  | line :: rest =>
      match lineScore queryLower line with
      | None => None
      | Some s => sumScores queryLower rest (score + s)%Q
      end
  end.

(** [calculateRelevanceScore(query, matchedLines)]; the caller passes
    at least one line. *)
Definition calculateRelevanceScore (query : string)
           (matchedLines : list MatchedLine.t) : option Q :=
  match sumScores (Str.toLowerCase query) matchedLines 0%Q with
  | None => None
  | Some score =>
      Some (score / inject_Z (Z.of_nat (List.length matchedLines)))%Q
  end.

Definition candidateFiles (idx : t) (queryTokens : list string) : JsSet :=
  fold_left
    (fun candidates token =>
       match JsMap.get (tokenIndex idx) token with
       | Some files => fold_left JsSet.add files candidates
       | None => candidates
       end)
    queryTokens [].

Definition matchLines (caseSensitive : bool) (query searchQuery : string)
           (lines : list LineInfo.t) : list MatchedLine.t :=
  flat_map
    (fun lineInfo =>
       let searchText := if caseSensitive then LineInfo.content lineInfo
                         else Str.toLowerCase (LineInfo.content lineInfo) in
       match Str.indexOf searchText searchQuery with
       | Some matchIndex =>
           [MatchedLine.mk (LineInfo.lineNumber lineInfo)
                           (LineInfo.content lineInfo)
                           matchIndex (matchIndex + String.length query)]
       | None => []
       end)
    lines.

Fixpoint scanCandidates (idx : t) (caseSensitive : bool)
         (query searchQuery : string) (candidates : list string)
  : option (list FileSearchResult.t) :=
  match candidates with
  | [] => Some []
  | filePath :: rest =>
      let lines := match JsMap.get (lineIndex idx) filePath with
                   | Some l => l | None => [] end in
      let matchedLines := matchLines caseSensitive query searchQuery lines in
      match matchedLines with
      | [] => scanCandidates idx caseSensitive query searchQuery rest
      | _ :: _ =>
          match calculateRelevanceScore query matchedLines,
                scanCandidates idx caseSensitive query searchQuery rest with
          | Some score, Some results =>
              Some (FileSearchResult.mk filePath None score matchedLines
                                        "content_match" :: results)
          | _, _ => None
          end
      end
  end.

Definition byScore (a b : FileSearchResult.t) : bool :=
  Qltb (FileSearchResult.score a) (FileSearchResult.score b).

(** [searchContent(query, options)]; [None] when the query is outside
    the queries [regexpCount] covers. *)
Definition searchContent (idx : t) (query : string) (options : SearchOptions.t)
  : option (list FileSearchResult.t) :=
  let queryTokens := tokenize query in
  let caseSensitive := SearchOptions.caseSensitive options in
  let searchQuery := if caseSensitive then query else Str.toLowerCase query in
  match scanCandidates idx caseSensitive query searchQuery
                       (candidateFiles idx queryTokens) with
  | None => None
  | Some results =>
      Some (Arr.slice0 (orDefault (SearchOptions.maxResults options) 50)
                       (Sort.sort byScore results))
  end.

(** [needsReindexing(filePath, content)] *)
Definition needsReindexing (idx : t) (filePath content : string) : bool :=
  match JsMap.get (fileHashes idx) filePath with
  | Some storedHash => negb (Z.eqb (Utils.simpleHash content) storedHash)
  | None => true
  end.

End FileIndex.

(* ================================================================== *)
(** * VirtualFileSystem (the virtual file system script)

    The state holds the [files] map and the [index]; next to them it
    carries the global [Storage] the methods call, with the session
    storage behind it when it is a manager.  The ignore patterns, the
    repository record and the listeners are left out. *)

Module VirtualFileSystem.

Record t : Type := mk
  { files : JsMap string FileEntry.t;
    index : FileIndex.t;
    storage : StorageGlobal }.

(** [new VirtualFileSystem()] on a page whose [Storage] is [global]. *)
Definition create (global : StorageGlobal) : t := mk [] FileIndex.empty global.

(** A string that is neither [null] nor empty. *)
Definition truthy (content : option string) : bool :=
  match content with
  | Some (String _ _) => true
  | _ => false
  end.

Definition contentLength (content : option string) : nat :=
  match content with
  | Some c => String.length c
  | None => 0
  end.

Section WithExternals.
Context {ext : Externals}.

(** [addFile(path, content, type, size = null, lastModified = null)] *)
Definition addFile (now : Z) (fs : t) (path : string)
           (content : option string) (type : FileKind)
           (size : option nat) (lastModified : option Z)
  : FileEntry.t * t :=
  let normalizedPath := Utils.normalizePath path in
  let fileSize := match size with
                  | Some (S n) => S n
                  | _ => contentLength content
                  end in
  let modTime := match lastModified with
                 | Some d => d
                 | None => now
                 end in
  let fileEntry := FileEntry.mk normalizedPath content type fileSize modTime in
  let files' := JsMap.set (files fs) normalizedPath fileEntry in
  let index' :=
    match type, content with
    | KFile, Some (String _ _ as c) =>
        FileIndex.indexFile (index fs) normalizedPath c
    | _, _ => index fs
    end in
  (fileEntry, mk files' index' (storage fs)).

(** [getFile(filePath)].  A path without an entry gives [undefined]
    and no call of [Storage].  For an entry the cache is asked first:
    the built-in [Storage] makes the call throw; with a manager, a cached
    content that differs from the content of the entry is written into
    the entry. *)
Definition getFile (now : Z) (fs : t) (filePath : string)
  : outcome (option FileEntry.t) * t :=
  let normalizedPath := Utils.normalizePath filePath in
  match JsMap.get (files fs) normalizedPath with
  | Some file =>
      match storage fs with
      | Builtin =>
          (Thrown (Err (notAFunctionMessage "Storage.getFileContent")), fs)
      | Manager st =>
          let (cachedContent, st') :=
            StorageManager.getFileContent now st normalizedPath in
          match cachedContent with
          | Some (String _ _ as cached) =>
              match FileEntry.content file with
              | Some c =>
                  if String.eqb c cached
                  then (Returned (Some file),
                        mk (files fs) (index fs) (Manager st'))
                  else
                    let file' := FileEntry.withContent file (Some cached) in
                    (Returned (Some file'),
                     mk (JsMap.set (files fs) normalizedPath file')
                        (index fs) (Manager st'))
              | None =>
                  let file' := FileEntry.withContent file (Some cached) in
                  (Returned (Some file'),
                   mk (JsMap.set (files fs) normalizedPath file')
                      (index fs) (Manager st'))
              end
          | _ => (Returned (Some file), mk (files fs) (index fs) (Manager st'))
          end
      end
  | None => (Returned None, fs)
  end.

(** [updateFile(filePath, newContent)].  An entry is given its new
    content, size and time and is indexed anew before [Storage] is
    called: with the built-in [Storage] the call throws after the entry
    and the index have changed.  A path without an entry goes to
    [addFile]. *)
Definition updateFile (now : Z) (fs : t) (filePath newContent : string)
  : outcome FileEntry.t * t :=
  let normalizedPath := Utils.normalizePath filePath in
  match JsMap.get (files fs) normalizedPath with
  | Some existingFile =>
      let existingFile' :=
        FileEntry.mk (FileEntry.path existingFile) (Some newContent)
                     (FileEntry.type existingFile)
                     (String.length newContent) now in
      let files' := JsMap.set (files fs) normalizedPath existingFile' in
      let index' := FileIndex.indexFile (index fs) normalizedPath newContent in
      match storage fs with
      | Builtin =>
          (Thrown (Err (notAFunctionMessage "Storage.storeFileContent")),
           mk files' index' Builtin)
      | Manager st =>
          (Returned existingFile',
           mk files' index'
              (Manager (StorageManager.storeFileContent now st normalizedPath
                                                        newContent)))
      end
  | None =>
      let (fileEntry, fs') :=
        addFile now fs normalizedPath (Some newContent) KFile None None in
      (Returned fileEntry, fs')
  end.

(** [deleteFile(filePath)] *)
Definition deleteFile (fs : t) (filePath : string) : bool * t :=
  let normalizedPath := Utils.normalizePath filePath in
  match JsMap.get (files fs) normalizedPath with
  | Some existingFile =>
      (true,
       mk (JsMap.delete (files fs) normalizedPath) (index fs) (storage fs))
  | None => (false, fs)
  end.

(** The file-name pass of [searchFiles]. *)
Definition filenameMatches (fs : t) (query : string)
  : list FileSearchResult.t :=
  let queryLower := Str.toLowerCase query in
  flat_map
    (fun entry : string * FileEntry.t =>
       let fileName := Str.toLowerCase (Utils.getFileName (fst entry)) in
       if Str.includes fileName queryLower then
         [FileSearchResult.mk
            (fst entry) (FileEntry.content (snd entry))
            (Utils.calculateSimilarity fileName queryLower * 2)%Q
            [] "filename_match"]
       else [])
    (files fs).

(** The loop that loads the content of each content match; a throw of
    [getFile] ends it. *)
Fixpoint loadContents (now : Z) (fs : t)
         (contentResults : list FileSearchResult.t)
  : outcome (list FileSearchResult.t) * t :=
  match contentResults with
  | [] => (Returned [], fs)
  | result :: rest =>
      match getFile now fs (FileSearchResult.filePath result) with
      | (Thrown error, fs1) => (Thrown error, fs1)
      | (Returned file, fs1) =>
          let result' :=
            match file with
            | Some f => FileSearchResult.withContent result (FileEntry.content f)
            | None => result
            end in
          match loadContents now fs1 rest with
          | (Returned results, fs2) => (Returned (result' :: results), fs2)
          | (Thrown error, fs2) => (Thrown error, fs2)
          end
      end
  end.

(** The map [uniqueResults]: one result per path, the one of the
    higher score, the first one on a tie. *)
Definition addUnique (uniqueResults : JsMap string FileSearchResult.t)
           (result : FileSearchResult.t)
  : JsMap string FileSearchResult.t :=
  match JsMap.get uniqueResults (FileSearchResult.filePath result) with
  | Some existing =>
      if Qltb (FileSearchResult.score existing) (FileSearchResult.score result)
      then JsMap.set uniqueResults (FileSearchResult.filePath result) result
      else uniqueResults
  | None => JsMap.set uniqueResults (FileSearchResult.filePath result) result
  end.

(** [searchFiles(query, options)]; [None] when the query is outside
    the queries of [FileIndex.regexpCount].  The search throws when the
    look-up of a content match does. *)
Definition searchFiles (now : Z) (fs : t) (query : string)
           (options : SearchOptions.t)
  : option (outcome (list FileSearchResult.t) * t) :=
  let byName := if SearchOptions.includeFilenames options
                then filenameMatches fs query else [] in
  let byContent :=
    if SearchOptions.includeContent options then
      match FileIndex.searchContent (index fs) query options with
      | Some contentResults => Some (loadContents now fs contentResults)
      | None => None
      end
    else Some (Returned [], fs) in
  match byContent with
  | None => None
  | Some (Thrown error, fs') => Some (Thrown error, fs')
  | Some (Returned loaded, fs') =>
      let uniqueResults := fold_left addUnique (byName ++ loaded) [] in
      Some (Returned
              (Arr.slice0 (orDefault (SearchOptions.maxResults options) 50)
                          (Sort.sort FileIndex.byScore
                                     (JsMap.values uniqueResults))),
            fs')
  end.

End WithExternals.

(** The content stored for [path], as the map holds it: [None] when the
    path has no entry. *)
Definition contentAt (fs : t) (path : string) : option (option string) :=
  option_map FileEntry.content (JsMap.get (files fs) path).

(** The page of the store has a content cache: its [Storage] is a
    manager. *)
Definition hasCache (fs : t) : bool :=
  match storage fs with
  | Manager _ => true
  | Builtin => false
  end.

End VirtualFileSystem.


(* ================================================================== *)
(** * ChangeTracker (core/change-tracker.js)

    The tracker reaches the file system through the global
    [window.fileSystem]; [Window.fileSystem] is [None] when the global is
    not set.  The per-file [changes] map, the two stacks and the size
    limit are the state; listeners are left out. *)

Module Window.
Record t : Type := mk { fileSystem : option VirtualFileSystem.t }.
End Window.

Module ChangeTracker.

Record t : Type := mk
  { changes : JsMap string (list Change.t);
    undoStack : list UndoAction.t;
    redoStack : list UndoAction.t;
    maxHistorySize : nat }.

(** [new ChangeTracker()] *)
Definition create : t := mk [] [] [] 100.

(** [recordChange(change)] at time [now]. *)
Definition recordChange (now : Z) (ct : t) (change : Change.t) : t :=
  let filePath := Change.filePath change in
  let fileChanges := match JsMap.get (changes ct) filePath with
                     | Some l => l
                     | None => []
                     end in
  let changes' := JsMap.set (changes ct) filePath (Arr.push fileChanges change) in
  let undoStack' := Arr.push (undoStack ct) (UndoAction.mk "change" change now) in
  let undoStack'' := if maxHistorySize ct <? List.length undoStack'
                     then Arr.shift undoStack' else undoStack' in
  mk changes' undoStack'' [] (maxHistorySize ct).

Definition canUndo (ct : t) : bool :=
  match undoStack ct with [] => false | _ :: _ => true end.

Definition canRedo (ct : t) : bool :=
  match redoStack ct with [] => false | _ :: _ => true end.

(** The comparator of [getChanges]: [b.timestamp - a.timestamp] is
    positive, and [a] goes after [b], when [a] is the older one. *)
Definition olderThan (a b : Change.t) : bool :=
  (Change.timestamp a <? Change.timestamp b)%Z.

(** [getChanges(filePath = null)]: the changes of one file in the
    order they were recorded, or, without a path (or with the empty
    one), all the changes, the newest first. *)
Definition getChanges (ct : t) (filePath : option string) : list Change.t :=
  match filePath with
  | Some (String _ _ as path) =>
      match JsMap.get (changes ct) path with
      | Some fileChanges => fileChanges
      | None => []
      end
  | _ => Sort.sort olderThan (concat (JsMap.values (changes ct)))
  end.

(** [getRecentChanges(limit = 10)] *)
Definition getRecentChanges (ct : t) (limit : nat) : list Change.t :=
  Arr.slice0 limit (getChanges ct None).

(** [clear()] *)
Definition clear (ct : t) : t := mk [] [] [] (maxHistorySize ct).

Definition concerns (filePath : string) (action : UndoAction.t) : bool :=
  String.eqb (Change.filePath (UndoAction.change action)) filePath.

(** [clearFile(filePath)] *)
Definition clearFile (ct : t) (filePath : string) : t :=
  mk (JsMap.delete (changes ct) filePath)
     (filter (fun action => negb (concerns filePath action)) (undoStack ct))
     (filter (fun action => negb (concerns filePath action)) (redoStack ct))
     (maxHistorySize ct).

Section WithExternals.
Context {ext : Externals}.

Definition revertCreate (win : Window.t) (change : Change.t) : Window.t :=
  match Window.fileSystem win with
  | Some fs =>
      Window.mk (Some (snd (VirtualFileSystem.deleteFile
                              fs (Change.filePath change))))
  | None => win
  end.

(** [revertEdit(change)]: what [updateFile] throws goes on to the
    caller, with the store as [updateFile] left it. *)
Definition revertEdit (now : Z) (win : Window.t) (change : Change.t)
  : outcome unit * Window.t :=
  match Window.fileSystem win, Change.oldContent change with
  | Some fs, Some oldContent =>
      match VirtualFileSystem.updateFile now fs (Change.filePath change)
                                         oldContent with
      | (Returned _, fs') => (Returned tt, Window.mk (Some fs'))
      | (Thrown error, fs') => (Thrown error, Window.mk (Some fs'))
      end
  | _, _ => (Returned tt, win)
  end.

Definition revertDelete (now : Z) (win : Window.t) (change : Change.t)
  : Window.t :=
  match Window.fileSystem win, Change.oldContent change with
  | Some fs, Some oldContent =>
      Window.mk (Some (snd (VirtualFileSystem.addFile
                              now fs (Change.filePath change)
                              (Some oldContent) KFile None None)))
  | _, _ => win
  end.

Definition applyCreate (now : Z) (win : Window.t) (change : Change.t)
  : Window.t :=
  match Window.fileSystem win, Change.newContent change with
  | Some fs, Some newContent =>
      Window.mk (Some (snd (VirtualFileSystem.addFile
                              now fs (Change.filePath change)
                              (Some newContent) KFile None None)))
  | _, _ => win
  end.

Definition applyEdit (now : Z) (win : Window.t) (change : Change.t)
  : outcome unit * Window.t :=
  match Window.fileSystem win, Change.newContent change with
  | Some fs, Some newContent =>
      match VirtualFileSystem.updateFile now fs (Change.filePath change)
                                         newContent with
      | (Returned _, fs') => (Returned tt, Window.mk (Some fs'))
      | (Thrown error, fs') => (Thrown error, Window.mk (Some fs'))
      end
  | _, _ => (Returned tt, win)
  end.

Definition applyDelete (win : Window.t) (change : Change.t) : Window.t :=
  match Window.fileSystem win with
  | Some fs =>
      Window.mk (Some (snd (VirtualFileSystem.deleteFile
                              fs (Change.filePath change))))
  | None => win
  end.

(** [revertChange(change)] *)
Definition revertChange (now : Z) (win : Window.t) (change : Change.t)
  : outcome unit * Window.t :=
  match Change.type change with
  | Create => (Returned tt, revertCreate win change)
  | Edit => revertEdit now win change
  | Delete => (Returned tt, revertDelete now win change)
  | OtherKind name =>
      (Thrown (Err ("Unknown change type: " ++ name)), win)
  end.

(** [applyChange(change)] *)
Definition applyChange (now : Z) (win : Window.t) (change : Change.t)
  : outcome unit * Window.t :=
  match Change.type change with
  | Create => (Returned tt, applyCreate now win change)
  | Edit => applyEdit now win change
  | Delete => (Returned tt, applyDelete win change)
  | OtherKind name =>
      (Thrown (Err ("Unknown change type: " ++ name)), win)
  end.

(** [undo()] at time [now]. *)
Definition undo (now : Z) (ct : t) (win : Window.t)
  : outcome bool * t * Window.t :=
  match Arr.pop (undoStack ct) with
  | None => (Returned false, ct, win)
  | Some (action, rest) =>
      match revertChange now win (UndoAction.change action) with
      | (Returned _, win') =>
          (Returned true,
           mk (changes ct) rest (Arr.push (redoStack ct) action)
              (maxHistorySize ct),
           win')
      | (Thrown error, win') =>
          (Thrown error,
           mk (changes ct) (Arr.push rest action) (redoStack ct)
              (maxHistorySize ct),
           win')
      end
  end.

(** [redo()] at time [now]. *)
Definition redo (now : Z) (ct : t) (win : Window.t)
  : outcome bool * t * Window.t :=
  match Arr.pop (redoStack ct) with
  | None => (Returned false, ct, win)
  | Some (action, rest) =>
      match applyChange now win (UndoAction.change action) with
      | (Returned _, win') =>
          (Returned true,
           mk (changes ct) (Arr.push (undoStack ct) action) rest
              (maxHistorySize ct),
           win')
      | (Thrown error, win') =>
          (Thrown error,
           mk (changes ct) (undoStack ct) (Arr.push rest action)
              (maxHistorySize ct),
           win')
      end
  end.

(** [undo()] called once at each of the times [nows], in order;
    [None] as soon as a call does not return [true]. *)
Fixpoint undoAll (nows : list Z) (ct : t) (win : Window.t)
  : option (t * Window.t) :=
  match nows with
  | [] => Some (ct, win)
  | now :: rest =>
      match undo now ct win with
      | (Returned true, ct', win') => undoAll rest ct' win'
      | _ => None
      end
  end.

Fixpoint redoAll (nows : list Z) (ct : t) (win : Window.t)
  : option (t * Window.t) :=
  match nows with
  | [] => Some (ct, win)
  | now :: rest =>
      match redo now ct win with
      | (Returned true, ct', win') => redoAll rest ct' win'
      | _ => None
      end
  end.

End WithExternals.

End ChangeTracker.

(* ================================================================== *)
(** * Tools (tools/base-tool.js)

    A value of the language, as far as tool arguments need it.  Numbers
    are integers here; a function is known by its name. *)

Inductive JsValue : Type :=
| JUndefined
| JNull
| JBool (b : bool)
| JNum (z : Z)
| JStr (s : string)
| JArr (items : list JsValue)
| JObj (fields : list (string * JsValue))
| JFunction (name : string).

(** An arguments object: its own properties.  The object is a plain one
    (an object literal, or what [JSON.parse] returns), so that behind its
    own properties stand those of [Object.prototype]. *)
Definition Args : Type := JsMap string JsValue.

Module JsValue.

Definition ofZ (z : Z) : string :=
  if (z <? 0)%Z then "-" ++ Str.ofNat (Z.abs_nat z) else Str.ofNat (Z.abs_nat z).

(** [String(v)]; inside an array, [undefined] and [null] give the
    empty text. *)
Fixpoint toText (v : JsValue) : string :=
  match v with
  | JUndefined => "undefined"
  | JNull => "null"
  | JBool true => "true"
  | JBool false => "false"
  | JNum z => ofZ z
  | JStr s => s
  | JArr items =>
      (fix joinItems (l : list JsValue) : string :=
         match l with
         | [] => ""
         | x :: rest =>
             let here := match x with
                         | JUndefined | JNull => ""
                         | _ => toText x
                         end in
             match rest with
             | [] => here
             | _ :: _ => (here ++ "," ++ joinItems rest)%string
             end
         end) items
  | JObj _ => "[object Object]"
  | JFunction name => "function " ++ name ++ "() { [native code] }"
  end.

Definition itemText (v : JsValue) : string :=
  match v with
  | JUndefined | JNull => ""
  | _ => toText v
  end.

(** [SameValueZero], the comparison of [includes].  An array or an
    object parsed from a call is never the very object an [enum] list
    holds. *)
Definition sameValueZero (a b : JsValue) : bool :=
  match a, b with
  | JUndefined, JUndefined => true
  | JNull, JNull => true
  | JBool x, JBool y => Bool.eqb x y
  | JNum x, JNum y => Z.eqb x y
  | JStr x, JStr y => String.eqb x y
  | _, _ => false
  end.

(** The methods every object inherits from [Object.prototype]. *)
Definition prototypeMethods : list string :=
  ["constructor"; "hasOwnProperty"; "isPrototypeOf"; "propertyIsEnumerable";
   "toLocaleString"; "toString"; "valueOf";
   "__defineGetter__"; "__defineSetter__"; "__lookupGetter__";
   "__lookupSetter__"].

(** What a plain object inherits under [name]: one of the methods, or,
    under [__proto__], the prototype itself, an object without own
    enumerable properties. *)
Definition inherited (name : string) : option JsValue :=
  if existsb (String.eqb name) prototypeMethods then Some (JFunction name)
  else if String.eqb name "__proto__" then Some (JObj [])
  else None.

(** [args[name]]: the own property first, the inherited one next;
    [None] when [name in args] is false. *)
Definition getProperty (args : Args) (name : string) : option JsValue :=
  match JsMap.get args name with
  | Some value => Some value
  | None => inherited name
  end.

(** [name in args] *)
Definition hasProperty (args : Args) (name : string) : bool :=
  match getProperty args name with
  | Some _ => true
  | None => false
  end.

End JsValue.

Module ToolParameter.
Record t : Type := mk
  { name : string;
    type : string;
    description : string;
    required : bool;
    enum : option (list JsValue) }.
End ToolParameter.

Module ToolResult.
Record t : Type := mk
  { success : bool;
    result : option string;
    error : option string }.
End ToolResult.

Module ToolCall.
Record t : Type := mk
  { id : string;
    name : string;
    arguments : Args }.
End ToolCall.

Module BaseTool.

(** The [switch] on [param.type]: the message of a value of the wrong
    type. *)
Definition typeErrors (param : ToolParameter.t) (value : JsValue)
  : list string :=
  let name := ToolParameter.name param in
  let type := ToolParameter.type param in
  if String.eqb type "string" then
    match value with
    | JStr _ => []
    | _ => [("Parameter '" ++ name ++ "' must be a string")%string]
    end
  else if String.eqb type "number" then
    match value with
    | JNum _ => []
    | _ => [("Parameter '" ++ name ++ "' must be a number")%string]
    end
  else if String.eqb type "boolean" then
    match value with
    | JBool _ => []
    | _ => [("Parameter '" ++ name ++ "' must be a boolean")%string]
    end
  else if String.eqb type "array" then
    match value with
    | JArr _ => []
    | _ => [("Parameter '" ++ name ++ "' must be an array")%string]
    end
  else if String.eqb type "object" then
    match value with
    | JObj _ => []
    | _ => [("Parameter '" ++ name ++ "' must be an object")%string]
    end
  else [].

Definition enumErrors (param : ToolParameter.t) (value : JsValue)
  : list string :=
  match ToolParameter.enum param with
  | Some allowed =>
      if existsb (JsValue.sameValueZero value) allowed then []
      else [("Parameter '" ++ ToolParameter.name param ++ "' must be one of: "
             ++ Str.join ", " (map JsValue.itemText allowed))%string]
  | None => []
  end.

(** The body of the loop of [validateArgs] for one parameter.  Both
    tests are [param.name in args], which sees the inherited properties
    as well as the own ones. *)
Definition paramErrors (args : Args) (param : ToolParameter.t) : list string :=
  let name := ToolParameter.name param in
  (if ToolParameter.required param && negb (JsValue.hasProperty args name)
   then [("Required parameter '" ++ name ++ "' is missing")%string]
   else [])
  ++ match JsValue.getProperty args name with
     | Some value => typeErrors param value ++ enumErrors param value
     | None => []
     end.

(** [validateArgs(args)] *)
Definition validateArgs (parameters : list ToolParameter.t) (args : Args)
  : list string :=
  flat_map (paramErrors args) parameters.

(** [formatResult(result)] *)
Definition formatResult (result : string) : ToolResult.t :=
  ToolResult.mk true (Some result) None.

(** [formatError(error)] *)
Definition formatError (error : JsError) : ToolResult.t :=
  ToolResult.mk false None (Some (describe error)).

End BaseTool.

(** A tool: the fields of [BaseTool] and the [execute] of the subclass,
    which runs on a state of type [S] and returns or throws. *)
Module Tool.
Record t (S : Type) : Type := mk
  { name : string;
    description : string;
    parameters : list ToolParameter.t;
    execute : Args -> S -> outcome string * S }.
Arguments mk {S}.
Arguments name {S}.
Arguments description {S}.
Arguments parameters {S}.
Arguments execute {S}.
End Tool.

Module ToolRegistry.
Section Registry.
Variable S : Type.

Record t : Type := mk
  { tools : JsMap string (Tool.t S);
    categories : JsMap string (list string) }.

Definition create : t := mk [] [].

(** [register(tool, category)] *)
Definition register (reg : t) (tool : Tool.t S) (category : string) : t :=
  let names := match JsMap.get (categories reg) category with
               | Some l => l
               | None => []
               end in
  mk (JsMap.set (tools reg) (Tool.name tool) tool)
     (JsMap.set (categories reg) category (Arr.push names (Tool.name tool))).

(** [get(name)] *)
Definition get (reg : t) (name : string) : option (Tool.t S) :=
  JsMap.get (tools reg) name.

(** [getByCategory(category)]: the names without a tool are dropped. *)
Definition getByCategory (reg : t) (category : string) : list (Tool.t S) :=
  let toolNames := match JsMap.get (categories reg) category with
                   | Some l => l
                   | None => []
                   end in
  flat_map (fun name => match JsMap.get (tools reg) name with
                        | Some tool => [tool]
                        | None => []
                        end)
           toolNames.

(** [toolNames.splice(toolNames.indexOf(name), 1)] when the name is
    there: its first occurrence is removed. *)
Fixpoint removeFirst (name : string) (toolNames : list string) : list string :=
  match toolNames with
  | [] => []
  | n :: rest => if String.eqb n name then rest else n :: removeFirst name rest
  end.

(** The body of the loop of [unregister] for one category: the list of
    the category shrinks in place, and the category goes when its list
    becomes empty. *)
Definition dropFrom (name : string) (categories : JsMap string (list string))
           (entry : string * list string) : JsMap string (list string) :=
  let (category, toolNames) := entry in
  if existsb (fun n => String.eqb n name) toolNames then
    match removeFirst name toolNames with
    | [] => JsMap.delete categories category
    | remaining => JsMap.set categories category remaining
    end
  else categories.

(** [unregister(name)] *)
Definition unregister (reg : t) (name : string) : t :=
  match JsMap.get (tools reg) name with
  | Some _ =>
      mk (JsMap.delete (tools reg) name)
         (fold_left (dropFrom name) (categories reg) (categories reg))
  | None => reg
  end.

(** The [try] block of [execute]. *)
Definition attempt (tool : Tool.t S) (toolCall : ToolCall.t) (s : S)
  : outcome ToolResult.t * S :=
  let validationErrors :=
    BaseTool.validateArgs (Tool.parameters tool) (ToolCall.arguments toolCall) in
  match validationErrors with
  | _ :: _ =>
      (Returned (BaseTool.formatError
                   (Value ("Validation errors: "
                           ++ Str.join ", " validationErrors)%string)),
       s)
  | [] =>
      match Tool.execute tool (ToolCall.arguments toolCall) s with
      | (Returned result, s') => (Returned (BaseTool.formatResult result), s')
      | (Thrown error, s') => (Thrown error, s')
      end
  end.

(** [execute(toolCall)] *)
Definition execute (reg : t) (toolCall : ToolCall.t) (s : S)
  : outcome ToolResult.t * S :=
  match get reg (ToolCall.name toolCall) with
  | None =>
      (Returned (ToolResult.mk false None
                   (Some ("Unknown tool: " ++ ToolCall.name toolCall)%string)),
       s)
  | Some tool =>
      match attempt tool toolCall s with
      | (Returned r, s') => (Returned r, s')
      | (Thrown error, s') => (Returned (BaseTool.formatError error), s')
      end
  end.

End Registry.
End ToolRegistry.

(* ================================================================== *)
(** * The file tools (tools/file-tools.js)

    A tool holds the file system and the change tracker it was built
    with; [World] is the pair.  The [execute] of a tool takes the fields
    of its [args] object, the time [now] of the call and the [id] drawn
    for the change it records.  The list of recent files kept in the
    browser's local storage is outside the model. *)

Module World.
Record t : Type := mk
  { fileSystem : VirtualFileSystem.t;
    changeTracker : ChangeTracker.t }.
End World.

Definition nl : string := String Utils.newline EmptyString.
Definition quote : string := String "034"%char EmptyString.

(** [throw new Error(prefix + error.message)] in a [catch]. *)
Definition rethrow {A : Type} (prefix : string) (r : outcome A) : outcome A :=
  match r with
  | Returned a => Returned a
  | Thrown error => Thrown (Err (prefix ++ messageOf error))
  end.

Definition lineCount (content : string) : nat :=
  List.length (Str.split Utils.newline content).

Module WriteFileTool.

Definition name : string := "write_file".

Definition parameters : list ToolParameter.t :=
  [ToolParameter.mk "file_path" "string" "Path to the file to write" true None;
   ToolParameter.mk "content" "string" "Content to write to the file" true None].

Section WithExternals.
Context {ext : Externals}.

(** The [try] block of [execute], after the look-up of the path. *)
Definition writeFetched (now : Z) (id : string)
           (existingFile : option FileEntry.t) (fs1 : VirtualFileSystem.t)
           (ct : ChangeTracker.t) (file_path content : string)
  : outcome string * World.t :=
  let oldContent := match existingFile with
                    | Some f => FileEntry.content f
                    | None => None
                    end in
  match VirtualFileSystem.updateFile now fs1 file_path content with
  | (Thrown error, fs2) => (Thrown error, World.mk fs2 ct)
  | (Returned file, fs2) =>
      let changeType := match existingFile with
                        | Some _ => Edit
                        | None => Create
                        end in
      let ct' := ChangeTracker.recordChange now ct
                   (Change.mk changeType file_path oldContent (Some content)
                              now id) in
      let action := match existingFile with
                    | Some _ => "Updated"
                    | None => "Created"
                    end in
      (Returned (action ++ " file: " ++ file_path ++ nl ++ nl
                 ++ "**Size:** " ++ formatFileSize (FileEntry.size file) ++ nl
                 ++ "**Lines:** " ++ Str.ofNat (lineCount content)),
       World.mk fs2 ct')
  end.

(** [execute({file_path, content})]: whatever the [try] block throws
    is thrown again under the prefix of the tool. *)
Definition execute (now : Z) (id : string) (w : World.t)
           (file_path content : string) : outcome string * World.t :=
  match VirtualFileSystem.getFile now (World.fileSystem w) file_path with
  | (Thrown error, fs1) =>
      (rethrow "Failed to write file: " (Thrown error),
       World.mk fs1 (World.changeTracker w))
  | (Returned existingFile, fs1) =>
      let (r, w') := writeFetched now id existingFile fs1 (World.changeTracker w)
                                  file_path content in
      (rethrow "Failed to write file: " r, w')
  end.
End WithExternals.

End WriteFileTool.

Module EditFileTool.

Definition name : string := "edit_file".

Definition parameters : list ToolParameter.t :=
  [ToolParameter.mk "file_path" "string" "Path to the file to edit" true None;
   ToolParameter.mk "old_content" "string"
                    "Content to replace (must match exactly)" true None;
   ToolParameter.mk "new_content" "string" "New content to replace with" true None;
   ToolParameter.mk "replace_all" "boolean"
                    "Replace all occurrences (default: false)" false None].

(** The number of matches of [new RegExp(this.escapeRegex(old_content),
    'g')]: the escaped pattern stands for [old_content] itself. *)
Definition occurrences (originalContent old_content : string) : nat :=
  Str.countOccurrences old_content originalContent.

Definition preview (text : string) : string :=
  Str.take 100 text ++ (if 100 <? String.length text then "..." else "").

Section WithExternals.
Context {ext : Externals}.

(** The [try] block of [execute], after the file was fetched. *)
Definition editFetched (now : Z) (id : string)
           (file : option FileEntry.t) (fs1 : VirtualFileSystem.t)
           (ct : ChangeTracker.t)
           (file_path old_content new_content : string) (replace_all : bool)
  : outcome string * World.t :=
  match file with
  | None => (Thrown (Err ("File not found: " ++ file_path)), World.mk fs1 ct)
  | Some f =>
      match FileEntry.type f with
      | KDirectory =>
          (Thrown (Err ("Path is a directory, not a file: " ++ file_path)),
           World.mk fs1 ct)
      | KFile =>
          match FileEntry.content f with
          | None =>
              (Thrown (Err (nullPropertyMessage "includes")), World.mk fs1 ct)
          | Some originalContent =>
              if negb (Str.includes originalContent old_content) then
                (Thrown (Err "Content not found in file. Make sure the content matches exactly, including whitespace and line breaks."),
                 World.mk fs1 ct)
              else
                let n := occurrences originalContent old_content in
                if negb replace_all && (1 <? n) then
                  (Thrown (Err ("Content appears " ++ Str.ofNat n
                                ++ " times in the file. Use replace_all: true to replace all occurrences, or provide more specific content to match only one occurrence.")),
                   World.mk fs1 ct)
                else
                  let newFileContent :=
                    if replace_all
                    then Str.replaceAll originalContent old_content new_content
                    else Str.replaceFirst originalContent old_content new_content in
                  match VirtualFileSystem.updateFile now fs1 file_path
                                                     newFileContent with
                  | (Thrown error, fs2) => (Thrown error, World.mk fs2 ct)
                  | (Returned _, fs2) =>
                      let ct' := ChangeTracker.recordChange now ct
                                   (Change.mk Edit file_path (Some originalContent)
                                              (Some newFileContent) now id) in
                      let replacedCount := if replace_all then n else 1 in
                      (Returned ("Successfully edited file: " ++ file_path
                                 ++ nl ++ nl
                                 ++ "**Replacements made:** "
                                 ++ Str.ofNat replacedCount
                                 ++ nl ++ "**Old content:** " ++ preview old_content
                                 ++ nl ++ "**New content:** " ++ preview new_content),
                       World.mk fs2 ct')
                  end
          end
      end
  end.

(** [execute({file_path, old_content, new_content, replace_all = false})] *)
Definition execute (now : Z) (id : string) (w : World.t)
           (file_path old_content new_content : string) (replace_all : bool)
  : outcome string * World.t :=
  match VirtualFileSystem.getFile now (World.fileSystem w) file_path with
  | (Thrown error, fs1) =>
      (rethrow "Failed to edit file: " (Thrown error),
       World.mk fs1 (World.changeTracker w))
  | (Returned file, fs1) =>
      let (r, w') := editFetched now id file fs1 (World.changeTracker w)
                                 file_path old_content new_content replace_all in
      (rethrow "Failed to edit file: " r, w')
  end.
End WithExternals.

End EditFileTool.

Module CreateFileTool.

Definition name : string := "create_file".

Definition parameters : list ToolParameter.t :=
  [ToolParameter.mk "file_path" "string" "Path for the new file" true None;
   ToolParameter.mk "content" "string" "Initial content for the file" false None;
   ToolParameter.mk "file_type" "string" "Type of file to create" false
                    (Some [JStr "text"; JStr "code"; JStr "config";
                           JStr "markdown"])].

(** The text before the last dot: [fileName] with its last extension
    removed. *)
Definition stripExtension (fileName : string) : string :=
  match Str.split Utils.dot fileName with
  | [] | [_] => fileName
  | parts => Str.join "." (List.removelast parts)
  end.

Definition dashToSpace (c : ascii) : ascii :=
  if Ascii.eqb c "-"%char || Ascii.eqb c "_"%char then " "%char else c.

Definition getCodeTemplate (extension fileName : string) : string :=
  if String.eqb extension "js" then
    "/**" ++ nl ++ " * " ++ fileName ++ nl ++ " */" ++ nl ++ nl
    ++ "// TODO: Implement functionality" ++ nl
  else if String.eqb extension "ts" then
    "/**" ++ nl ++ " * " ++ fileName ++ nl ++ " */" ++ nl ++ nl
    ++ "// TODO: Implement functionality" ++ nl ++ "export {};" ++ nl
  else if String.eqb extension "py" then
    "#!/usr/bin/env python3" ++ nl ++ quote ++ quote ++ quote ++ nl
    ++ fileName ++ nl ++ quote ++ quote ++ quote ++ nl ++ nl
    ++ "# TODO: Implement functionality" ++ nl
  else if String.eqb extension "java" then
    "public class " ++ stripExtension fileName ++ " {" ++ nl
    ++ "    // TODO: Implement functionality" ++ nl ++ "}" ++ nl
  else if String.eqb extension "cpp" then
    "#include <iostream>" ++ nl ++ nl ++ "int main() {" ++ nl
    ++ "    // TODO: Implement functionality" ++ nl
    ++ "    return 0;" ++ nl ++ "}" ++ nl
  else if String.eqb extension "html" then
    "<!DOCTYPE html>" ++ nl
    ++ "<html lang=" ++ quote ++ "en" ++ quote ++ ">" ++ nl
    ++ "<head>" ++ nl
    ++ "    <meta charset=" ++ quote ++ "UTF-8" ++ quote ++ ">" ++ nl
    ++ "    <meta name=" ++ quote ++ "viewport" ++ quote ++ " content="
    ++ quote ++ "width=device-width, initial-scale=1.0" ++ quote ++ ">" ++ nl
    ++ "    <title>Document</title>" ++ nl
    ++ "</head>" ++ nl ++ "<body>" ++ nl
    ++ "    <!-- TODO: Add content -->" ++ nl
    ++ "</body>" ++ nl ++ "</html>" ++ nl
  else if String.eqb extension "css" then
    "/* " ++ fileName ++ " */" ++ nl ++ nl ++ "/* TODO: Add styles */" ++ nl
  else
    "// " ++ fileName ++ nl ++ nl ++ "// TODO: Implement functionality" ++ nl.

Definition quoted (text : string) : string := quote ++ text ++ quote.

Definition getConfigTemplate (extension : string) : string :=
  if String.eqb extension "json" then
    "{" ++ nl ++ "    " ++ quoted "name" ++ ": " ++ quoted "project" ++ ","
    ++ nl ++ "    " ++ quoted "version" ++ ": " ++ quoted "1.0.0" ++ nl
    ++ "}" ++ nl
  else if String.eqb extension "yaml" || String.eqb extension "yml" then
    "name: project" ++ nl ++ "version: 1.0.0" ++ nl
  else if String.eqb extension "toml" then
    "[project]" ++ nl ++ "name = " ++ quoted "project" ++ nl
    ++ "version = " ++ quoted "1.0.0" ++ nl
  else if String.eqb extension "ini" then
    "[DEFAULT]" ++ nl ++ "name = project" ++ nl ++ "version = 1.0.0" ++ nl
  else "# Configuration file" ++ nl.

Definition getMarkdownTemplate (fileName : string) : string :=
  let title := Str.mapChars dashToSpace (stripExtension fileName) in
  "# " ++ title ++ nl ++ nl ++ "## Overview" ++ nl ++ nl
  ++ "TODO: Add description" ++ nl ++ nl ++ "## Usage" ++ nl ++ nl
  ++ "TODO: Add usage instructions" ++ nl.

Definition getTemplateContent (filePath fileType : string) : string :=
  let extension := Utils.getFileExtension filePath in
  let fileName := Utils.getFileName filePath in
  if String.eqb fileType "code" then getCodeTemplate extension fileName
  else if String.eqb fileType "config" then getConfigTemplate extension
  else if String.eqb fileType "markdown" then getMarkdownTemplate fileName
  else "".

Definition alreadyExists (file_path : string) : string :=
  "File already exists: " ++ file_path
  ++ ". Use write_file or edit_file to modify existing files.".

Section WithExternals.
Context {ext : Externals}.

(** The [try] block of [execute], after the look-up of the path. *)
Definition createFetched (now : Z) (id : string)
           (existingFile : option FileEntry.t) (fs1 : VirtualFileSystem.t)
           (ct : ChangeTracker.t) (file_path content file_type : string)
  : outcome string * World.t :=
  match existingFile with
  | Some _ => (Thrown (Err (alreadyExists file_path)), World.mk fs1 ct)
  | None =>
      let finalContent :=
        match content, file_type with
        | EmptyString, String _ _ => getTemplateContent file_path file_type
        | _, _ => content
        end in
      let (file, fs2) :=
        VirtualFileSystem.addFile now fs1 file_path (Some finalContent)
                                  KFile None None in
      let ct' := ChangeTracker.recordChange now ct
                   (Change.mk Create file_path None (Some finalContent) now id) in
      (Returned ("Created new file: " ++ file_path ++ nl ++ nl
                 ++ "**Type:** " ++ file_type ++ nl
                 ++ "**Size:** " ++ formatFileSize (FileEntry.size file) ++ nl
                 ++ "**Lines:** " ++ Str.ofNat (lineCount finalContent)),
       World.mk fs2 ct')
  end.

(** [execute({file_path, content = '', file_type = 'text'})] *)
Definition execute (now : Z) (id : string) (w : World.t)
           (file_path content file_type : string)
  : outcome string * World.t :=
  match VirtualFileSystem.getFile now (World.fileSystem w) file_path with
  | (Thrown error, fs1) =>
      (rethrow "Failed to create file: " (Thrown error),
       World.mk fs1 (World.changeTracker w))
  | (Returned existingFile, fs1) =>
      let (r, w') := createFetched now id existingFile fs1 (World.changeTracker w)
                                   file_path content file_type in
      (rethrow "Failed to create file: " r, w')
  end.
End WithExternals.

End CreateFileTool.

Module DeleteFileTool.

Definition name : string := "delete_file".

Definition parameters : list ToolParameter.t :=
  [ToolParameter.mk "file_path" "string" "Path to the file to delete" true None;
   ToolParameter.mk "confirm" "boolean"
                    "Confirm deletion (required for safety)" true None].

Section WithExternals.
Context {ext : Externals}.

(** The [try] block of [execute]. *)
Definition deleteFetched (now : Z) (id : string)
           (file : option FileEntry.t) (fs1 : VirtualFileSystem.t)
           (ct : ChangeTracker.t) (file_path : string)
  : outcome string * World.t :=
  match file with
  | None => (Thrown (Err ("File not found: " ++ file_path)), World.mk fs1 ct)
  | Some f =>
      match FileEntry.type f with
      | KDirectory =>
          (Thrown (Err ("Cannot delete directory with this tool: " ++ file_path)),
           World.mk fs1 ct)
      | KFile =>
          let oldContent := FileEntry.content f in
          let (deleted, fs2) := VirtualFileSystem.deleteFile fs1 file_path in
          if negb deleted then
            (Thrown (Err ("Failed to delete file: " ++ file_path)),
             World.mk fs2 ct)
          else
            let ct' := ChangeTracker.recordChange now ct
                         (Change.mk Delete file_path oldContent None now id) in
            (Returned ("Deleted file: " ++ file_path), World.mk fs2 ct')
      end
  end.

(** [execute({file_path, confirm})] *)
Definition execute (now : Z) (id : string) (w : World.t)
           (file_path : string) (confirm : bool)
  : outcome string * World.t :=
  if negb confirm then
    (Thrown (Err "Deletion must be confirmed by setting confirm: true"), w)
  else
    match VirtualFileSystem.getFile now (World.fileSystem w) file_path with
    | (Thrown error, fs1) =>
        (rethrow "Failed to delete file: " (Thrown error),
         World.mk fs1 (World.changeTracker w))
    | (Returned file, fs1) =>
        let (r, w') := deleteFetched now id file fs1 (World.changeTracker w)
                                     file_path in
        (rethrow "Failed to delete file: " r, w')
    end.
End WithExternals.

End DeleteFileTool.

(* ================================================================== *)
(** * The search tool (the search and analysis tools script) *)

Module SearchFilesTool.

(** [highlightMatch(text, query, caseSensitive)] *)
Definition highlightMatch (text query : string) (caseSensitive : bool)
  : string :=
  let searchText := if caseSensitive then text else Str.toLowerCase text in
  let searchQuery := if caseSensitive then query else Str.toLowerCase query in
  match Str.indexOf searchText searchQuery with
  | None => text
  | Some index =>
      Str.take index text
      ++ "**" ++ Str.take (String.length query) (Str.drop index text) ++ "**"
      ++ Str.drop (index + String.length query) text
  end.

End SearchFilesTool.

(* ================================================================== *)
(** * ContextManager (core/utils.js) *)

Module ContextManager.

(** The numeric fields; the file system the manager holds is passed
    to the methods that use it. *)
Record t : Type := mk
  { maxContextTokens : nat;
    avgCharsPerToken : nat;
    maxContextChars : nat }.

(** [new ContextManager(fileSystem)] *)
Definition create : t := mk 8000 4 (8000 * 4).

(** [updateConfig({maxContextTokens, avgCharsPerToken})], a field
    that is absent or zero being skipped. *)
Definition updateConfig (cm : t) (tokens chars : option nat) : t :=
  let cm1 := match tokens with
             | Some (S n) => mk (S n) (avgCharsPerToken cm)
                                (S n * avgCharsPerToken cm)
             | _ => cm
             end in
  match chars with
  | Some (S n) => mk (maxContextTokens cm1) (S n) (maxContextTokens cm1 * S n)
  | _ => cm1
  end.

(** ** Keywords of a prompt *)

Definition keywordStopWords : list string :=
  ["the"; "a"; "an"; "and"; "or"; "but"; "in"; "on"; "at"; "to"; "for"; "of";
   "with"; "by";
   "from"; "up"; "about"; "into"; "through"; "during"; "before"; "after";
   "above"; "below";
   "can"; "could"; "should"; "would"; "will"; "shall"; "may"; "might"; "must";
   "i"; "you"; "he"; "she"; "it"; "we"; "they"; "me"; "him"; "her"; "us";
   "them";
   "this"; "that"; "these"; "those"; "is"; "are"; "was"; "were"; "be"; "been";
   "being";
   "have"; "has"; "had"; "do"; "does"; "did"; "get"; "got"; "make"; "let";
   "put"].

Definition isKeyword (word : string) : bool :=
  (2 <? String.length word) && negb (existsb (String.eqb word) keywordStopWords).

(** [extractKeywords(prompt)]: the words that pass the filter, each
    once, in the order of their first occurrence. *)
Definition extractKeywords (prompt : string) : list string :=
  fold_left JsSet.add
    (filter isKeyword
       (Str.splitSpaces
          (Str.mapChars FileIndex.blankPunctuation (Str.toLowerCase prompt))))
    [].

(** ** Import statements *)

Definition isQuote (c : ascii) : bool :=
  Ascii.eqb c "'"%char || Ascii.eqb c "034"%char.

(** The character class of [.]: no line terminator. *)
Definition isLineTerminator (c : ascii) : bool :=
  Ascii.eqb c "010"%char || Ascii.eqb c "013"%char.

Definition afterPrefix (s p : string) : option string :=
  if Str.startsWith s p then Some (Str.drop (String.length p) s) else None.

(** At least one white-space character, then the rest. *)
Definition afterSpaces1 (s : string) : option string :=
  match s with
  | String c _ => if Str.isSpace c then Some (Str.dropWhile Str.isSpace s)
                  else None
  | EmptyString => None
  end.

(** A run of at least one character outside [stop], closed by a
    character of [close]: the run. *)
Definition bodyUntil (stop close : ascii -> bool) (s : string)
  : option (string * string) :=
  let body := Str.takeWhile (fun c => negb (stop c)) s in
  match body, Str.dropWhile (fun c => negb (stop c)) s with
  | String _ _, String c rest => if close c then Some (body, rest) else None
  | _, _ => None
  end.

(** A quote, a body without quotes, a quote. *)
Definition quotedBody (s : string) : option (string * string) :=
  match s with
  | String c rest => if isQuote c then bodyUntil isQuote isQuote rest else None
  | EmptyString => None
  end.

(** [from], white space, a quoted body: what follows the lazy [.*?] of
    the first pattern. *)
Definition fromClauseAt (s : string) : option string :=
  match afterPrefix s "from" with
  | Some r1 =>
      match afterSpaces1 r1 with
      | Some r2 => option_map fst (quotedBody r2)
      | None => None
      end
  | None => None
  end.

Fixpoint fromClause (s : string) : option string :=
  match fromClauseAt s with
  | Some body => Some body
  | None =>
      match s with
      | String c s' => if isLineTerminator c then None else fromClause s'
      | EmptyString => None
      end
  end.

(** The ES import pattern, anchored at the start of the line. *)
Definition matchEsImport (trimmed : string) : option string :=
  match afterPrefix trimmed "import" with
  | Some r1 =>
      match afterSpaces1 r1 with
      | Some r2 => fromClause r2
      | None => None
      end
  | None => None
  end.

Definition requireAt (s : string) : option string :=
  match afterPrefix s "require" with
  | Some r1 =>
      match Str.dropWhile Str.isSpace r1 with
      | String c r2 =>
          if Ascii.eqb c "("%char then
            match quotedBody (Str.dropWhile Str.isSpace r2) with
            | Some (body, r3) =>
                match Str.dropWhile Str.isSpace r3 with
                | String d _ => if Ascii.eqb d ")"%char then Some body else None
                | EmptyString => None
                end
            | None => None
            end
          else None
      | EmptyString => None
      end
  | None => None
  end.

(** The [require] pattern, anywhere in the line. *)
Fixpoint matchRequire (s : string) : option string :=
  match requireAt s with
  | Some body => Some body
  | None => match s with
            | String _ s' => matchRequire s'
            | EmptyString => None
            end
  end.

(** The Python [from ... import] pattern. *)
Definition matchPyFrom (trimmed : string) : option string :=
  match afterPrefix trimmed "from" with
  | Some r1 =>
      match afterSpaces1 r1 with
      | Some r2 =>
          let word := Str.takeWhile (fun c => negb (Str.isSpace c)) r2 in
          match word, afterSpaces1 (Str.dropWhile (fun c => negb (Str.isSpace c)) r2) with
          | String _ _, Some r3 =>
              if Str.startsWith r3 "import" then Some word else None
          | _, _ => None
          end
      | None => None
      end
  | None => None
  end.

(** The plain [import] pattern. *)
Definition matchImport (trimmed : string) : option string :=
  match afterPrefix trimmed "import" with
  | Some r1 =>
      match afterSpaces1 r1 with
      | Some r2 =>
          match Str.takeWhile (fun c => negb (Str.isSpace c)) r2 with
          | EmptyString => None
          | word => Some word
          end
      | None => None
      end
  | None => None
  end.

Definition isIncludeOpen (c : ascii) : bool :=
  Ascii.eqb c "034"%char || Ascii.eqb c "<"%char.
Definition isIncludeClose (c : ascii) : bool :=
  Ascii.eqb c "034"%char || Ascii.eqb c ">"%char.

(** The C include pattern. *)
Definition matchInclude (trimmed : string) : option string :=
  match afterPrefix trimmed "#include" with
  | Some r1 =>
      match Str.dropWhile Str.isSpace r1 with
      | String c r2 =>
          if isIncludeOpen c
          then option_map fst (bodyUntil isIncludeClose isIncludeClose r2)
          else None
      | EmptyString => None
      end
  | None => None
  end.

Definition importOfLine (line : string) : list string :=
  let trimmed := Str.trim line in
  match matchEsImport trimmed with
  | Some m => [m]
  | None =>
  match matchRequire trimmed with
  | Some m => [m]
  | None =>
  match matchPyFrom trimmed with
  | Some m => [m]
  | None =>
  match matchImport trimmed with
  | Some m => [m]
  | None =>
  match matchInclude trimmed with
  | Some m => [m]
  | None => []
  end end end end end.

(** [extractImports(content)] *)
Definition extractImports (content : string) : list string :=
  flat_map importOfLine (Str.split Utils.newline content).

(** [resolvePath(base, relative)] *)
Definition resolvePath (base relative : string) : string :=
  let parts := (Str.split Utils.slash base ++ Str.split Utils.slash relative)%list in
  Str.join "/"
    (fold_left
       (fun resolved part =>
          if String.eqb part ".." then List.removelast resolved
          else if negb (String.eqb part ".") && negb (String.eqb part "")
          then Arr.push resolved part
          else resolved)
       parts []).

Definition firstExisting (fs : VirtualFileSystem.t) (paths : list string)
  : option string :=
  List.find (fun path => JsMap.has (VirtualFileSystem.files fs) path) paths.

(** [resolveImportPath(importPath, fromFile)] *)
Definition resolveImportPath (fs : VirtualFileSystem.t) (importPath : string)
           (fromFile : option string) : option string :=
  let possiblePaths :=
    [importPath; "src/" ++ importPath; "lib/" ++ importPath;
     importPath ++ ".js"; importPath ++ ".ts";
     "src/" ++ importPath ++ ".js"; "src/" ++ importPath ++ ".ts"] in
  if Str.startsWith importPath "./" || Str.startsWith importPath "../" then
    match fromFile with
    | None | Some EmptyString => None
    | Some fromFile' =>
        let fromDir := Utils.getDirectoryPath fromFile' in
        let resolved := resolvePath fromDir importPath in
        let extensions := [""; ".js"; ".ts"; ".jsx"; ".tsx"; "/index.js"; "/index.ts"] in
        match firstExisting fs (map (fun e => resolved ++ e) extensions) with
        | Some testPath => Some testPath
        | None => firstExisting fs possiblePaths
        end
    end
  else firstExisting fs possiblePaths.

Definition score06 : Q := 6 # 10.
Definition score08 : Q := 8 # 10.
Definition score07 : Q := 7 # 10.

(** The imports of all the files, as the [Set] collects them; [None]
    when a file has no content ([null]). *)
Fixpoint collectImports (relevantFiles : list RelevantFile.t) (imports : JsSet)
  : option JsSet :=
  match relevantFiles with
  | [] => Some imports
  | relevantFile :: rest =>
      match RelevantFile.content relevantFile with
      | None => None
      | Some content =>
          collectImports rest (fold_left JsSet.add (extractImports content) imports)
      end
  end.

Section WithExternals.
Context {ext : Externals}.

(** The loop over the imports; a path that resolves to nothing, or to
    the empty text, is passed over.  A throw of [getFile] ends the
    loop and goes on to the caller. *)
Fixpoint resolveImports (now : Z) (fs : VirtualFileSystem.t)
         (fromFile : option string) (imports : list string)
         (relatedFiles : list RelevantFile.t)
  : outcome (list RelevantFile.t) * VirtualFileSystem.t :=
  match imports with
  | [] => (Returned relatedFiles, fs)
  | importPath :: rest =>
      if 3 <=? List.length relatedFiles then (Returned relatedFiles, fs)
      else
        match resolveImportPath fs importPath fromFile with
        | Some (String _ _ as resolvedPath) =>
            match VirtualFileSystem.getFile now fs resolvedPath with
            | (Thrown error, fs1) => (Thrown error, fs1)
            | (Returned (Some f), fs1) =>
                resolveImports now fs1 fromFile rest
                  (Arr.push relatedFiles
                     (RelevantFile.mk resolvedPath (FileEntry.content f)
                                      score06 "dependency" []))
            | (Returned None, fs1) =>
                resolveImports now fs1 fromFile rest relatedFiles
            end
        | _ => resolveImports now fs fromFile rest relatedFiles
        end
  end.

(** [findRelatedFiles(relevantFiles)] *)
Definition findRelatedFiles (now : Z) (fs : VirtualFileSystem.t)
           (relevantFiles : list RelevantFile.t)
  : outcome (list RelevantFile.t) * VirtualFileSystem.t :=
  match collectImports relevantFiles [] with
  | None => (Thrown (Err (nullPropertyMessage "split")), fs)
  | Some imports =>
      let fromFile := match relevantFiles with
                      | first :: _ => Some (RelevantFile.path first)
                      | [] => None
                      end in
      resolveImports now fs fromFile imports []
  end.

(** Stage 1 of [findRelevantFiles]: the files the prompt names.  The
    loop stands in no [try]: a throw of [getFile] ends the whole call. *)
Fixpoint addMentioned (now : Z) (fs : VirtualFileSystem.t)
         (targetFiles : list string)
         (relevantFiles : list RelevantFile.t) (seenPaths : JsSet)
  : outcome (list RelevantFile.t * JsSet) * VirtualFileSystem.t :=
  match targetFiles with
  | [] => (Returned (relevantFiles, seenPaths), fs)
  | filePath :: rest =>
      if JsSet.has seenPaths filePath
      then addMentioned now fs rest relevantFiles seenPaths
      else
        match VirtualFileSystem.getFile now fs filePath with
        | (Thrown error, fs1) => (Thrown error, fs1)
        | (Returned (Some f), fs1) =>
            addMentioned now fs1 rest
              (Arr.push relevantFiles
                 (RelevantFile.mk filePath (FileEntry.content f) 1%Q
                                  "directly_mentioned" []))
              (JsSet.add seenPaths filePath)
        | (Returned None, fs1) =>
            addMentioned now fs1 rest relevantFiles seenPaths
        end
  end.

(** The loop over the results of one keyword.  It stands in the [try]
    of the keyword: a throw of [getFile] ends the loop, the [catch]
    takes it, and what the loop has chosen so far stays chosen. *)
Fixpoint addResults (now : Z) (fs : VirtualFileSystem.t) (maxFiles : nat)
         (searchResults : list FileSearchResult.t)
         (relevantFiles : list RelevantFile.t) (seenPaths : JsSet)
  : list RelevantFile.t * JsSet * VirtualFileSystem.t :=
  match searchResults with
  | [] => (relevantFiles, seenPaths, fs)
  | result :: rest =>
      if JsSet.has seenPaths (FileSearchResult.filePath result)
         || (maxFiles <=? List.length relevantFiles)
      then (relevantFiles, seenPaths, fs)
      else
        match VirtualFileSystem.getFile now fs
                                        (FileSearchResult.filePath result) with
        | (Thrown _, fs1) => (relevantFiles, seenPaths, fs1)
        | (Returned (Some f), fs1) =>
            addResults now fs1 maxFiles rest
              (Arr.push relevantFiles
                 (RelevantFile.mk (FileSearchResult.filePath result)
                                  (FileEntry.content f)
                                  (FileSearchResult.score result * score08)%Q
                                  "keyword_match"
                                  (FileSearchResult.matchedLines result)))
              (JsSet.add seenPaths (FileSearchResult.filePath result))
        | (Returned None, fs1) =>
            addResults now fs1 maxFiles rest relevantFiles seenPaths
        end
  end.

(** Stage 2: the loop over the keywords; [None] when a keyword is
    outside the queries of [FileIndex.regexpCount].  A search that
    throws is caught and the loop goes on with the next keyword. *)
Fixpoint addKeywords (now : Z) (fs : VirtualFileSystem.t) (maxFiles : nat)
         (searchOptions : SearchOptions.t) (keywords : list string)
         (relevantFiles : list RelevantFile.t) (seenPaths : JsSet)
  : option (list RelevantFile.t * JsSet * VirtualFileSystem.t) :=
  match keywords with
  | [] => Some (relevantFiles, seenPaths, fs)
  | keyword :: rest =>
      match VirtualFileSystem.searchFiles now fs keyword searchOptions with
      | None => None
      | Some (Thrown _, fs1) =>
          addKeywords now fs1 maxFiles searchOptions rest
                      relevantFiles seenPaths
      | Some (Returned searchResults, fs1) =>
          match addResults now fs1 maxFiles searchResults
                           relevantFiles seenPaths with
          | (relevantFiles', seenPaths', fs2) =>
              addKeywords now fs2 maxFiles searchOptions rest
                          relevantFiles' seenPaths'
          end
      end
  end.

(** Stage 3: the loop over the related files. *)
Fixpoint addRelated (maxFiles : nat) (relatedFiles : list RelevantFile.t)
         (relevantFiles : list RelevantFile.t) (seenPaths : JsSet)
  : list RelevantFile.t :=
  match relatedFiles with
  | [] => relevantFiles
  | relatedFile :: rest =>
      if JsSet.has seenPaths (RelevantFile.path relatedFile)
         || (maxFiles <=? List.length relevantFiles)
      then relevantFiles
      else addRelated maxFiles rest (Arr.push relevantFiles relatedFile)
                      (JsSet.add seenPaths (RelevantFile.path relatedFile))
  end.

Definition byRelevance (a b : RelevantFile.t) : bool :=
  Qltb (RelevantFile.relevanceScore a) (RelevantFile.relevanceScore b).

(** [findRelevantFiles(intent, maxFiles = 5)]; [None] when a keyword
    is outside the queries of [FileIndex.regexpCount]. *)
Definition findRelevantFiles (now : Z) (fs : VirtualFileSystem.t)
           (intent : UserIntent.t) (maxFiles : nat)
  : option (outcome (list RelevantFile.t) * VirtualFileSystem.t) :=
  match addMentioned now fs (UserIntent.targetFiles intent) [] [] with
  | (Thrown error, fs1) => Some (Thrown error, fs1)
  | (Returned (relevantFiles1, seenPaths1), fs1) =>
      let stage2 :=
        match UserIntent.keywords intent with
        | _ :: _ =>
            if List.length relevantFiles1 <? maxFiles then
              addKeywords now fs1 maxFiles
                          (SearchOptions.mk true true false (maxFiles * 2))
                          (Arr.slice0 3 (UserIntent.keywords intent))
                          relevantFiles1 seenPaths1
            else Some (relevantFiles1, seenPaths1, fs1)
        | [] => Some (relevantFiles1, seenPaths1, fs1)
        end in
      match stage2 with
      | None => None
      | Some (relevantFiles2, seenPaths2, fs2) =>
          if (0 <? List.length relevantFiles2)
             && (List.length relevantFiles2 <? maxFiles)
          then
            match findRelatedFiles now fs2 relevantFiles2 with
            | (Returned relatedFiles, fs3) =>
                Some (Returned
                        (Sort.sort byRelevance
                           (addRelated maxFiles relatedFiles
                                       relevantFiles2 seenPaths2)),
                      fs3)
            | (Thrown error, fs3) => Some (Thrown error, fs3)
            end
          else Some (Returned (Sort.sort byRelevance relevantFiles2), fs2)
      end
  end.

End WithExternals.

Definition truncationMark : string := nl ++ nl ++ "... [truncated]".

(** The loop of [trimContextToLimit]. *)
Fixpoint trimFrom (maxChars : nat) (relevantFiles : list RelevantFile.t)
         (totalChars : nat) (trimmedFiles : list RelevantFile.t)
  : outcome (list RelevantFile.t) :=
  match relevantFiles with
  | [] => Returned trimmedFiles
  | file :: rest =>
      match RelevantFile.content file with
      | None => Thrown (Err (nullPropertyMessage "length"))
      | Some content =>
          let fileChars := String.length content in
          if totalChars + fileChars <=? maxChars then
            trimFrom maxChars rest (totalChars + fileChars)
                     (Arr.push trimmedFiles file)
          else
            let remainingChars := maxChars - totalChars in
            if 500 <? remainingChars then
              let partialContent :=
                Str.take (remainingChars - 100) content ++ truncationMark in
              Returned
                (Arr.push trimmedFiles
                   (RelevantFile.mk (RelevantFile.path file)
                                    (Some partialContent)
                                    (RelevantFile.relevanceScore file * score07)%Q
                                    (RelevantFile.reason file ++ "_partial")
                                    (RelevantFile.matchedLines file)))
            else Returned trimmedFiles
      end
  end.

(** [trimContextToLimit(relevantFiles)] *)
Definition trimContextToLimit (cm : t) (relevantFiles : list RelevantFile.t)
  : outcome (list RelevantFile.t) :=
  trimFrom (maxContextChars cm) relevantFiles 0 [].

End ContextManager.

(* ================================================================== *)
(** * Notions used in the statements *)

(** An instance of [Externals] in which the abstract functions find no
    symbol and render nothing; used where a closed example needs one. *)
Definition blankExternals : Externals :=
  {| extractJavaScriptSymbols := fun _ _ => [];
     extractPythonSymbols := fun _ _ => [];
     extractJavaSymbols := fun _ _ => [];
     extractCSymbols := fun _ _ => [];
     extractGoSymbols := fun _ _ => [];
     formatFileSize := fun _ => "";
     formatDate := fun _ => "" |}.

(** The content a window shows for a path: that of its file system,
    nothing when [window.fileSystem] is not set. *)
Definition contentOf (win : Window.t) (path : string) : option (option string) :=
  match Window.fileSystem win with
  | Some fs => VirtualFileSystem.contentAt fs path
  | None => None
  end.

Module History.

(** A change as the tools record it: of one of the three kinds, a
    create or an edit carrying its new content. *)
Definition wellFormed (c : Change.t) : bool :=
  match Change.type c, Change.newContent c with
  | Create, Some _ => true
  | Edit, Some _ => true
  | Delete, _ => true
  | _, _ => false
  end.

(** What a change leaves at its path: no entry after a delete, the new
    content otherwise. *)
Definition after (c : Change.t) : option (option string) :=
  match Change.type c with
  | Delete => None
  | _ => Some (Change.newContent c)
  end.

Definition pathOf (c : Change.t) : string :=
  Utils.normalizePath (Change.filePath c).

Definition isEdit (c : Change.t) : bool :=
  match Change.type c with
  | Edit => true
  | _ => false
  end.

(** The window can take an edit back and lay it on again: it holds no
    store, or a store on a page with a content cache.  (On the page as
    the scripts leave it [updateFile] throws on every entry.) *)
Definition servesEdits (win : Window.t) : bool :=
  match Window.fileSystem win with
  | Some fs => VirtualFileSystem.hasCache fs
  | None => true
  end.

(** No action of the stack is an edit. *)
Definition editFree (stack : list UndoAction.t) : bool :=
  forallb (fun action => negb (isEdit (UndoAction.change action))) stack.

(** The contents [f] with the effects of the changes [l] laid over
    them, oldest first. *)
Fixpoint replay (l : list Change.t) (f : string -> option (option string))
  : string -> option (option string) :=
  match l with
  | [] => f
  | c :: rest =>
      replay rest (fun q => if String.eqb q (pathOf c) then after c else f q)
  end.

(** The stack [stack] tells the truth about the contents [f]: whatever
    number of its latest changes is laid over [f], nothing moves, and
    each of them is well formed. *)
Definition faithful (f : string -> option (option string))
           (stack : list UndoAction.t) : Prop :=
  forall older latest,
    stack = (older ++ latest)%list ->
    forallb wellFormed (map UndoAction.change latest) = true
    /\ forall q, replay (map UndoAction.change latest) f q = f q.

(** One call of a mutating file tool. *)
Inductive Op : Type :=
| Write (file_path content : string)
| EditOp (file_path old_content new_content : string) (replace_all : bool)
| CreateOp (file_path content file_type : string)
| DeleteOp (file_path : string) (confirm : bool).

(** A call, with the time at which it runs and the id drawn for the
    change it records. *)
Record Call : Type := mkCall
  { now : Z;
    id : string;
    op : Op }.

Section WithExternals.
Context {ext : Externals}.

Definition run (w : World.t) (call : Call) : outcome string * World.t :=
  match op call with
  | Write p c => WriteFileTool.execute (now call) (id call) w p c
  | EditOp p o n a => EditFileTool.execute (now call) (id call) w p o n a
  | CreateOp p c t => CreateFileTool.execute (now call) (id call) w p c t
  | DeleteOp p b => DeleteFileTool.execute (now call) (id call) w p b
  end.

(** The calls run in order; [None] as soon as one of them throws. *)
Fixpoint runAll (calls : list Call) (w : World.t) : option World.t :=
  match calls with
  | [] => Some w
  | call :: rest =>
      match run w call with
      | (Returned _, w') => runAll rest w'
      | (Thrown _, _) => None
      end
  end.
End WithExternals.

(** What a call of a mutating tool that returns has done, from the
    world [w] to the world [w'] at time [now]: it has recorded the one
    change [ch], which is well formed; the store shows the effect of
    [ch] at its path and is as before at every other path; [ch] is an
    edit only on a page with a content cache; and the page is the same. *)
Definition records (now : Z) (w w' : World.t) (ch : Change.t) : Prop :=
  World.changeTracker w'
  = ChangeTracker.recordChange now (World.changeTracker w) ch
  /\ wellFormed ch = true
  /\ VirtualFileSystem.contentAt (World.fileSystem w') (pathOf ch) = after ch
  /\ (forall q, q <> pathOf ch ->
                VirtualFileSystem.contentAt (World.fileSystem w') q
                = VirtualFileSystem.contentAt (World.fileSystem w) q)
  /\ (isEdit ch = true -> VirtualFileSystem.hasCache (World.fileSystem w) = true)
  /\ VirtualFileSystem.hasCache (World.fileSystem w')
     = VirtualFileSystem.hasCache (World.fileSystem w).

(** The undo stack of the world tells the truth about its store, and
    holds an edit only on a page with a content cache. *)
Definition sound (w : World.t) : Prop :=
  faithful (VirtualFileSystem.contentAt (World.fileSystem w))
           (ChangeTracker.undoStack (World.changeTracker w))
  /\ (VirtualFileSystem.hasCache (World.fileSystem w) = true
      \/ editFree (ChangeTracker.undoStack (World.changeTracker w)) = true).

End History.

(** The texts of the errors the statements quote. *)
Module Messages.

Definition notFound : string :=
  "Failed to edit file: Content not found in file. Make sure the content matches exactly, including whitespace and line breaks.".

Definition ambiguous (n : nat) : string :=
  "Failed to edit file: Content appears " ++ Str.ofNat n
  ++ " times in the file. Use replace_all: true to replace all occurrences, or provide more specific content to match only one occurrence.".

Definition exists_ (file_path : string) : string :=
  "Failed to create file: " ++ CreateFileTool.alreadyExists file_path.

(** What a tool throws, under its [prefix], when the look-up of its
    file has thrown [Storage.getFileContent is not a function]. *)
Definition lookupFailed (prefix : string) : string :=
  prefix ++ notAFunctionMessage "Storage.getFileContent".

End Messages.

Module Validation.

(** A required parameter whose name is no property of the arguments,
    own or inherited: what the validator reports as missing. *)
Definition isMissing (args : Args) (param : ToolParameter.t) : bool :=
  ToolParameter.required param
  && negb (JsValue.hasProperty args (ToolParameter.name param)).

(** A required parameter the call does not supply: its name is no own
    property of the arguments. *)
Definition isNotSupplied (args : Args) (param : ToolParameter.t) : bool :=
  ToolParameter.required param && negb (JsMap.has args (ToolParameter.name param)).

(** The parameter is named like a property every object inherits. *)
Definition hasInheritedName (param : ToolParameter.t) : bool :=
  match JsValue.inherited (ToolParameter.name param) with
  | Some _ => true
  | None => false
  end.

(** The type declared for the parameter, when it is one of the five
    the validator knows, and the value supplied is not of it. *)
Definition valueHasType (type : string) (value : JsValue) : bool :=
  if String.eqb type "string" then match value with JStr _ => true | _ => false end
  else if String.eqb type "number" then match value with JNum _ => true | _ => false end
  else if String.eqb type "boolean" then match value with JBool _ => true | _ => false end
  else if String.eqb type "array" then match value with JArr _ => true | _ => false end
  else if String.eqb type "object" then match value with JObj _ => true | _ => false end
  else true.

Definition isMistyped (args : Args) (param : ToolParameter.t) : bool :=
  match JsValue.getProperty args (ToolParameter.name param) with
  | Some value => negb (valueHasType (ToolParameter.type param) value)
  | None => false
  end.

(** A value supplied for a parameter with an [enum] list that does not
    hold it. *)
Definition isOutsideEnum (args : Args) (param : ToolParameter.t) : bool :=
  match JsValue.getProperty args (ToolParameter.name param),
        ToolParameter.enum param with
  | Some value, Some allowed => negb (existsb (JsValue.sameValueZero value) allowed)
  | _, _ => false
  end.

Definition count (p : ToolParameter.t -> bool) (l : list ToolParameter.t) : nat :=
  List.length (filter p l).

Definition b2n (b : bool) : nat := if b then 1 else 0.

End Validation.

Module Budget.

Definition contentChars (f : RelevantFile.t) : nat :=
  match RelevantFile.content f with
  | Some c => String.length c
  | None => 0
  end.

(** The characters of all the contents. *)
Definition totalChars (l : list RelevantFile.t) : nat :=
  fold_right (fun f n => contentChars f + n) 0 l.

Definition hasContent (f : RelevantFile.t) : bool :=
  match RelevantFile.content f with Some _ => true | None => false end.

(** The partial copy of [file] that fits [remaining] characters. *)
Definition partialOf (file : RelevantFile.t) (remaining : nat) : RelevantFile.t :=
  RelevantFile.mk
    (RelevantFile.path file)
    (option_map (fun c => Str.take (remaining - 100) c
                          ++ ContextManager.truncationMark)
                (RelevantFile.content file))
    (RelevantFile.relevanceScore file * (7 # 10))%Q
    (RelevantFile.reason file ++ "_partial")
    (RelevantFile.matchedLines file).

Fixpoint repeatChar (c : ascii) (n : nat) : string :=
  match n with
  | O => EmptyString
  | S n' => String c (repeatChar c n')
  end.

End Budget.

Module Replacement.

(** A replacement text without a dollar sign: it stands for itself. *)
Fixpoint plain (template : string) : bool :=
  match template with
  | EmptyString => true
  | String c template' => negb (Ascii.eqb c Str.dollar) && plain template'
  end.

End Replacement.

Module Indexing.

(** The token index sends [token] to a set that holds [filePath]. *)
Definition covered (tokenIndex : JsMap string JsSet) (filePath token : string)
  : bool :=
  match JsMap.get tokenIndex token with
  | Some files => JsSet.has files filePath
  | None => false
  end.

End Indexing.

(** Concrete stores, calls and arguments the examples run on. *)
Module Sample.

(** An empty store on a page that binds [Storage] to a manager, in a
    fresh session. *)
Definition fs0 : VirtualFileSystem.t := VirtualFileSystem.create (Manager []).

Definition world0 : World.t := World.mk fs0 ChangeTracker.create.

(** An empty store on the page as the scripts leave it. *)
Definition plainFs : VirtualFileSystem.t := VirtualFileSystem.create Builtin.

Definition plainWorld : World.t := World.mk plainFs ChangeTracker.create.

(** Four calls: a file is written, edited, a second one created, the
    first one deleted. *)
Definition calls : list History.Call :=
  [History.mkCall 1 "c1" (History.Write "a.txt" "one");
   History.mkCall 2 "c2" (History.EditOp "a.txt" "one" "two" false);
   History.mkCall 3 "c3" (History.CreateOp "src//b.js" "" "code");
   History.mkCall 4 "c4" (History.DeleteOp "a.txt" true)].

Definition world4 : World.t :=
  match @History.runAll blankExternals calls world0 with
  | Some w => w
  | None => world0
  end.

(** Three calls that return on the page as the scripts leave it: each
    of them makes a file that is not there yet. *)
Definition plainCalls : list History.Call :=
  [History.mkCall 1 "p1" (History.CreateOp "a.txt" "one" "text");
   History.mkCall 2 "p2" (History.Write "lib\b.js" "two");
   History.mkCall 3 "p3" (History.CreateOp "c.md" "" "markdown")].

Definition plainWorld3 : World.t :=
  match @History.runAll blankExternals plainCalls plainWorld with
  | Some w => w
  | None => plainWorld
  end.

(** A text file with one call-like line, added at time [now] to the
    empty store of a page whose [Storage] is [global]. *)
Definition withRun {ext : Externals} (global : StorageGlobal) (now : Z)
  : VirtualFileSystem.t :=
  snd (VirtualFileSystem.addFile now (VirtualFileSystem.create global)
                                 "a.txt" (Some "run(x) {") KFile None None).

(** The store of the prompt "fix bug in auth.js": the file the prompt
    names, and a note that speaks of a bug. *)
Definition withAuth {ext : Externals} (global : StorageGlobal) (now : Z)
  : VirtualFileSystem.t :=
  snd (VirtualFileSystem.addFile now
         (snd (VirtualFileSystem.addFile now (VirtualFileSystem.create global)
                                         "auth.js" (Some "login")
                                         KFile None None))
         "notes.txt" (Some "a bug here") KFile None None).

Definition fixBug : UserIntent.t :=
  UserIntent.mk ["auth.js"] ["fix"; "bug"; "auth"].

(** Four calls that leave a stale text in the content cache: [a.txt]
    is written twice, deleted, and created anew. *)
Definition staleCalls : list History.Call :=
  [History.mkCall 1 "s1" (History.Write "a.txt" "v1");
   History.mkCall 2 "s2" (History.Write "a.txt" "v2");
   History.mkCall 3 "s3" (History.DeleteOp "a.txt" true);
   History.mkCall 4 "s4" (History.CreateOp "a.txt" "hi" "text")].

(** The world after [create_file] has made [doc.txt] with the text of
    the edit example, on a page whose [Storage] is [global]. *)
Definition withFoo {ext : Externals} (global : StorageGlobal) : World.t :=
  snd (CreateFileTool.execute 0 "f0"
         (World.mk (VirtualFileSystem.create global) ChangeTracker.create)
         "doc.txt" "foo bar foo" "text").

(** The parameters of a tool that names two of them like methods every
    object inherits; neither declares a type the validator checks. *)
Definition oddParameters : list ToolParameter.t :=
  [ToolParameter.mk "constructor" "any" "The class to build" true None;
   ToolParameter.mk "valueOf" "any" "The value to read" true None;
   ToolParameter.mk "path" "string" "The path to write to" true None].

Definition file700 (path : string) (c : ascii) : RelevantFile.t :=
  RelevantFile.mk path (Some (Budget.repeatChar c 700)) 1%Q "keyword_match" [].

Definition manager (maxChars : nat) : ContextManager.t :=
ContextManager.mk (maxChars / 4) 4 maxChars.

End Sample.

(** ** Notions of the further properties *)

Module Text.
(** Every character of [s] passes [f]. *)
Fixpoint all (f : ascii -> bool) (s : string) : bool :=
  match s with
  | EmptyString => true
  | String c s' => f c && all f s'
  end.

(** A lower-case letter, a digit or an underscore. *)
Definition isLowerWordChar (c : ascii) : bool :=
  Str.isWordChar c && negb (Str.isUpper c).

(** The text a search compares: itself, or its lower-case form when the
    search does not look at case. *)
Definition fold (caseSensitive : bool) (s : string) : string :=
  if caseSensitive then s else Str.toLowerCase s.
End Text.

Module Symbols.
(** The symbols of an entry of the symbol index all have the name the
    entry is filed under. *)
Definition filedUnder (entry : string * list SymbolInfo.t) : bool :=
  forallb (fun symbol => String.eqb (SymbolInfo.name symbol) (fst entry)) (snd entry).

(** Every symbol of the index is filed under its own name. *)
Definition keyed (idx : FileIndex.t) : bool :=
  forallb filedUnder (FileIndex.symbolIndex idx).
End Symbols.

Module Store.
(** The entry is filed under its own path, and that path is a
    normalised one. *)
Definition filedUnder (entry : string * FileEntry.t) : bool :=
  String.eqb (FileEntry.path (snd entry)) (fst entry)
  && String.eqb (Utils.normalizePath (fst entry)) (fst entry).

Definition wellKeyed (fs : VirtualFileSystem.t) : bool :=
  forallb filedUnder (VirtualFileSystem.files fs).

(** One result for one path, filed under that path. *)
Definition resultFiledUnder (entry : string * FileSearchResult.t) : bool :=
  String.eqb (FileSearchResult.filePath (snd entry)) (fst entry).
End Store.

Module Bound.
(** The two stacks together hold no more actions than the history
    size allows. *)
Definition bounded (ct : ChangeTracker.t) : Prop :=
  List.length (ChangeTracker.undoStack ct) + List.length (ChangeTracker.redoStack ct)
  <= ChangeTracker.maxHistorySize ct.
End Bound.

Module Selection.
(** The paths chosen so far are pairwise distinct, and all of them are
    in the set of the paths seen. *)
Definition chosen (relevantFiles : list RelevantFile.t) (seenPaths : JsSet) : Prop :=
  NoDup (map RelevantFile.path relevantFiles)
  /\ forall path, In path (map RelevantFile.path relevantFiles) -> In path seenPaths.
End Selection.

(** More stores, indexes and trackers the examples run on. *)
Module Example.

(** Two lines of notes. *)
Definition notes : string := "go to the shop" ++ nl ++ "buy the milk".

(** The index of the notes alone. *)
Definition notesIndex : FileIndex.t :=
  @FileIndex.indexFile blankExternals FileIndex.empty "notes.txt" notes.

(** What a search of that index for "shop" returns. *)
Definition shopResults : list FileSearchResult.t :=
  match FileIndex.searchContent notesIndex "shop" SearchOptions.default with
  | Some results => results
  | None => []
  end.

Definition shopHit : FileSearchResult.t :=
  hd (FileSearchResult.mk "" None 0 [] "") shopResults.

(** A store with one text file, on the page as the scripts leave it. *)
Definition oneFile : VirtualFileSystem.t :=
  @Sample.withRun blankExternals Builtin 0.

(** A store with two files, on a page that binds [Storage] to a
    manager. *)
Definition twoFiles : VirtualFileSystem.t :=
  @Sample.withAuth blankExternals (Manager []) 0.

(** A text file added to the store at time 0. *)
Definition put (fs : VirtualFileSystem.t) (path content : string)
  : VirtualFileSystem.t :=
  snd (@VirtualFileSystem.addFile blankExternals 0 fs path (Some content)
                                  KFile None None).

(** A store of four files that speak of a shop: one in its name, two
    in their content, one in both. *)
Definition shopFiles (global : StorageGlobal) : VirtualFileSystem.t :=
  put (put (put (put (VirtualFileSystem.create global)
                     "shop.js" "open the door")
                "notes.txt" notes)
           "docs/shop-list.md" "shop for bread, shop for salt")
      "todo.txt" "shop".

(** The index of that store, and the two best results of a search of
    the contents for "shop". *)
Definition shopIndex : FileIndex.t := VirtualFileSystem.index (shopFiles Builtin).

Definition twoBest : SearchOptions.t := SearchOptions.mk true true false 2.

Definition shopBest : list FileSearchResult.t :=
  match FileIndex.searchContent shopIndex "shop" twoBest with
  | Some results => results
  | None => []
  end.

(** A search of names and contents for the three best results, on a
    page with a manager; and a search of the names alone, on the page as
    the scripts leave it. *)
Definition threeBest : SearchOptions.t := SearchOptions.mk true true false 3.

Definition namesOnly : SearchOptions.t := SearchOptions.mk true false false 50.

Definition shopSearch : list FileSearchResult.t * VirtualFileSystem.t :=
  match VirtualFileSystem.searchFiles 1 (shopFiles (Manager [])) "shop"
                                      threeBest with
  | Some (Returned results, fs) => (results, fs)
  | _ => ([], shopFiles (Manager []))
  end.

Definition shopNames : list FileSearchResult.t * VirtualFileSystem.t :=
  match VirtualFileSystem.searchFiles 1 (shopFiles Builtin) "shop" namesOnly with
  | Some (Returned results, fs) => (results, fs)
  | _ => ([], shopFiles Builtin)
  end.

(** The files chosen in that store for the prompt "fix bug in auth.js". *)
Definition fixBugFiles : list RelevantFile.t * VirtualFileSystem.t :=
  match ContextManager.findRelevantFiles 1 twoFiles Sample.fixBug 5 with
  | Some (Returned chosen, fs) => (chosen, fs)
  | _ => ([], twoFiles)
  end.

(** A tracker whose one action carries a change of a type the tracker
    does not know. *)
Definition renameAction : UndoAction.t :=
  UndoAction.mk "change" (Change.mk (OtherKind "rename") "a.txt" None None 0 "r1") 0.

Definition renameTracker : ChangeTracker.t :=
  ChangeTracker.mk [] [renameAction] [] 100.

End Example.

(* ================================================================== *)
(** * Maps, sets and arrays: basic facts *)

Section JsMapFacts.
Context {K V : Type} {keyK : Key K}.

Lemma keq_refl (k : K) : keq k k = true.
Proof. apply keq_spec; reflexivity. Qed.

Lemma keq_neq (a b : K) : a <> b -> keq a b = false.
Proof.
  intros Hne. destruct (keq a b) eqn:E; [|reflexivity].
  apply keq_spec in E. contradiction.
Qed.

Lemma get_set_same (m : JsMap K V) k v : JsMap.get (JsMap.set m k v) k = Some v.
Proof.
  induction m as [|[k' v'] m IH]; simpl.
  - now rewrite keq_refl.
  - destruct (keq k' k) eqn:E; simpl; rewrite E; auto.
Qed.

Lemma get_set_other (m : JsMap K V) k v q :
  q <> k -> JsMap.get (JsMap.set m k v) q = JsMap.get m q.
Proof.
  intros Hne. induction m as [|[k' v'] m IH]; simpl.
  - rewrite keq_neq; auto.
  - destruct (keq k' k) eqn:E; simpl.
    + apply keq_spec in E; subst k'. rewrite keq_neq; auto.
    + destruct (keq k' q); auto.
Qed.

Lemma get_delete_same (m : JsMap K V) k : JsMap.get (JsMap.delete m k) k = None.
Proof.
  induction m as [|[k' v'] m IH]; simpl; auto.
  destruct (keq k' k) eqn:E; simpl; auto. now rewrite E.
Qed.

Lemma get_delete_other (m : JsMap K V) k q :
  q <> k -> JsMap.get (JsMap.delete m k) q = JsMap.get m q.
Proof.
  intros Hne. induction m as [|[k' v'] m IH]; simpl; auto.
  destruct (keq k' k) eqn:E; simpl.
  - apply keq_spec in E; subst k'. rewrite keq_neq; auto.
  - destruct (keq k' q); auto.
Qed.

(** Setting a key to the value it has leaves the map as it is. *)
Lemma set_get_same (m : JsMap K V) k v :
  JsMap.get m k = Some v -> JsMap.set m k v = m.
Proof.
  induction m as [|[k' v'] m IH]; simpl; [discriminate|].
  destruct (keq k' k) eqn:E; intros H.
  - now inversion H.
  - now rewrite IH.
Qed.

Lemma set_set_same (m : JsMap K V) k v v' :
  JsMap.set (JsMap.set m k v) k v' = JsMap.set m k v'.
Proof.
  induction m as [|[k0 v0] m IH]; simpl.
  - now rewrite keq_refl.
  - destruct (keq k0 k) eqn:E; simpl; rewrite E; auto. now rewrite IH.
Qed.
End JsMapFacts.

Section ArrFacts.
Context {A : Type}.

Lemma pop_push (l : list A) (x : A) : Arr.pop (Arr.push l x) = Some (x, l).
Proof.
  unfold Arr.push. induction l as [|y l IH]; simpl; auto.
  rewrite IH. destruct (l ++ [x])%list eqn:E; auto.
  destruct l; discriminate.
Qed.

Lemma pop_nil_inv (l : list A) : Arr.pop l = None -> l = [].
Proof.
  induction l as [|y l IH]; simpl; auto.
  destruct l as [|z l]; [discriminate|].
  destruct (Arr.pop (z :: l)) as [[x r]|] eqn:E; [discriminate|].
  intros _. specialize (IH eq_refl). discriminate.
Qed.
End ArrFacts.

(* ================================================================== *)
(** * Paths *)

Lemma toSlash_idem (c : ascii) : Utils.toSlash (Utils.toSlash c) = Utils.toSlash c.
Proof.
  unfold Utils.toSlash.
  destruct (Ascii.eqb c Utils.backslash) eqn:E; [reflexivity|now rewrite E].
Qed.

Lemma mapChars_toSlash_idem (s : string) :
  Str.mapChars Utils.toSlash (Str.mapChars Utils.toSlash s)
  = Str.mapChars Utils.toSlash s.
Proof.
  induction s as [|c s IH]; simpl; [reflexivity|].
  now rewrite toSlash_idem, IH.
Qed.

Lemma mapChars_collapse (s : string) :
  Str.mapChars Utils.toSlash s = s ->
  forall b, Str.mapChars Utils.toSlash (Utils.collapseSlashes b s)
            = Utils.collapseSlashes b s.
Proof.
  induction s as [|c s IH]; simpl; intros H b; [reflexivity|].
  injection H as Hc Hs.
  destruct (Ascii.eqb c Utils.slash) eqn:E.
  - destruct b; simpl; [now apply IH|].
    rewrite IH by assumption. reflexivity.
  - simpl. rewrite Hc, IH by assumption. reflexivity.
Qed.

Lemma collapse_collapse (s : string) :
  forall b b', b' = false \/ b = true ->
    Utils.collapseSlashes b' (Utils.collapseSlashes b s)
    = Utils.collapseSlashes b s.
Proof.
  induction s as [|c s IH]; simpl; intros b b' H; [reflexivity|].
  destruct (Ascii.eqb c Utils.slash) eqn:E.
  - destruct b.
    + apply IH. now right.
    + destruct H as [->|H]; [|discriminate].
      simpl. rewrite IH by now right. reflexivity.
  - simpl. rewrite E. rewrite IH by now left. reflexivity.
Qed.

(** Normalising a normalised path changes nothing. *)
Lemma normalizePath_idem (path : string) :
  Utils.normalizePath (Utils.normalizePath path) = Utils.normalizePath path.
Proof.
  unfold Utils.normalizePath.
  rewrite mapChars_collapse by apply mapChars_toSlash_idem.
  apply collapse_collapse. now left.
Qed.

(* ================================================================== *)
(** * The file system: what each method does to the [files] map *)

Section FileSystemFacts.
Context {ext : Externals}.
Import VirtualFileSystem.

Lemma addFile_files now fs path content type size lastModified :
  files (snd (addFile now fs path content type size lastModified))
  = JsMap.set (files fs) (Utils.normalizePath path)
              (fst (addFile now fs path content type size lastModified)).
Proof. reflexivity. Qed.

Lemma addFile_entry_content now fs path content type size lastModified :
  FileEntry.content (fst (addFile now fs path content type size lastModified))
  = content.
Proof. reflexivity. Qed.

Lemma addFile_storage now fs path content type size lastModified :
  storage (snd (addFile now fs path content type size lastModified)) = storage fs.
Proof. reflexivity. Qed.

Lemma contentAt_addFile_same now fs path content type size lastModified :
  contentAt (snd (addFile now fs path content type size lastModified))
            (Utils.normalizePath path) = Some content.
Proof.
  unfold contentAt. rewrite addFile_files, get_set_same. reflexivity.
Qed.

Lemma get_addFile_other now fs path content type size lastModified q :
  q <> Utils.normalizePath path ->
  JsMap.get (files (snd (addFile now fs path content type size lastModified))) q
  = JsMap.get (files fs) q.
Proof. intros H. rewrite addFile_files. now apply get_set_other. Qed.

(** On a path without an entry [updateFile] is [addFile]. *)
Lemma updateFile_absent now fs path newContent :
  JsMap.get (files fs) (Utils.normalizePath path) = None ->
  updateFile now fs path newContent
  = (Returned (fst (addFile now fs (Utils.normalizePath path) (Some newContent)
                            KFile None None)),
     snd (addFile now fs (Utils.normalizePath path) (Some newContent)
                  KFile None None)).
Proof. intros H. unfold updateFile. now rewrite H. Qed.

(** On an entry [updateFile] writes the map and the index, whatever
    [Storage] is; it returns with a manager and throws without. *)
Lemma updateFile_present now fs path newContent e :
  JsMap.get (files fs) (Utils.normalizePath path) = Some e ->
  let e' := FileEntry.mk (FileEntry.path e) (Some newContent) (FileEntry.type e)
                         (String.length newContent) now in
  files (snd (updateFile now fs path newContent))
  = JsMap.set (files fs) (Utils.normalizePath path) e'
  /\ index (snd (updateFile now fs path newContent))
     = FileIndex.indexFile (index fs) (Utils.normalizePath path) newContent
  /\ fst (updateFile now fs path newContent)
     = match storage fs with
       | Builtin => Thrown (Err (notAFunctionMessage "Storage.storeFileContent"))
       | Manager _ => Returned e'
       end.
Proof.
  intros H e'. unfold updateFile. rewrite H.
  destruct (storage fs); repeat split; reflexivity.
Qed.

Lemma get_updateFile_other now fs path newContent q :
  q <> Utils.normalizePath path ->
  JsMap.get (files (snd (updateFile now fs path newContent))) q
  = JsMap.get (files fs) q.
Proof.
  intros H.
  destruct (JsMap.get (files fs) (Utils.normalizePath path)) as [e|] eqn:E.
  - destruct (updateFile_present now fs path newContent E) as (-> & _).
    now apply get_set_other.
  - rewrite updateFile_absent by assumption. cbn [snd].
    apply get_addFile_other. now rewrite normalizePath_idem.
Qed.

Lemma contentAt_updateFile_same now fs path newContent :
  contentAt (snd (updateFile now fs path newContent)) (Utils.normalizePath path)
  = Some (Some newContent).
Proof.
  destruct (JsMap.get (files fs) (Utils.normalizePath path)) as [e|] eqn:E.
  - unfold contentAt.
    destruct (updateFile_present now fs path newContent E) as (-> & _).
    rewrite get_set_same. reflexivity.
  - rewrite updateFile_absent by assumption. cbn [snd].
    rewrite <- (normalizePath_idem path) at 2. apply contentAt_addFile_same.
Qed.

(** [deleteFile] leaves [Storage] alone. *)
Lemma storage_deleteFile fs path :
  storage (snd (deleteFile fs path)) = storage fs.
Proof.
  unfold deleteFile. now destruct (JsMap.get (files fs) (Utils.normalizePath path)).
Qed.

Lemma get_deleteFile_same fs path :
  JsMap.get (files (snd (deleteFile fs path))) (Utils.normalizePath path) = None.
Proof.
  unfold deleteFile.
  destruct (JsMap.get (files fs) (Utils.normalizePath path)) as [e|] eqn:E; simpl.
  - apply get_delete_same.
  - exact E.
Qed.

Lemma get_deleteFile_other fs path q :
  q <> Utils.normalizePath path ->
  JsMap.get (files (snd (deleteFile fs path))) q = JsMap.get (files fs) q.
Proof.
  intros H. unfold deleteFile.
  destruct (JsMap.get (files fs) (Utils.normalizePath path)) as [e|] eqn:E; simpl.
  - now apply get_delete_other.
  - reflexivity.
Qed.

Lemma deleteFile_absent fs path :
  JsMap.get (files fs) (Utils.normalizePath path) = None ->
  deleteFile fs path = (false, fs).
Proof. intros H. unfold deleteFile. now rewrite H. Qed.

Lemma deleteFile_present fs path e :
  JsMap.get (files fs) (Utils.normalizePath path) = Some e ->
  fst (deleteFile fs path) = true.
Proof. intros H. unfold deleteFile. now rewrite H. Qed.

(** [getFile] finds an entry exactly when the map has one, and touches
    no other path. *)
Lemma getFile_none now fs path :
  JsMap.get (files fs) (Utils.normalizePath path) = None ->
  getFile now fs path = (Returned None, fs).
Proof. intros H. unfold getFile. now rewrite H. Qed.

(** With the built-in [Storage] the look-up of an entry throws and
    changes nothing. *)
Lemma getFile_builtin now fs path e :
  JsMap.get (files fs) (Utils.normalizePath path) = Some e ->
  storage fs = Builtin ->
  getFile now fs path
  = (Thrown (Err (notAFunctionMessage "Storage.getFileContent")), fs).
Proof. intros H Hs. unfold getFile. now rewrite H, Hs. Qed.

(** With a manager the look-up of an entry returns an entry of the
    same type, the one the map holds afterwards. *)
Lemma getFile_some now fs path e st :
  JsMap.get (files fs) (Utils.normalizePath path) = Some e ->
  storage fs = Manager st ->
  exists e', fst (getFile now fs path) = Returned (Some e')
             /\ FileEntry.type e' = FileEntry.type e
             /\ JsMap.get (files (snd (getFile now fs path)))
                          (Utils.normalizePath path) = Some e'.
Proof.
  intros H Hs. unfold getFile. rewrite H, Hs.
  destruct (StorageManager.getFileContent now st
              (Utils.normalizePath path)) as [[[|a cached]|] st'];
    simpl; try (exists e; rewrite H; auto).
  destruct (FileEntry.content e) as [c|] eqn:Ec.
  - destruct (String.eqb c (String a cached)); simpl.
    + exists e. rewrite H. auto.
    + eexists. rewrite get_set_same. simpl. auto.
  - simpl. eexists. rewrite get_set_same. simpl. auto.
Qed.

(** An entry the look-up returns is the one the map holds afterwards,
    and the map had an entry of the same type before. *)
Lemma getFile_returned now fs path e' :
  fst (getFile now fs path) = Returned (Some e') ->
  JsMap.get (files (snd (getFile now fs path))) (Utils.normalizePath path)
  = Some e'
  /\ exists e, JsMap.get (files fs) (Utils.normalizePath path) = Some e
               /\ FileEntry.type e' = FileEntry.type e.
Proof.
  intros H.
  destruct (JsMap.get (files fs) (Utils.normalizePath path)) as [e|] eqn:E.
  - destruct (storage fs) as [|st] eqn:Es.
    + rewrite (getFile_builtin now fs path E Es) in H. discriminate.
    + destruct (getFile_some now fs path E Es) as (e1 & H1 & H2 & H3).
      rewrite H1 in H. inversion H; subst e1. eauto.
  - rewrite getFile_none in H by assumption. discriminate.
Qed.

Lemma getFile_returned_none now fs path :
  fst (getFile now fs path) = Returned None ->
  getFile now fs path = (Returned None, fs).
Proof.
  intros H.
  destruct (JsMap.get (files fs) (Utils.normalizePath path)) as [e|] eqn:E.
  - destruct (storage fs) as [|st] eqn:Es.
    + rewrite (getFile_builtin now fs path E Es) in H. discriminate.
    + destruct (getFile_some now fs path E Es) as (e1 & H1 & _).
      rewrite H1 in H. discriminate.
  - now apply getFile_none.
Qed.

(** A look-up that throws has changed nothing. *)
Lemma getFile_thrown now fs path error :
  fst (getFile now fs path) = Thrown error ->
  getFile now fs path
  = (Thrown (Err (notAFunctionMessage "Storage.getFileContent")), fs)
  /\ storage fs = Builtin
  /\ JsMap.get (files fs) (Utils.normalizePath path) <> None.
Proof.
  intros H.
  destruct (JsMap.get (files fs) (Utils.normalizePath path)) as [e|] eqn:E.
  - destruct (storage fs) as [|st] eqn:Es.
    + rewrite (getFile_builtin now fs path E Es). repeat split. discriminate.
    + destruct (getFile_some now fs path E Es) as (e1 & H1 & _).
      rewrite H1 in H. discriminate.
  - rewrite getFile_none in H by assumption. discriminate.
Qed.

Lemma get_getFile_other now fs path q :
  q <> Utils.normalizePath path ->
  JsMap.get (files (snd (getFile now fs path))) q = JsMap.get (files fs) q.
Proof.
  intros H. unfold getFile.
  destruct (JsMap.get (files fs) (Utils.normalizePath path)) as [e|]; auto.
  destruct (storage fs) as [|st]; auto.
  destruct (StorageManager.getFileContent now st
              (Utils.normalizePath path)) as [[[|a cached]|] st']; simpl; auto.
  destruct (FileEntry.content e) as [c|].
  - destruct (String.eqb c (String a cached)); simpl; auto.
    now apply get_set_other.
  - simpl. now apply get_set_other.
Qed.

Lemma getFile_found_iff now fs path :
  fst (getFile now fs path) = Returned None
  <-> JsMap.get (files fs) (Utils.normalizePath path) = None.
Proof.
  split; intros H.
  - apply getFile_returned_none in H.
    destruct (JsMap.get (files fs) (Utils.normalizePath path)) as [e|] eqn:E; auto.
    unfold getFile in H. rewrite E in H.
    destruct (storage fs) as [|st]; [discriminate|].
    destruct (StorageManager.getFileContent now st (Utils.normalizePath path))
      as [[[|a cached]|] st']; try discriminate.
    destruct (FileEntry.content e) as [c|]; [|discriminate].
    destruct (String.eqb c (String a cached)); discriminate.
  - now rewrite getFile_none.
Qed.

(** After [getFile] the map has an entry at the path exactly when it
    had one before. *)
Lemma getFile_keeps_presence now fs path :
  JsMap.get (files (snd (getFile now fs path))) (Utils.normalizePath path) = None
  <-> JsMap.get (files fs) (Utils.normalizePath path) = None.
Proof.
  split; intros H.
  - destruct (JsMap.get (files fs) (Utils.normalizePath path)) as [e|] eqn:E; auto.
    destruct (storage fs) as [|st] eqn:Es.
    + rewrite (getFile_builtin now fs path E Es) in H. cbn [snd] in H. congruence.
    + destruct (getFile_some now fs path E Es) as (e' & _ & _ & H3). congruence.
  - now rewrite getFile_none.
Qed.

Lemma storage_kind_getFile now fs path :
  storage (snd (getFile now fs path)) = Builtin <-> storage fs = Builtin.
Proof.
  unfold getFile.
  destruct (JsMap.get (files fs) (Utils.normalizePath path)) as [e|];
    [|reflexivity].
  destruct (storage fs) as [|st] eqn:Es; [cbn [snd]; now rewrite Es|].
  destruct (StorageManager.getFileContent now st (Utils.normalizePath path))
    as [[[|a cached]|] st']; cbn [snd storage]; try (split; discriminate).
  destruct (FileEntry.content e) as [c|].
  - destruct (String.eqb c (String a cached)); cbn [snd storage];
      split; discriminate.
  - cbn [snd storage]. split; discriminate.
Qed.

Lemma storage_kind_updateFile now fs path newContent :
  storage (snd (updateFile now fs path newContent)) = Builtin
  <-> storage fs = Builtin.
Proof.
  unfold updateFile.
  destruct (JsMap.get (files fs) (Utils.normalizePath path)) as [e|].
  - destruct (storage fs) as [|st]; cbn [snd storage]; split; auto; discriminate.
  - reflexivity.
Qed.

End FileSystemFacts.

(** C10.  For every path [p]: [addFile] and [updateFile] on [p] leave the
    entry of every path other than the normalised [p] as it was;
    [deleteFile] on [p] leaves no entry at the normalised [p] and leaves
    every other entry as it was; when [p] has no entry it returns [false]
    and the whole store (files, index and cache) is unchanged, and when
    [p] has an entry it returns [true]. *)
Theorem mutation_frame {ext : Externals} (now : Z) (fs : VirtualFileSystem.t)
        (p : string) :
  (forall content type size lastModified q,
      q <> Utils.normalizePath p ->
      JsMap.get (VirtualFileSystem.files
                   (snd (VirtualFileSystem.addFile now fs p content type size
                                                   lastModified))) q
      = JsMap.get (VirtualFileSystem.files fs) q)
  /\ (forall newContent q,
         q <> Utils.normalizePath p ->
         JsMap.get (VirtualFileSystem.files
                      (snd (VirtualFileSystem.updateFile now fs p newContent))) q
         = JsMap.get (VirtualFileSystem.files fs) q)
  /\ (forall q,
         q <> Utils.normalizePath p ->
         JsMap.get (VirtualFileSystem.files
                      (snd (VirtualFileSystem.deleteFile fs p))) q
         = JsMap.get (VirtualFileSystem.files fs) q)
  /\ JsMap.get (VirtualFileSystem.files (snd (VirtualFileSystem.deleteFile fs p)))
               (Utils.normalizePath p) = None
  /\ (JsMap.get (VirtualFileSystem.files fs) (Utils.normalizePath p) = None ->
      VirtualFileSystem.deleteFile fs p = (false, fs))
  /\ (JsMap.get (VirtualFileSystem.files fs) (Utils.normalizePath p) <> None ->
      fst (VirtualFileSystem.deleteFile fs p) = true).
Proof.
  repeat split.
  - intros. now apply get_addFile_other.
  - intros. now apply get_updateFile_other.
  - intros. now apply get_deleteFile_other.
  - apply get_deleteFile_same.
  - apply deleteFile_absent.
  - intros H.
    destruct (JsMap.get (VirtualFileSystem.files fs) (Utils.normalizePath p))
      as [e|] eqn:E; [|contradiction].
    eapply deleteFile_present; eauto.
Qed.

(* ================================================================== *)
(** * The change tracker: undo and redo *)

Arguments VirtualFileSystem.addFile : simpl never.
Arguments VirtualFileSystem.updateFile : simpl never.
Arguments VirtualFileSystem.deleteFile : simpl never.
Arguments VirtualFileSystem.getFile : simpl never.
Arguments FileIndex.indexFile : simpl never.

Section ReplayFacts.
Import History.

Lemma replay_point (l : list Change.t) :
  forall f g q, f q = g q -> replay l f q = replay l g q.
Proof.
  induction l as [|c l IH]; simpl; intros f g q H; [exact H|].
  apply IH. now rewrite H.
Qed.

Lemma replay_app (l1 l2 : list Change.t) :
  forall f q, replay (l1 ++ l2) f q = replay l2 (replay l1 f) q.
Proof.
  induction l1 as [|c l1 IH]; simpl; intros f q; [reflexivity|].
  apply IH.
Qed.

(** Laid over two contents that agree away from the paths of [l], the
    changes [l] give the same contents. *)
Lemma replay_agree (l : list Change.t) :
  forall f g,
    (forall q, Forall (fun c => pathOf c <> q) l -> f q = g q) ->
    forall q, replay l f q = replay l g q.
Proof.
  induction l as [|c l IH]; simpl; intros f g H q.
  - apply H. constructor.
  - apply IH. intros q' Hq'.
    destruct (String.eqb q' (pathOf c)) eqn:E; [reflexivity|].
    apply H. constructor; [|assumption].
    intros <-. now rewrite String.eqb_refl in E.
Qed.

Lemma faithful_nil f : faithful f [].
Proof.
  intros older latest H.
  symmetry in H. apply app_eq_nil in H as [_ ->]. simpl. auto.
Qed.

Lemma faithful_tl f stack : faithful f stack -> faithful f (tl stack).
Proof.
  intros H older latest E. destruct stack as [|a stack]; simpl in E.
  - exact (H older latest E).
  - apply (H (a :: older) latest). simpl. now rewrite E.
Qed.

(** A change that is well formed and whose effect the contents show
    can be pushed on a faithful stack. *)
Lemma faithful_push f f' stack (a : UndoAction.t) :
  faithful f stack ->
  wellFormed (UndoAction.change a) = true ->
  f' (pathOf (UndoAction.change a)) = after (UndoAction.change a) ->
  (forall q, q <> pathOf (UndoAction.change a) -> f' q = f q) ->
  faithful f' (Arr.push stack a).
Proof.
  intros Hf Hwf Hat Hother older latest E. unfold Arr.push in E.
  induction latest as [|b l _] using rev_ind.
  - simpl. auto.
  - rewrite app_assoc in E. apply app_inj_tail in E as [E <-].
    destruct (Hf older l E) as [Hw Hr].
    split.
    + rewrite map_app, forallb_app, Hw. simpl. now rewrite Hwf.
    + intros q. rewrite map_app, replay_app. simpl.
      destruct (String.eqb q (pathOf (UndoAction.change a))) eqn:Eq.
      * apply String.eqb_eq in Eq. subst q. now rewrite Hat.
      * assert (q <> pathOf (UndoAction.change a)) as Hne.
        { intros ->. now rewrite String.eqb_refl in Eq. }
        rewrite (replay_point _ f' f q (Hother q Hne)), Hr.
        symmetry. now apply Hother.
Qed.
End ReplayFacts.

Section TrackerFacts.
Context {ext : Externals}.
Import History.

Lemma contentAt_get fs fs' q :
  JsMap.get (VirtualFileSystem.files fs') q = JsMap.get (VirtualFileSystem.files fs) q ->
  VirtualFileSystem.contentAt fs' q = VirtualFileSystem.contentAt fs q.
Proof. unfold VirtualFileSystem.contentAt. now intros ->. Qed.

Lemma contentAt_deleteFile_same fs path :
  VirtualFileSystem.contentAt (snd (VirtualFileSystem.deleteFile fs path))
                              (Utils.normalizePath path) = None.
Proof.
  unfold VirtualFileSystem.contentAt. now rewrite get_deleteFile_same.
Qed.

(** No method of the store changes whether the page has a cache. *)
Lemma hasCache_getFile now fs path :
  VirtualFileSystem.hasCache (snd (VirtualFileSystem.getFile now fs path))
  = VirtualFileSystem.hasCache fs.
Proof.
  unfold VirtualFileSystem.hasCache.
  pose proof (storage_kind_getFile now fs path) as [H1 H2].
  destruct (VirtualFileSystem.storage fs);
    destruct (VirtualFileSystem.storage
                (snd (VirtualFileSystem.getFile now fs path)));
    auto; [specialize (H2 eq_refl)|specialize (H1 eq_refl)]; discriminate.
Qed.

Lemma hasCache_updateFile now fs path newContent :
  VirtualFileSystem.hasCache
    (snd (VirtualFileSystem.updateFile now fs path newContent))
  = VirtualFileSystem.hasCache fs.
Proof.
  unfold VirtualFileSystem.hasCache.
  pose proof (storage_kind_updateFile now fs path newContent) as [H1 H2].
  destruct (VirtualFileSystem.storage fs);
    destruct (VirtualFileSystem.storage
                (snd (VirtualFileSystem.updateFile now fs path newContent)));
    auto; [specialize (H2 eq_refl)|specialize (H1 eq_refl)]; discriminate.
Qed.

Lemma hasCache_deleteFile fs path :
  VirtualFileSystem.hasCache (snd (VirtualFileSystem.deleteFile fs path))
  = VirtualFileSystem.hasCache fs.
Proof. unfold VirtualFileSystem.hasCache. now rewrite storage_deleteFile. Qed.

(** On a page with a cache [updateFile] returns. *)
Lemma updateFile_returns now fs path newContent :
  VirtualFileSystem.hasCache fs = true ->
  exists e,
    fst (VirtualFileSystem.updateFile now fs path newContent) = Returned e.
Proof.
  unfold VirtualFileSystem.hasCache. intros H.
  destruct (JsMap.get (VirtualFileSystem.files fs) (Utils.normalizePath path))
    as [e|] eqn:E.
  - destruct (updateFile_present now fs path newContent E) as (_ & _ & ->).
    destruct (VirtualFileSystem.storage fs); [discriminate|eauto].
  - rewrite updateFile_absent by assumption. cbn [fst]. eauto.
Qed.

(** Reverting a well-formed change returns, and touches no path but
    that of the change; for an edit, provided the window serves
    edits. *)
Lemma revertChange_ok now win c :
  wellFormed c = true ->
  servesEdits win = true \/ isEdit c = false ->
  exists win',
    ChangeTracker.revertChange now win c = (Returned tt, win')
    /\ (forall q, q <> pathOf c -> contentOf win' q = contentOf win q)
    /\ (Window.fileSystem win = None -> win' = win)
    /\ (Window.fileSystem win <> None -> Window.fileSystem win' <> None)
    /\ servesEdits win' = servesEdits win.
Proof.
  intros Hwf Hserve.
  unfold ChangeTracker.revertChange, wellFormed, isEdit, servesEdits in *.
  destruct win as [[fs|]].
  2:{ exists (Window.mk None).
      destruct (Change.type c); try discriminate;
        unfold ChangeTracker.revertCreate, ChangeTracker.revertEdit,
          ChangeTracker.revertDelete; cbn [Window.fileSystem];
        try destruct (Change.oldContent c); auto. }
  cbn [Window.fileSystem] in *.
  destruct (Change.type c) eqn:Ety; try discriminate.
  - (* create *)
    eexists; split; [reflexivity|].
    unfold ChangeTracker.revertCreate, contentOf; cbn [Window.fileSystem].
    split; [|split; [discriminate|split; [intros _; discriminate|]]].
    + intros q Hq. now apply contentAt_get, get_deleteFile_other.
    + apply hasCache_deleteFile.
  - (* edit *)
    destruct Hserve as [Hserve|Hserve]; [|discriminate].
    unfold ChangeTracker.revertEdit; cbn [Window.fileSystem].
    destruct (Change.oldContent c) as [old|].
    2:{ eexists; split; [reflexivity|]. repeat split; auto. }
    destruct (updateFile_returns now fs (Change.filePath c) old Hserve)
      as (e & He).
    pose proof (get_updateFile_other now fs (Change.filePath c) old) as Hfr.
    pose proof (hasCache_updateFile now fs (Change.filePath c) old) as Hc.
    destruct (VirtualFileSystem.updateFile now fs (Change.filePath c) old)
      as [o fs'] eqn:U.
    cbn [fst snd] in *. subst o.
    eexists; split; [reflexivity|].
    unfold contentOf; cbn [Window.fileSystem].
    split; [|split; [discriminate|split; [intros _; discriminate|exact Hc]]].
    intros q Hq. now apply contentAt_get, Hfr.
  - (* delete *)
    eexists; split; [reflexivity|].
    unfold ChangeTracker.revertDelete, contentOf; cbn [Window.fileSystem].
    destruct (Change.oldContent c) as [old|];
      cbn [Window.fileSystem];
      (split; [|split; [discriminate|split; [intros _; discriminate|]]]);
      auto.
    intros q Hq. now apply contentAt_get, get_addFile_other.
Qed.

(** Applying a well-formed change returns, leaves at the path of the
    change what the change says, and touches no other path; for an
    edit, provided the window serves edits. *)
Lemma applyChange_ok now win c :
  wellFormed c = true ->
  servesEdits win = true \/ isEdit c = false ->
  exists win',
    ChangeTracker.applyChange now win c = (Returned tt, win')
    /\ (Window.fileSystem win = None -> win' = win)
    /\ (Window.fileSystem win <> None ->
        Window.fileSystem win' <> None
        /\ forall q, contentOf win' q
                     = if String.eqb q (pathOf c) then after c else contentOf win q)
    /\ servesEdits win' = servesEdits win.
Proof.
  intros Hwf Hserve.
  unfold ChangeTracker.applyChange, wellFormed, after, isEdit, servesEdits in *.
  destruct win as [[fs|]].
  2:{ exists (Window.mk None).
      destruct (Change.type c); try discriminate;
        unfold ChangeTracker.applyCreate, ChangeTracker.applyEdit,
          ChangeTracker.applyDelete; cbn [Window.fileSystem];
        try destruct (Change.newContent c); repeat split; auto;
        try (intros Hsome; now elim Hsome); try (now elim H). }
  cbn [Window.fileSystem] in *.
  assert (forall q, String.eqb q (pathOf c) = false -> q <> pathOf c) as Hne.
  { intros q E ->. now rewrite String.eqb_refl in E. }
  destruct (Change.type c) eqn:Ety; try discriminate.
  - (* create *)
    destruct (Change.newContent c) as [new|] eqn:En; try discriminate.
    eexists; split; [reflexivity|].
    unfold ChangeTracker.applyCreate; cbn [Window.fileSystem]; rewrite En.
    split; [discriminate|]. split; [|reflexivity].
    intros _. split; [discriminate|].
    intros q; unfold contentOf; cbn [Window.fileSystem].
    destruct (String.eqb q (pathOf c)) eqn:Eq.
    + apply String.eqb_eq in Eq. subst q. apply contentAt_addFile_same.
    + apply contentAt_get, get_addFile_other. now apply Hne.
  - (* edit *)
    destruct (Change.newContent c) as [new|] eqn:En; try discriminate.
    destruct Hserve as [Hserve|Hserve]; [|discriminate].
    unfold ChangeTracker.applyEdit; cbn [Window.fileSystem]; rewrite En.
    destruct (updateFile_returns now fs (Change.filePath c) new Hserve)
      as (e & He).
    pose proof (get_updateFile_other now fs (Change.filePath c) new) as Hfr.
    pose proof (contentAt_updateFile_same now fs (Change.filePath c) new) as Hat.
    pose proof (hasCache_updateFile now fs (Change.filePath c) new) as Hc.
    destruct (VirtualFileSystem.updateFile now fs (Change.filePath c) new)
      as [o fs'] eqn:U.
    cbn [fst snd] in *. subst o.
    eexists; split; [reflexivity|].
    split; [discriminate|]. split; [|exact Hc].
    intros _. split; [discriminate|].
    intros q; unfold contentOf; cbn [Window.fileSystem].
    destruct (String.eqb q (pathOf c)) eqn:Eq.
    + apply String.eqb_eq in Eq. subst q. exact Hat.
    + apply contentAt_get, Hfr. now apply Hne.
  - (* delete *)
    eexists; split; [reflexivity|].
    unfold ChangeTracker.applyDelete; cbn [Window.fileSystem].
    split; [discriminate|]. split; [|apply hasCache_deleteFile].
    intros _. split; [discriminate|].
    intros q; unfold contentOf; cbn [Window.fileSystem].
    destruct (String.eqb q (pathOf c)) eqn:Eq.
    + apply String.eqb_eq in Eq. subst q. apply contentAt_deleteFile_same.
    + apply contentAt_get, get_deleteFile_other. now apply Hne.
Qed.

Lemma editFree_app (l1 l2 : list UndoAction.t) :
  editFree (l1 ++ l2) = editFree l1 && editFree l2.
Proof. apply forallb_app. Qed.

(** [undo()] called as many times as [latest] is long takes the
    actions [latest] off the undo stack, newest first, and puts them on
    the redo stack. *)
Lemma undoAll_spec (latest : list UndoAction.t) :
  forall nows ct win older,
    ChangeTracker.undoStack ct = (older ++ latest)%list ->
    List.length nows = List.length latest ->
    forallb wellFormed (map UndoAction.change latest) = true ->
    servesEdits win = true \/ editFree latest = true ->
    exists ct' win',
      ChangeTracker.undoAll nows ct win = Some (ct', win')
      /\ ChangeTracker.undoStack ct' = older
      /\ ChangeTracker.redoStack ct'
         = (ChangeTracker.redoStack ct ++ List.rev latest)%list
      /\ ChangeTracker.changes ct' = ChangeTracker.changes ct
      /\ ChangeTracker.maxHistorySize ct' = ChangeTracker.maxHistorySize ct
      /\ (forall q, Forall (fun c => pathOf c <> q) (map UndoAction.change latest) ->
                    contentOf win' q = contentOf win q)
      /\ (Window.fileSystem win = None -> win' = win)
      /\ (Window.fileSystem win <> None -> Window.fileSystem win' <> None)
      /\ servesEdits win' = servesEdits win.
Proof.
  induction latest as [|a latest IH] using rev_ind;
    intros nows ct win older Hstack Hlen Hwf Hserve.
  - destruct nows; [|discriminate]. exists ct, win. simpl.
    rewrite app_nil_r in *. repeat split; auto.
  - rewrite length_app in Hlen. simpl in Hlen.
    destruct nows as [|now nows]; simpl in Hlen; [lia|].
    rewrite map_app, forallb_app in Hwf. simpl in Hwf.
    apply andb_true_iff in Hwf as [Hwf Ha]. rewrite andb_true_r in Ha.
    assert (servesEdits win = true \/ isEdit (UndoAction.change a) = false) as Hsa.
    { destruct Hserve as [H|H]; [now left|right].
      rewrite editFree_app in H. apply andb_true_iff in H as [_ H].
      unfold editFree in H. simpl in H. rewrite andb_true_r in H.
      now apply negb_true_iff in H. }
    destruct (revertChange_ok now win (UndoAction.change a) Ha Hsa)
      as (win1 & Hrev & Hfr & Hnone & Hsome & Hkeep).
    simpl. unfold ChangeTracker.undo.
    rewrite Hstack, app_assoc.
    change ((older ++ latest) ++ [a])%list with (Arr.push (older ++ latest)%list a).
    rewrite pop_push, Hrev.
    assert (servesEdits win1 = true \/ editFree latest = true) as Hserve1.
    { destruct Hserve as [H|H]; [left; congruence|right].
      rewrite editFree_app in H. now apply andb_true_iff in H as [H _]. }
    destruct (IH nows
                 (ChangeTracker.mk (ChangeTracker.changes ct) (older ++ latest)%list
                                   (Arr.push (ChangeTracker.redoStack ct) a)
                                   (ChangeTracker.maxHistorySize ct))
                 win1 older eq_refl ltac:(lia) Hwf Hserve1)
      as (ct' & win' & Hrun & Hu & Hr & Hc & Hm & Hfr' & Hnone' & Hsome' & Hkeep').
    exists ct', win'. simpl in *. repeat split; auto.
    + rewrite Hr. unfold Arr.push. rewrite rev_app_distr. simpl.
      now rewrite <- app_assoc.
    + intros q Hq. rewrite map_app in Hq. apply Forall_app in Hq as [Hq1 Hq2].
      rewrite Hfr' by assumption. apply Hfr.
      inversion Hq2; subst. auto.
    + intros Hn. rewrite Hnone' by (rewrite Hnone; auto). now apply Hnone.
    + congruence.
Qed.

(** [redo()] called as many times as [latest] is long, on a redo stack
    that ends with [latest] reversed, puts the actions back on the undo
    stack, oldest first, and lays their effects over the contents. *)
Lemma redoAll_spec (latest : list UndoAction.t) :
  forall nows ct win rest,
    ChangeTracker.redoStack ct = (rest ++ List.rev latest)%list ->
    List.length nows = List.length latest ->
    forallb wellFormed (map UndoAction.change latest) = true ->
    servesEdits win = true \/ editFree latest = true ->
    exists ct' win',
      ChangeTracker.redoAll nows ct win = Some (ct', win')
      /\ ChangeTracker.undoStack ct'
         = (ChangeTracker.undoStack ct ++ latest)%list
      /\ ChangeTracker.redoStack ct' = rest
      /\ ChangeTracker.changes ct' = ChangeTracker.changes ct
      /\ ChangeTracker.maxHistorySize ct' = ChangeTracker.maxHistorySize ct
      /\ (Window.fileSystem win = None -> win' = win)
      /\ (Window.fileSystem win <> None ->
          forall q, contentOf win' q
                    = replay (map UndoAction.change latest) (contentOf win) q).
Proof.
  induction latest as [|a latest IH];
    intros nows ct win rest Hstack Hlen Hwf Hserve.
  - destruct nows; [|discriminate]. exists ct, win. simpl in *.
    rewrite app_nil_r in *. repeat split; auto.
  - destruct nows as [|now nows]; [discriminate|]. simpl in Hlen, Hwf.
    apply andb_true_iff in Hwf as [Ha Hwf].
    assert (servesEdits win = true \/ isEdit (UndoAction.change a) = false) as Hsa.
    { destruct Hserve as [H|H]; [now left|right].
      unfold editFree in H. simpl in H. apply andb_true_iff in H as [H _].
      now apply negb_true_iff in H. }
    destruct (applyChange_ok now win (UndoAction.change a) Ha Hsa)
      as (win1 & Happ & Hnone & Hsome & Hkeep).
    simpl. unfold ChangeTracker.redo.
    simpl in Hstack. rewrite Hstack, app_assoc.
    change ((rest ++ List.rev latest) ++ [a])%list
      with (Arr.push (rest ++ List.rev latest)%list a).
    rewrite pop_push, Happ.
    assert (servesEdits win1 = true \/ editFree latest = true) as Hserve1.
    { destruct Hserve as [H|H]; [left; congruence|right].
      unfold editFree in H. simpl in H. now apply andb_true_iff in H as [_ H]. }
    destruct (IH nows
                 (ChangeTracker.mk (ChangeTracker.changes ct)
                                   (Arr.push (ChangeTracker.undoStack ct) a)
                                   (rest ++ List.rev latest)%list
                                   (ChangeTracker.maxHistorySize ct))
                 win1 rest eq_refl ltac:(lia) Hwf Hserve1)
      as (ct' & win' & Hrun & Hu & Hr & Hc & Hm & Hnone' & Hsome').
    exists ct', win'. simpl in *. repeat split; auto.
    + rewrite Hu. unfold Arr.push. now rewrite <- app_assoc.
    + intros Hn. rewrite Hnone' by (rewrite Hnone; auto). now apply Hnone.
    + intros Hb q. destruct (Hsome Hb) as [Hb1 Hc1].
      rewrite (Hsome' Hb1). apply replay_point. apply Hc1.
Qed.

Lemma editFree_skipn (k : nat) (stack : list UndoAction.t) :
  editFree stack = true -> editFree (skipn k stack) = true.
Proof.
  intros H. rewrite <- (firstn_skipn k stack), editFree_app in H.
  now apply andb_true_iff in H as [_ H].
Qed.

(** The law at the level of the tracker: on an undo stack that is
    faithful to the contents the window shows, and that holds no edit
    unless the window serves edits, [n] undos followed by [n] redos
    succeed, put both stacks back and leave every content as it was. *)
Lemma undo_redo_on_faithful ct win f (undoTimes redoTimes : list Z) :
  faithful f (ChangeTracker.undoStack ct) ->
  servesEdits win = true \/ editFree (ChangeTracker.undoStack ct) = true ->
  (Window.fileSystem win = None \/ forall q, contentOf win q = f q) ->
  List.length undoTimes <= List.length (ChangeTracker.undoStack ct) ->
  List.length redoTimes = List.length undoTimes ->
  exists ct1 win1 ct2 win2,
    ChangeTracker.undoAll undoTimes ct win = Some (ct1, win1)
    /\ ChangeTracker.redoAll redoTimes ct1 win1 = Some (ct2, win2)
    /\ (forall q, contentOf win2 q = contentOf win q)
    /\ ChangeTracker.undoStack ct2 = ChangeTracker.undoStack ct
    /\ ChangeTracker.redoStack ct2 = ChangeTracker.redoStack ct.
Proof.
  intros Hf Hserve Hwin Hn Hlen.
  set (stack := ChangeTracker.undoStack ct) in *.
  set (k := List.length stack - List.length undoTimes).
  assert (stack = (firstn k stack ++ skipn k stack)%list) as Hsplit
      by (symmetry; apply firstn_skipn).
  assert (List.length (skipn k stack) = List.length undoTimes) as Hk
      by (rewrite length_skipn; unfold k; lia).
  destruct (Hf _ _ Hsplit) as [Hwf Hrep].
  assert (servesEdits win = true \/ editFree (skipn k stack) = true) as Hs1.
  { destruct Hserve as [H|H]; [now left|right; now apply editFree_skipn]. }
  destruct (undoAll_spec (skipn k stack) undoTimes ct win (firstn k stack)
                         Hsplit (eq_sym Hk) Hwf Hs1)
    as (ct1 & win1 & Hrun1 & Hu1 & Hr1 & _ & _ & Hfr & Hnone & Hsome & Hkeep).
  assert (servesEdits win1 = true \/ editFree (skipn k stack) = true) as Hs2.
  { destruct Hs1 as [H|H]; [left; congruence|now right]. }
  destruct (redoAll_spec (skipn k stack) redoTimes ct1 win1
                         (ChangeTracker.redoStack ct) Hr1 ltac:(lia) Hwf Hs2)
    as (ct2 & win2 & Hrun2 & Hu2 & Hr2 & _ & _ & Hnone2 & Hsome2).
  exists ct1, win1, ct2, win2. repeat split; auto.
  - intros q. destruct (Window.fileSystem win) as [fs|] eqn:Ew.
    + destruct Hwin as [Hwin|Hwin]; [discriminate|].
      rewrite Hsome2 by (apply Hsome; congruence).
      rewrite (@replay_agree _ (contentOf win1) (contentOf win) Hfr).
      rewrite (replay_point _ (contentOf win) f q (Hwin q)), Hrep.
      symmetry. apply Hwin.
    + rewrite Hnone2 by (rewrite Hnone; auto). now rewrite Hnone.
  - rewrite Hu2, Hu1. now rewrite <- Hsplit.
Qed.

End TrackerFacts.

(* ================================================================== *)
(** * The mutating tools keep the undo stack faithful *)

Section ToolFacts.
Context {ext : Externals}.
Import History.

Lemma faithful_record now ct c f f' :
  faithful f (ChangeTracker.undoStack ct) ->
  wellFormed c = true ->
  f' (pathOf c) = after c ->
  (forall q, q <> pathOf c -> f' q = f q) ->
  faithful f' (ChangeTracker.undoStack (ChangeTracker.recordChange now ct c)).
Proof.
  intros Hf Hwf Hat Hother. unfold ChangeTracker.recordChange.
  cbn [ChangeTracker.undoStack].
  destruct (ChangeTracker.maxHistorySize ct <? _);
    [apply faithful_tl|]; eapply faithful_push; eauto.
Qed.

Lemma editFree_record now ct c :
  editFree (ChangeTracker.undoStack ct) = true ->
  isEdit c = false ->
  editFree (ChangeTracker.undoStack (ChangeTracker.recordChange now ct c)) = true.
Proof.
  intros Hfree Hc. unfold ChangeTracker.recordChange.
  cbn [ChangeTracker.undoStack].
  assert (editFree (Arr.push (ChangeTracker.undoStack ct)
                             (UndoAction.mk "change" c now)) = true) as Hpush.
  { unfold Arr.push. rewrite editFree_app, Hfree. unfold editFree. simpl.
    now rewrite Hc. }
  destruct (ChangeTracker.maxHistorySize ct <? _); [|exact Hpush].
  unfold Arr.shift.
  destruct (Arr.push (ChangeTracker.undoStack ct) (UndoAction.mk "change" c now))
    as [|a l]; [reflexivity|].
  unfold editFree in *. simpl in Hpush. now apply andb_true_iff in Hpush as [_ H].
Qed.

Lemma contentAt_getFile_other now fs path q :
  q <> Utils.normalizePath path ->
  VirtualFileSystem.contentAt (snd (VirtualFileSystem.getFile now fs path)) q
  = VirtualFileSystem.contentAt fs q.
Proof. intros H. now apply contentAt_get, get_getFile_other. Qed.

(** The look-up returns an entry only on a page with a cache. *)
Lemma getFile_returned_cache now fs path e :
  fst (VirtualFileSystem.getFile now fs path) = Returned (Some e) ->
  VirtualFileSystem.hasCache fs = true.
Proof.
  intros H. destruct (getFile_returned now fs path H) as (_ & e0 & E & _).
  unfold VirtualFileSystem.hasCache.
  destruct (VirtualFileSystem.storage fs) eqn:Es; [|reflexivity].
  rewrite (getFile_builtin now fs path E Es) in H. discriminate.
Qed.

Lemma rethrow_returned {A : Type} prefix (r : outcome A) a :
  rethrow prefix r = Returned a -> r = Returned a.
Proof. destruct r; simpl; congruence. Qed.

(** A call of [write_file] that returns records a well-formed change
    whose effect the store shows, and touches no other path. *)
Lemma write_effect now id w p c text w' :
  WriteFileTool.execute now id w p c = (Returned text, w') ->
  exists ch, records now w w' ch.
Proof.
  unfold WriteFileTool.execute.
  destruct (VirtualFileSystem.getFile now (World.fileSystem w) p)
    as [[existing|error] fs1] eqn:G; [|discriminate].
  destruct (WriteFileTool.writeFetched now id existing fs1 (World.changeTracker w) p c)
    as [r0 w0] eqn:F.
  intros H. inversion H as [[Hr Hw]]. subst w0. apply rethrow_returned in Hr. subst r0.
  unfold WriteFileTool.writeFetched in F.
  destruct (VirtualFileSystem.updateFile now fs1 p c) as [[file|error] fs2] eqn:U;
    [|discriminate].
  inversion F; subst; clear F.
  eexists. unfold records. split; [reflexivity|].
  cbn [World.fileSystem].
  replace fs2 with (snd (VirtualFileSystem.updateFile now fs1 p c))
    by now rewrite U.
  replace fs1 with (snd (VirtualFileSystem.getFile now (World.fileSystem w) p))
    by now rewrite G.
  unfold pathOf, after, wellFormed, isEdit.
  cbn [Change.filePath Change.type Change.newContent].
  split; [now destruct existing|].
  split; [rewrite contentAt_updateFile_same; now destruct existing|].
  split; [|split].
  - intros q Hq.
    rewrite (contentAt_get _ _ _ (get_updateFile_other _ _ _ _ Hq)).
    now apply contentAt_getFile_other.
  - destruct existing as [f|]; [|discriminate]. intros _.
    apply getFile_returned_cache with (now := now) (path := p) (e := f).
    now rewrite G.
  - now rewrite hasCache_updateFile, hasCache_getFile.
Qed.

Lemma edit_effect now id w p o n all text w' :
  EditFileTool.execute now id w p o n all = (Returned text, w') ->
  exists ch, records now w w' ch.
Proof.
  unfold EditFileTool.execute.
  destruct (VirtualFileSystem.getFile now (World.fileSystem w) p)
    as [[file|error] fs1] eqn:G; [|discriminate].
  destruct (EditFileTool.editFetched now id file fs1 (World.changeTracker w) p o n all)
    as [r0 w0] eqn:F.
  intros H. inversion H as [[Hr Hw]]. subst w0. apply rethrow_returned in Hr. subst r0.
  unfold EditFileTool.editFetched in F.
  destruct file as [f|]; [|discriminate].
  destruct (FileEntry.type f); [|discriminate].
  destruct (FileEntry.content f) as [original|]; [|discriminate].
  destruct (negb (Str.includes original o)); [discriminate|].
  destruct (negb all && (1 <? EditFileTool.occurrences original o));
    [discriminate|].
  match type of F with
  | context [VirtualFileSystem.updateFile now fs1 p ?c] =>
      destruct (VirtualFileSystem.updateFile now fs1 p c)
        as [[e|error] fs2] eqn:U; [|discriminate];
      set (newFileContent := c) in *
  end.
  inversion F; subst; clear F.
  eexists. unfold records. split; [reflexivity|].
  cbn [World.fileSystem].
  replace fs2 with (snd (VirtualFileSystem.updateFile now fs1 p newFileContent))
    by now rewrite U.
  replace fs1 with (snd (VirtualFileSystem.getFile now (World.fileSystem w) p))
    by now rewrite G.
  unfold pathOf, after, wellFormed, isEdit.
  cbn [Change.filePath Change.type Change.newContent].
  split; [reflexivity|].
  split; [now rewrite contentAt_updateFile_same|].
  split; [|split].
  - intros q Hq.
    rewrite (contentAt_get _ _ _ (get_updateFile_other _ _ _ _ Hq)).
    now apply contentAt_getFile_other.
  - intros _.
    apply getFile_returned_cache with (now := now) (path := p) (e := f).
    now rewrite G.
  - now rewrite hasCache_updateFile, hasCache_getFile.
Qed.

Lemma create_effect now id w p c t text w' :
  CreateFileTool.execute now id w p c t = (Returned text, w') ->
  exists ch, records now w w' ch.
Proof.
  unfold CreateFileTool.execute.
  destruct (VirtualFileSystem.getFile now (World.fileSystem w) p)
    as [[file|error] fs1] eqn:G; [|discriminate].
  destruct (CreateFileTool.createFetched now id file fs1 (World.changeTracker w) p c t)
    as [r0 w0] eqn:F.
  intros H. inversion H as [[Hr Hw]]. subst w0. apply rethrow_returned in Hr. subst r0.
  unfold CreateFileTool.createFetched in F.
  destruct file as [f|]; [discriminate|].
  match type of F with
  | context [VirtualFileSystem.addFile now fs1 p (Some ?c0) KFile None None] =>
      destruct (VirtualFileSystem.addFile now fs1 p (Some c0) KFile None None)
        as [e fs2] eqn:U;
      set (finalContent := c0) in *
  end.
  inversion F; subst; clear F.
  eexists. unfold records. split; [reflexivity|].
  cbn [World.fileSystem].
  replace fs2 with (snd (VirtualFileSystem.addFile now fs1 p (Some finalContent)
                                                   KFile None None))
    by now rewrite U.
  replace fs1 with (snd (VirtualFileSystem.getFile now (World.fileSystem w) p))
    by now rewrite G.
  unfold pathOf, after, wellFormed, isEdit.
  cbn [Change.filePath Change.type Change.newContent].
  split; [reflexivity|].
  split; [now rewrite contentAt_addFile_same|].
  split; [|split].
  - intros q Hq.
    rewrite (contentAt_get _ _ _ (get_addFile_other _ _ _ _ _ _ _ Hq)).
    now apply contentAt_getFile_other.
  - discriminate.
  - unfold VirtualFileSystem.hasCache at 1. rewrite addFile_storage.
    apply hasCache_getFile.
Qed.

Lemma delete_effect now id w p confirm text w' :
  DeleteFileTool.execute now id w p confirm = (Returned text, w') ->
  exists ch, records now w w' ch.
Proof.
  unfold DeleteFileTool.execute.
  destruct (negb confirm); [discriminate|].
  destruct (VirtualFileSystem.getFile now (World.fileSystem w) p)
    as [[file|error] fs1] eqn:G; [|discriminate].
  destruct (DeleteFileTool.deleteFetched now id file fs1 (World.changeTracker w) p)
    as [r0 w0] eqn:F.
  intros H. inversion H as [[Hr Hw]]. subst w0. apply rethrow_returned in Hr. subst r0.
  unfold DeleteFileTool.deleteFetched in F.
  destruct file as [f|]; [|discriminate].
  destruct (FileEntry.type f); [|discriminate].
  destruct (VirtualFileSystem.deleteFile fs1 p) as [deleted fs2] eqn:U.
  destruct (negb deleted); [discriminate|].
  inversion F; subst; clear F.
  eexists. unfold records. split; [reflexivity|].
  cbn [World.fileSystem].
  replace fs2 with (snd (VirtualFileSystem.deleteFile fs1 p)) by now rewrite U.
  replace fs1 with (snd (VirtualFileSystem.getFile now (World.fileSystem w) p))
    by now rewrite G.
  unfold pathOf, after, wellFormed, isEdit.
  cbn [Change.filePath Change.type Change.newContent].
  split; [reflexivity|].
  split; [now rewrite contentAt_deleteFile_same|].
  split; [|split].
  - intros q Hq.
    rewrite (contentAt_get _ _ _ (get_deleteFile_other _ _ Hq)).
    now apply contentAt_getFile_other.
  - discriminate.
  - now rewrite hasCache_deleteFile, hasCache_getFile.
Qed.

(** A call that returns keeps the world sound. *)
Lemma run_sound w call text w' :
  run w call = (Returned text, w') -> sound w -> sound w'.
Proof.
  intros Hrun [Hf Hfree]. unfold run in Hrun.
  assert (exists ch, records (now call) w w' ch)
    as (ch & Hct & Hwf & Hat & Hother & Hedit & Hpage).
  { destruct (op call).
    - eapply write_effect; eauto.
    - eapply edit_effect; eauto.
    - eapply create_effect; eauto.
    - eapply delete_effect; eauto. }
  split.
  - rewrite Hct. eapply faithful_record; eauto.
  - rewrite Hpage, Hct.
    destruct Hfree as [Hcache|Hfree]; [now left|].
    destruct (isEdit ch) eqn:Ech; [left; now apply Hedit|right].
    now apply editFree_record.
Qed.

Lemma runAll_sound calls :
  forall w w', runAll calls w = Some w' -> sound w -> sound w'.
Proof.
  induction calls as [|call calls IH]; simpl; intros w w' Hrun Hs.
  - now inversion Hrun; subst.
  - destruct (run w call) as [[text|e] w1] eqn:R; [|discriminate].
    eapply IH; eauto. eapply run_sound; eauto.
Qed.

End ToolFacts.

(** C1.  Start from any store and a fresh change tracker, and let any
    sequence of calls of the mutating tools ([write_file], [edit_file],
    [create_file], [delete_file]) run, each of them returning.  Then for
    every [n] up to the length of the undo stack, [undo()] called [n] times
    (at the times [undoTimes]) and then [redo()] called [n] times (at the
    times [redoTimes]) all return [true], put the undo and redo stacks
    back, and leave the store with the content it had after the sequence,
    at every path.  The tracker reaches the store through
    [window.fileSystem]; the statement covers the window that holds the
    store of the tools and the window that holds none.  The store is any
    store: the one of the page as the scripts leave it, where the calls
    that return are those that make a new file, and the one of a page
    that binds [Storage] to a manager. *)
Theorem undo_redo_inverse {ext : Externals}
        (fs0 : VirtualFileSystem.t) (calls : list History.Call) (w : World.t)
        (undoTimes redoTimes : list Z) (win : Window.t) :
  History.runAll calls (World.mk fs0 ChangeTracker.create) = Some w ->
  List.length undoTimes
  <= List.length (ChangeTracker.undoStack (World.changeTracker w)) ->
  List.length redoTimes = List.length undoTimes ->
  win = Window.mk (Some (World.fileSystem w)) \/ win = Window.mk None ->
  exists ct1 win1 ct2 win2,
    ChangeTracker.undoAll undoTimes (World.changeTracker w) win = Some (ct1, win1)
    /\ ChangeTracker.redoAll redoTimes ct1 win1 = Some (ct2, win2)
    /\ (forall path, contentOf win2 path = contentOf win path)
    /\ ChangeTracker.undoStack ct2 = ChangeTracker.undoStack (World.changeTracker w)
    /\ ChangeTracker.redoStack ct2 = ChangeTracker.redoStack (World.changeTracker w).
Proof.
  intros Hrun Hn Hlen Hwin.
  assert (History.sound (World.mk fs0 ChangeTracker.create)) as Hs0.
  { split; [apply faithful_nil|right; reflexivity]. }
  destruct (@runAll_sound _ calls _ _ Hrun Hs0) as [Hf Hfree].
  eapply undo_redo_on_faithful; eauto.
  - destruct Hwin as [-> | ->]; [exact Hfree|left; reflexivity].
  - destruct Hwin as [-> | ->]; [right|left]; reflexivity.
Qed.

(** The law on four recorded changes, three of them undone and redone,
    on a page with a manager; and on the page as the scripts leave it,
    on three files made and all three undone and redone. *)
Lemma undo_redo_inverse_witness :
  (exists ct1 win1 ct2 win2,
      @ChangeTracker.undoAll blankExternals [5; 6; 7]%Z
                             (World.changeTracker Sample.world4)
                             (Window.mk (Some (World.fileSystem Sample.world4)))
      = Some (ct1, win1)
      /\ @ChangeTracker.redoAll blankExternals [8; 9; 10]%Z ct1 win1
         = Some (ct2, win2)
      /\ (forall path,
             contentOf win2 path
             = contentOf (Window.mk (Some (World.fileSystem Sample.world4))) path)
      /\ ChangeTracker.undoStack ct2
         = ChangeTracker.undoStack (World.changeTracker Sample.world4)
      /\ ChangeTracker.redoStack ct2
         = ChangeTracker.redoStack (World.changeTracker Sample.world4))
  /\ (exists ct1 win1 ct2 win2,
         @ChangeTracker.undoAll blankExternals [4; 5; 6]%Z
                                (World.changeTracker Sample.plainWorld3)
                                (Window.mk (Some (World.fileSystem Sample.plainWorld3)))
         = Some (ct1, win1)
         /\ @ChangeTracker.redoAll blankExternals [7; 8; 9]%Z ct1 win1
            = Some (ct2, win2)
         /\ (forall path,
                contentOf win2 path
                = contentOf (Window.mk (Some (World.fileSystem Sample.plainWorld3)))
                            path)
         /\ ChangeTracker.undoStack ct2
            = ChangeTracker.undoStack (World.changeTracker Sample.plainWorld3)
         /\ ChangeTracker.redoStack ct2
            = ChangeTracker.redoStack (World.changeTracker Sample.plainWorld3)).
Proof.
  split.
  - apply (@undo_redo_inverse blankExternals Sample.fs0 Sample.calls Sample.world4).
    + vm_compute. reflexivity.
    + vm_compute. lia.
    + reflexivity.
    + left. reflexivity.
  - apply (@undo_redo_inverse blankExternals Sample.plainFs Sample.plainCalls
                              Sample.plainWorld3).
    + vm_compute. reflexivity.
    + vm_compute. lia.
    + reflexivity.
    + left. reflexivity.
Defined.

(** The frame of [updateFile] on a store with two files. *)
Lemma mutation_frame_witness :
  JsMap.get (VirtualFileSystem.files
               (snd (@VirtualFileSystem.updateFile blankExternals 9%Z
                       (World.fileSystem Sample.world4) "a.txt" "new")))
            "src/b.js"
  = JsMap.get (VirtualFileSystem.files (World.fileSystem Sample.world4)) "src/b.js".
Proof.
  apply (@mutation_frame blankExternals 9%Z (World.fileSystem Sample.world4) "a.txt").
  vm_compute. discriminate.
Defined.

(* ================================================================== *)
(** * Validation of tool arguments *)

Section ValidationFacts.
Import Validation.

Lemma typeErrors_length param value :
  List.length (BaseTool.typeErrors param value)
  = b2n (negb (valueHasType (ToolParameter.type param) value)).
Proof.
  unfold BaseTool.typeErrors, valueHasType.
  repeat match goal with
         | |- context [String.eqb ?a ?b] => destruct (String.eqb a b)
         end; destruct value; reflexivity.
Qed.

Lemma enumErrors_length param value :
  List.length (BaseTool.enumErrors param value)
  = match ToolParameter.enum param with
    | Some allowed => b2n (negb (existsb (JsValue.sameValueZero value) allowed))
    | None => 0
    end.
Proof.
  unfold BaseTool.enumErrors.
  destruct (ToolParameter.enum param) as [allowed|]; [|reflexivity].
  destruct (existsb _ allowed); reflexivity.
Qed.

(** One parameter contributes one message for each of the three
    violations it shows. *)
Lemma paramErrors_length args param :
  List.length (BaseTool.paramErrors args param)
  = b2n (isMissing args param) + b2n (isMistyped args param)
    + b2n (isOutsideEnum args param).
Proof.
  unfold BaseTool.paramErrors, isMissing, isMistyped, isOutsideEnum.
  rewrite length_app.
  destruct (JsValue.getProperty args (ToolParameter.name param)) as [value|] eqn:G.
  - rewrite length_app, typeErrors_length, enumErrors_length.
    destruct (ToolParameter.required param
              && negb (JsValue.hasProperty args (ToolParameter.name param)));
      destruct (ToolParameter.enum param); simpl; lia.
  - destruct (ToolParameter.required param
              && negb (JsValue.hasProperty args (ToolParameter.name param)));
      simpl; lia.
Qed.

Lemma count_cons p (x : ToolParameter.t) l :
  count p (x :: l) = b2n (p x) + count p l.
Proof. unfold count. simpl. destruct (p x); reflexivity. Qed.

Lemma validateArgs_length parameters args :
  List.length (BaseTool.validateArgs parameters args)
  = count (isMissing args) parameters + count (isMistyped args) parameters
    + count (isOutsideEnum args) parameters.
Proof.
  unfold BaseTool.validateArgs.
  induction parameters as [|param parameters IH]; [reflexivity|].
  simpl flat_map. rewrite length_app, paramErrors_length, IH, !count_cons. lia.
Qed.

(** For a parameter that is not named like an inherited property the
    validator looks at the own property of the arguments and at nothing
    else. *)
Lemma own_property_decides args param :
  hasInheritedName param = false ->
  JsValue.getProperty args (ToolParameter.name param)
  = JsMap.get args (ToolParameter.name param)
  /\ isMissing args param = isNotSupplied args param.
Proof.
  unfold hasInheritedName, isMissing, isNotSupplied, JsValue.hasProperty,
    JsValue.getProperty, JsMap.has.
  intros H.
  destruct (JsValue.inherited (ToolParameter.name param)); [discriminate|].
  destruct (JsMap.get args (ToolParameter.name param)); auto.
Qed.

(** A parameter that is named like an inherited property is never
    reported missing. *)
Lemma inherited_name_never_missing args param :
  hasInheritedName param = true -> isMissing args param = false.
Proof.
  unfold hasInheritedName, isMissing, JsValue.hasProperty, JsValue.getProperty.
  intros H.
  destruct (JsValue.inherited (ToolParameter.name param)); [|discriminate].
  destruct (JsMap.get args (ToolParameter.name param));
    now rewrite andb_false_r.
Qed.
End ValidationFacts.

(** C8, at the input on which the code fails it.  [validateArgs] asks
    [param.name in args], and [in] also sees what every object inherits.
    A tool whose required parameters are [constructor], [valueOf] and
    [path], called with no argument, gets the one message for [path]
    where three required parameters are missing; with the type [string]
    declared for it, the missing [constructor] is reported as a value of
    the wrong type.  Apart from such names the validator collects as the
    claim says: for every tool and call the messages are one for every
    required parameter that is no property of the arguments, one for
    every value of the wrong type and one for every value outside its
    [enum] list, nothing stops at the first violation, and for a
    parameter that is not named like an inherited property the own
    property of the arguments decides.  [edit_file] called with only
    [new_content] and a string for [replace_all] gets its three
    messages. *)
Theorem validation_misses_inherited_names :
  (BaseTool.validateArgs Sample.oddParameters []
   = ["Required parameter 'path' is missing"]
   /\ Validation.count (Validation.isNotSupplied []) Sample.oddParameters = 3)
  /\ BaseTool.validateArgs
       [ToolParameter.mk "constructor" "string" "The class to build" true None] []
     = ["Parameter 'constructor' must be a string"]
  /\ (forall parameters args,
         List.length (BaseTool.validateArgs parameters args)
         = Validation.count (Validation.isMissing args) parameters
           + Validation.count (Validation.isMistyped args) parameters
           + Validation.count (Validation.isOutsideEnum args) parameters)
  /\ (forall args param,
         (Validation.hasInheritedName param = true ->
          Validation.isMissing args param = false)
         /\ (Validation.hasInheritedName param = false ->
             JsValue.getProperty args (ToolParameter.name param)
             = JsMap.get args (ToolParameter.name param)
             /\ Validation.isMissing args param
                = Validation.isNotSupplied args param))
  /\ forallb (fun param => negb (Validation.hasInheritedName param))
             (WriteFileTool.parameters ++ EditFileTool.parameters
              ++ CreateFileTool.parameters ++ DeleteFileTool.parameters) = true
  /\ BaseTool.validateArgs EditFileTool.parameters
       [("new_content", JStr "x"); ("replace_all", JStr "yes")]
     = ["Required parameter 'file_path' is missing";
        "Required parameter 'old_content' is missing";
        "Parameter 'replace_all' must be a boolean"].
Proof.
  split; [split; reflexivity|]. split; [reflexivity|].
  split; [apply validateArgs_length|].
  split; [|split; reflexivity].
  intros args param. split.
  - apply inherited_name_never_missing.
  - apply own_property_decides.
Qed.

(* ================================================================== *)
(** * The registry as error boundary *)

(** C9.  [ToolRegistry.execute] always returns a [ToolResult] and never
    throws.  For a name that is not registered the result is a failure
    that names the unknown tool; when [validateArgs] reports violations the
    result is a failure that carries all of them, joined by a comma and a
    space, and the tool does not run; when the tool runs and returns, the
    result is a success with what it returned; when the tool throws, the
    result is a failure with the text of the error.  The state is the one
    the tool left. *)
Theorem registry_is_error_boundary (S : Type) (reg : ToolRegistry.t S)
        (toolCall : ToolCall.t) (s : S) :
  exists r s',
    ToolRegistry.execute reg toolCall s = (Returned r, s')
    /\ (ToolRegistry.get reg (ToolCall.name toolCall) = None ->
        r = ToolResult.mk false None
              (Some ("Unknown tool: " ++ ToolCall.name toolCall))
        /\ s' = s)
    /\ (forall tool,
           ToolRegistry.get reg (ToolCall.name toolCall) = Some tool ->
           let errors := BaseTool.validateArgs (Tool.parameters tool)
                                               (ToolCall.arguments toolCall) in
           (errors <> [] ->
            r = ToolResult.mk false None
                  (Some ("Validation errors: " ++ Str.join ", " errors))
            /\ s' = s)
           /\ (errors = [] ->
               forall text s1,
                 Tool.execute tool (ToolCall.arguments toolCall) s
                 = (Returned text, s1) ->
                 r = ToolResult.mk true (Some text) None /\ s' = s1)
           /\ (errors = [] ->
               forall error s1,
                 Tool.execute tool (ToolCall.arguments toolCall) s
                 = (Thrown error, s1) ->
                 r = ToolResult.mk false None (Some (describe error)) /\ s' = s1)).
Proof.
  unfold ToolRegistry.execute.
  destruct (ToolRegistry.get reg (ToolCall.name toolCall)) as [tool|] eqn:G.
  - unfold ToolRegistry.attempt.
    destruct (BaseTool.validateArgs (Tool.parameters tool)
                                    (ToolCall.arguments toolCall))
      as [|e errs] eqn:V.
    + destruct (Tool.execute tool (ToolCall.arguments toolCall) s)
        as [[text|error] s1] eqn:X;
        (eexists; eexists; split; [reflexivity|]);
        (split; [discriminate|]);
        intros tool' E; inversion E; subst tool'; rewrite V; cbn zeta;
        (split; [intros H; now elim H|]);
        split; intros _ t0 s0 X0; rewrite X in X0; inversion X0; subst; auto.
    + eexists; eexists; split; [reflexivity|].
      split; [discriminate|].
      intros tool' E; inversion E; subst tool'; rewrite V; cbn zeta.
      split; [intros _; auto|]. split; discriminate.
  - eexists; eexists; split; [reflexivity|].
    split; [auto|]. intros tool E. discriminate.
Qed.

(** A registry with one tool that throws. *)
Lemma registry_is_error_boundary_witness :
  exists r s',
    ToolRegistry.execute
      (ToolRegistry.register (ToolRegistry.create nat)
         (Tool.mk "boom" "always throws" [] (fun _ s => (Thrown (Err "boom"), S s)))
         "general")
      (ToolCall.mk "1" "boom" []) 0
    = (Returned r, s')
    /\ r = ToolResult.mk false None (Some "boom") /\ s' = 1.
Proof.
  destruct (registry_is_error_boundary
              (ToolRegistry.register (ToolRegistry.create nat)
                 (Tool.mk "boom" "always throws" []
                          (fun _ s => (Thrown (Err "boom"), S s)))
                 "general")
              (ToolCall.mk "1" "boom" []) 0)
    as (r & s' & E & _ & H).
  exists r, s'. split; [exact E|].
  destruct (H _ eq_refl) as (_ & _ & H3).
  apply (H3 eq_refl (Err "boom") 1 eq_refl).
Defined.

(* ================================================================== *)
(** * Trimming to the budget *)

Section BudgetFacts.
Import Budget.

Lemma length_append (a b : string) :
  String.length (a ++ b) = String.length a + String.length b.
Proof. induction a as [|c a IH]; simpl; auto. Qed.

Lemma length_take (n : nat) : forall s,
    String.length (Str.take n s) = Nat.min n (String.length s).
Proof.
  induction n as [|n IH]; intros [|c s]; simpl; auto.
Qed.

Lemma totalChars_app l1 l2 :
  totalChars (l1 ++ l2) = totalChars l1 + totalChars l2.
Proof.
  unfold totalChars. induction l1 as [|f l1 IH]; simpl; auto.
  rewrite IH. lia.
Qed.

Lemma partialOf_chars file remaining :
  contentChars file > remaining ->
  contentChars (partialOf file remaining) = remaining - 100 + 17.
Proof.
  unfold contentChars, partialOf. cbn [RelevantFile.content].
  destruct (RelevantFile.content file) as [c|]; simpl; [|lia].
  intros H. rewrite length_append, length_take.
  change (String.length ContextManager.truncationMark) with 17. lia.
Qed.

(** The loop, when everything left fits. *)
Lemma trimFrom_all_fit maxChars files :
  forall total acc,
    forallb hasContent files = true ->
    total + totalChars files <= maxChars ->
ContextManager.trimFrom maxChars files total acc
= Returned (acc ++ files)%list.
Proof.
  induction files as [|f files IH]; simpl; intros total acc Hc Hfit.
  - now rewrite app_nil_r.
  - apply andb_true_iff in Hc as [Hf Hc].
    unfold hasContent in Hf. unfold contentChars in Hfit.
    destruct (RelevantFile.content f) as [c|]; [|discriminate].
    replace (total + String.length c <=? maxChars) with true
      by (symmetry; apply Nat.leb_le; lia).
    rewrite IH by (auto; lia). unfold Arr.push. now rewrite <- app_assoc.
Qed.

(** The loop, when the files [pre] fit and the file [f] after them
    does not. *)
Lemma trimFrom_split maxChars pre f post :
  forall total acc,
    forallb hasContent pre = true ->
    hasContent f = true ->
    total + totalChars pre <= maxChars ->
    maxChars < total + totalChars pre + contentChars f ->
ContextManager.trimFrom maxChars (pre ++ f :: post) total acc
= Returned (acc ++ pre
            ++ (if 500 <? maxChars - (total + totalChars pre)
                then [partialOf f (maxChars - (total + totalChars pre))]
                else []))%list.
Proof.
  induction pre as [|g pre IH]; simpl; intros total acc Hc Hf Hfit Hover.
  - unfold hasContent in Hf. unfold contentChars in Hover.
    unfold partialOf, Arr.push.
    destruct (RelevantFile.content f) as [c|]; [|discriminate].
    replace (total + String.length c <=? maxChars) with false
      by (symmetry; apply Nat.leb_gt; lia).
    rewrite Nat.add_0_r.
    destruct (500 <? maxChars - total); simpl; [reflexivity|].
    now rewrite app_nil_r.
  - apply andb_true_iff in Hc as [Hg Hc].
    unfold hasContent in Hg. unfold contentChars in Hfit, Hover at 1.
    unfold contentChars at 1 2.
    destruct (RelevantFile.content g) as [c|]; [|discriminate].
    replace (total + String.length c <=? maxChars) with true
      by (symmetry; apply Nat.leb_le; lia).
    rewrite IH by (auto; lia). unfold Arr.push.
    rewrite <- app_assoc, Nat.add_assoc. reflexivity.
Qed.
End BudgetFacts.

(** C5, as amended.  [trimContextToLimit] takes the files in order, each
    with a content.  While the next file fits the characters left, it is
    taken whole.  At the first file that does not fit, the loop stops: when
    MORE THAN 500 characters are left, a copy of that file is added whose
    content is the first (left - 100) characters followed by the
    truncation mark, whose score is multiplied by 0.7 and whose reason gets
    the suffix [_partial]; when 500 characters or fewer are left, nothing
    is added.  The contents returned never exceed the budget.  With a
    budget of 1000 characters and two files of 700 characters, 300
    characters are left after the first file and the first file alone is
    returned. *)
Theorem trim_budget (cm : ContextManager.t) (files : list RelevantFile.t) :
  forallb Budget.hasContent files = true ->
  (Budget.totalChars files <= ContextManager.maxContextChars cm ->
ContextManager.trimContextToLimit cm files = Returned files)
/\ (forall pre f post,
      files = (pre ++ f :: post)%list ->
      Budget.totalChars pre <= ContextManager.maxContextChars cm ->
ContextManager.maxContextChars cm
< Budget.totalChars pre + Budget.contentChars f ->
ContextManager.trimContextToLimit cm files
= Returned
    (pre ++ (if 500 <? ContextManager.maxContextChars cm
                        - Budget.totalChars pre
             then [Budget.partialOf
                     f (ContextManager.maxContextChars cm
                        - Budget.totalChars pre)]
             else []))%list)
/\ (forall result,
ContextManager.trimContextToLimit cm files = Returned result ->
Budget.totalChars result <= ContextManager.maxContextChars cm)
/\ ContextManager.trimContextToLimit
(Sample.manager 1000)
[Sample.file700 "a.js" "a"; Sample.file700 "b.js" "b"]
= Returned [Sample.file700 "a.js" "a"].
Proof.
  intros Hc. unfold ContextManager.trimContextToLimit.
  assert (forall pre f post,
             files = (pre ++ f :: post)%list ->
             Budget.totalChars pre <= ContextManager.maxContextChars cm ->
ContextManager.maxContextChars cm
< Budget.totalChars pre + Budget.contentChars f ->
ContextManager.trimFrom (ContextManager.maxContextChars cm) files 0 []
= Returned
    (pre ++ (if 500 <? ContextManager.maxContextChars cm
                        - Budget.totalChars pre
             then [Budget.partialOf
                     f (ContextManager.maxContextChars cm
                        - Budget.totalChars pre)]
             else []))%list) as Hsplit.
{ intros pre f post -> Hfit Hover.
rewrite forallb_app in Hc. apply andb_true_iff in Hc as [Hpre Hrest].
simpl in Hrest. apply andb_true_iff in Hrest as [Hf _].
now rewrite trimFrom_split by (simpl; auto). }
split; [|split; [exact Hsplit|split]].
- intros Hfit. now rewrite trimFrom_all_fit by (simpl; auto).
- intros result Hres.
destruct (le_lt_dec (Budget.totalChars files)
           (ContextManager.maxContextChars cm)) as [Hfit|Hover].
+ rewrite trimFrom_all_fit in Hres by (simpl; auto).
simpl in Hres. now inversion Hres; subst.
+ (* the first file that does not fit *)
assert (exists pre f post,
    files = (pre ++ f :: post)%list
    /\ Budget.totalChars pre <= ContextManager.maxContextChars cm
    /\ ContextManager.maxContextChars cm
       < Budget.totalChars pre + Budget.contentChars f)
as (pre & f & post & E & H1 & H2).
{ clear Hc Hsplit Hres.
induction files as [|g files IH] using rev_ind.
- simpl in Hover. lia.
- rewrite totalChars_app in Hover. simpl in Hover.
destruct (le_lt_dec (Budget.totalChars files)
                 (ContextManager.maxContextChars cm)) as [Hle|Hgt].
+ exists files, g, []. repeat split; auto. lia.
+ destruct (IH Hgt) as (pre & f & post & -> & H1 & H2).
exists pre, f, (post ++ [g])%list. rewrite <- app_assoc. auto. }
rewrite (Hsplit pre f post E H1 H2) in Hres.
inversion Hres; subst result; clear Hres.
rewrite totalChars_app.
destruct (500 <? ContextManager.maxContextChars cm - Budget.totalChars pre)
  eqn:E500.
* apply Nat.ltb_lt in E500. simpl.
rewrite partialOf_chars by lia. lia.
* simpl. lia.
- vm_compute. reflexivity.
Qed.

(** The budget rule on two files of 700 characters under a budget of
    1300: the first whole, and of the second the first 500 characters
    with the mark, since 600 characters are left. *)
Lemma trim_budget_witness :
ContextManager.trimContextToLimit
  (Sample.manager 1300)
  [Sample.file700 "a.js" "a"; Sample.file700 "b.js" "b"]
= Returned
    [Sample.file700 "a.js" "a";
     RelevantFile.mk "b.js"
       (Some (Budget.repeatChar "b" 500 ++ ContextManager.truncationMark))
       (1 * (7 # 10))%Q "keyword_match_partial" []].
Proof.
  destruct (trim_budget (Sample.manager 1300)
                        [Sample.file700 "a.js" "a"; Sample.file700 "b.js" "b"]
                        eq_refl) as (_ & H & _).
  rewrite (H [Sample.file700 "a.js" "a"] (Sample.file700 "b.js" "b") []);
    [ vm_compute; reflexivity | reflexivity | vm_compute; lia | vm_compute; lia ].
Defined.

(** C5, as the claim states it, fails.  With a budget of 1000 characters
    and two files of 700 characters no partial copy of the second file is
    returned; and with exactly 500 characters left (a budget of 1200) none
    is returned either. *)
Lemma trim_claim_counterexample :
  ~ (exists partialFile,
ContextManager.trimContextToLimit
  (Sample.manager 1000)
  [Sample.file700 "a.js" "a"; Sample.file700 "b.js" "b"]
= Returned [Sample.file700 "a.js" "a"; partialFile]
/\ RelevantFile.reason partialFile = "keyword_match_partial"
/\ 500 <= Budget.contentChars partialFile)
/\ ContextManager.trimContextToLimit
(Sample.manager 1200)
[Sample.file700 "a.js" "a"; Sample.file700 "b.js" "b"]
= Returned [Sample.file700 "a.js" "a"].
Proof.
  split.
  - intros (partialFile & H & _). vm_compute in H. discriminate.
  - vm_compute. reflexivity.
Qed.

(* ================================================================== *)
(** * Editing a file *)

Section SearchFacts.

Lemma indexOfFrom_none s p : forall i j,
    Str.indexOfFrom s p i = None -> Str.indexOfFrom s p j = None.
Proof.
  induction s as [|c s IH]; intros i j; cbn [Str.indexOfFrom].
  - destruct (Str.startsWith "" p); [intros H; discriminate|reflexivity].
  - destruct (Str.startsWith (String c s) p); [intros H; discriminate|apply IH].
Qed.

Lemma includes_cons c s p :
  Str.includes (String c s) p
  = Str.startsWith (String c s) p || Str.includes s p.
Proof.
  unfold Str.includes, Str.indexOf. cbn [Str.indexOfFrom].
  destruct (Str.startsWith (String c s) p); [reflexivity|]. cbn [orb].
  destruct (Str.indexOfFrom s p 1) eqn:E1; destruct (Str.indexOfFrom s p 0) eqn:E0;
    auto.
  - pose proof (@indexOfFrom_none s p 0 1 E0). congruence.
  - pose proof (@indexOfFrom_none s p 1 0 E1). congruence.
Qed.

Lemma includes_start s p : Str.startsWith s p = true -> Str.includes s p = true.
Proof.
  intros H. unfold Str.includes, Str.indexOf.
  destruct s; cbn [Str.indexOfFrom]; now rewrite H.
Qed.

(** A pattern that is counted at least once occurs. *)
Lemma count_pos_includes p s : forall skip,
    0 < Str.countFrom p s skip -> Str.includes s p = true.
Proof.
  induction s as [|c s IH]; intros skip H.
  - destruct skip; cbn [Str.countFrom] in H; [|lia].
    destruct (Str.startsWith "" p) eqn:E; [|lia]. now apply includes_start.
  - rewrite includes_cons. destruct skip as [|skip]; cbn [Str.countFrom] in H.
    + destruct (Str.startsWith (String c s) p) eqn:E; [reflexivity|].
      cbn [orb]. now apply (IH 0).
    + rewrite (IH skip H). apply orb_true_r.
Qed.

Lemma expand_plain template matched before after :
  Replacement.plain template = true ->
  Str.expand template matched before after = template.
Proof.
  induction template as [|c t IH]; simpl; [reflexivity|].
  intros H. apply andb_true_iff in H as [Hc Ht].
  apply negb_true_iff in Hc. rewrite Hc. now rewrite IH.
Qed.

Lemma startsWith_length s : forall p,
    Str.startsWith s p = true -> String.length p <= String.length s.
Proof.
  induction s as [|c s IH]; intros [|a p]; simpl; intros H; try lia;
    try discriminate.
  apply andb_true_iff in H as [_ H]. apply IH in H. lia.
Qed.

Lemma startsWith_empty p : Str.startsWith "" p = true -> p = "".
Proof. destruct p; simpl; [reflexivity|discriminate]. Qed.

(** The length of the result of a replace-all with a plain replacement:
    every match gives up the pattern and takes the replacement. *)
Lemma replaceAllFrom_length p template whole :
  Replacement.plain template = true ->
  forall s pos skip,
    String.length (Str.replaceAllFrom p template whole s pos skip)
    + Nat.min skip (String.length s)
    + Str.countFrom p s skip * String.length p
    = String.length s + Str.countFrom p s skip * String.length template.
Proof.
  intros Hplain.
  induction s as [|c s IH]; intros pos skip.
  - destruct skip as [|skip]; cbn [Str.replaceAllFrom Str.countFrom]; [|simpl; lia].
    destruct (Str.startsWith "" p) eqn:E; [|simpl; lia].
    apply startsWith_empty in E. subst p.
    rewrite expand_plain by assumption. simpl. lia.
  - destruct skip as [|skip]; cbn [Str.replaceAllFrom Str.countFrom].
    + destruct (Str.startsWith (String c s) p) eqn:E.
      * destruct p as [|a p'].
        -- rewrite !length_append, expand_plain by assumption.
           specialize (IH (S pos) 0). simpl in *. lia.
        -- rewrite length_append, expand_plain by assumption.
           specialize (IH (S pos) (String.length p')).
           simpl in E. apply andb_true_iff in E as [_ E].
           apply startsWith_length in E.
           replace (String.length (String a p') - 1) with (String.length p')
             by (simpl; lia).
           rewrite Nat.min_l in IH by assumption.
           cbn [String.length Nat.min] in *. lia.
      * specialize (IH (S pos) 0). simpl in *. lia.
    + specialize (IH (S pos) skip). simpl in *. lia.
Qed.

Lemma replaceAll_length text p template :
  Replacement.plain template = true ->
  String.length (Str.replaceAll text p template)
  + Str.countOccurrences p text * String.length p
  = String.length text + Str.countOccurrences p text * String.length template.
Proof.
  intros H. unfold Str.replaceAll, Str.countOccurrences.
  pose proof (replaceAllFrom_length p template text H text 0 0) as L.
  simpl in L. lia.
Qed.

(** The count of the tool does not see overlapping occurrences: "aa"
    starts at two places of "aaa" and is counted once. *)
Remark count_skips_overlaps :
  Str.countOccurrences "aa" "aaa" = 1
  /\ Str.startsWith "aaa" "aa" = true /\ Str.startsWith "aa" "aa" = true.
Proof. repeat split. Qed.

(** A dollar sign in the replacement is read as a pattern: [$$] gives one
    dollar sign, [$&] the matched text. *)
Remark replacement_patterns :
  Str.replaceAll "price" "price" "$$5" = "$5"
  /\ Str.replaceFirst "a-b" "-" "<$&>" = "a<->b".
Proof. split; reflexivity. Qed.

End SearchFacts.


Section PlainPageFacts.
Context {ext : Externals}.

(** On the page as the scripts leave it, each of the four tools throws
    on a path that has an entry, under its own prefix, and leaves the
    world as it was: the look-up of the entry is the first thing each
    of them does. *)
Lemma write_on_entry now id w p content e :
  VirtualFileSystem.storage (World.fileSystem w) = Builtin ->
  JsMap.get (VirtualFileSystem.files (World.fileSystem w)) (Utils.normalizePath p)
  = Some e ->
  WriteFileTool.execute now id w p content
  = (Thrown (Err (Messages.lookupFailed "Failed to write file: ")), w).
Proof.
  intros Hs He. unfold WriteFileTool.execute.
  rewrite (getFile_builtin now _ p He Hs). destruct w; reflexivity.
Qed.

Lemma edit_on_entry now id w p old new all e :
  VirtualFileSystem.storage (World.fileSystem w) = Builtin ->
  JsMap.get (VirtualFileSystem.files (World.fileSystem w)) (Utils.normalizePath p)
  = Some e ->
  EditFileTool.execute now id w p old new all
  = (Thrown (Err (Messages.lookupFailed "Failed to edit file: ")), w).
Proof.
  intros Hs He. unfold EditFileTool.execute.
  rewrite (getFile_builtin now _ p He Hs). destruct w; reflexivity.
Qed.

Lemma create_on_entry now id w p content file_type e :
  VirtualFileSystem.storage (World.fileSystem w) = Builtin ->
  JsMap.get (VirtualFileSystem.files (World.fileSystem w)) (Utils.normalizePath p)
  = Some e ->
  CreateFileTool.execute now id w p content file_type
  = (Thrown (Err (Messages.lookupFailed "Failed to create file: ")), w).
Proof.
  intros Hs He. unfold CreateFileTool.execute.
  rewrite (getFile_builtin now _ p He Hs). destruct w; reflexivity.
Qed.

Lemma delete_on_entry now id w p e :
  VirtualFileSystem.storage (World.fileSystem w) = Builtin ->
  JsMap.get (VirtualFileSystem.files (World.fileSystem w)) (Utils.normalizePath p)
  = Some e ->
  DeleteFileTool.execute now id w p true
  = (Thrown (Err (Messages.lookupFailed "Failed to delete file: ")), w).
Proof.
  intros Hs He. unfold DeleteFileTool.execute. cbn [negb].
  rewrite (getFile_builtin now _ p He Hs). destruct w; reflexivity.
Qed.

End PlainPageFacts.

(** C6, at the input on which the code fails it.  On the page as the
    scripts leave it [create_file] makes [doc.txt] with the text
    "foo bar foo".  [edit_file] with "foo" for "baz" and [replace_all] set
    then throws, and the file holds "foo bar foo" as before: the look-up
    of the file calls [Storage.getFileContent], and [Storage] is not the
    manager.  Without [replace_all] the call throws the same error, not
    the one of the ambiguity guard.  So it is with every path that has an
    entry, whatever the arguments: on that page [edit_file] never
    returns.  On a page that binds [Storage] to a manager the example
    goes as the claim says: the call returns and leaves "baz bar baz"
    with [replace_all], and throws the error of the guard without,
    leaving the world as it was. *)
Theorem edit_file_throws_on_every_file {ext : Externals} :
  (let w := Sample.withFoo Builtin in
   VirtualFileSystem.contentAt (World.fileSystem w) "doc.txt"
   = Some (Some "foo bar foo")
   /\ EditFileTool.execute 5 "e1" w "doc.txt" "foo" "baz" true
      = (Thrown (Err "Failed to edit file: Storage.getFileContent is not a function"),
         w)
   /\ EditFileTool.execute 5 "e1" w "doc.txt" "foo" "baz" false
      = (Thrown (Err "Failed to edit file: Storage.getFileContent is not a function"),
         w))
  /\ (forall now id w p old new all e,
         VirtualFileSystem.storage (World.fileSystem w) = Builtin ->
         JsMap.get (VirtualFileSystem.files (World.fileSystem w))
                   (Utils.normalizePath p) = Some e ->
         EditFileTool.execute now id w p old new all
         = (Thrown (Err (Messages.lookupFailed "Failed to edit file: ")), w))
  /\ (forall now id w p old new all text w',
         VirtualFileSystem.storage (World.fileSystem w) = Builtin ->
         EditFileTool.execute now id w p old new all <> (Returned text, w'))
  /\ (let w := Sample.withFoo (Manager []) in
      (exists text,
          fst (EditFileTool.execute 5 "e1" w "doc.txt" "foo" "baz" true)
          = Returned text)
      /\ VirtualFileSystem.contentAt
           (World.fileSystem
              (snd (EditFileTool.execute 5 "e1" w "doc.txt" "foo" "baz" true)))
           "doc.txt"
         = Some (Some "baz bar baz")
      /\ EditFileTool.execute 5 "e1" w "doc.txt" "foo" "baz" false
         = (Thrown (Err (Messages.ambiguous 2)), w)).
Proof.
  split; [|split; [|split]].
  - cbn zeta. split; [vm_compute; reflexivity|].
    split; apply edit_on_entry with
      (e := FileEntry.mk "doc.txt" (Some "foo bar foo") KFile 11 0%Z);
      vm_compute; reflexivity.
  - intros. eapply edit_on_entry; eauto.
  - intros now id w p old new all text w' Hs H.
    destruct (JsMap.get (VirtualFileSystem.files (World.fileSystem w))
                        (Utils.normalizePath p)) as [e|] eqn:E.
    + rewrite (@edit_on_entry _ now id w p old new all e Hs E) in H.
      discriminate.
    + unfold EditFileTool.execute in H.
      rewrite getFile_none in H by assumption.
      cbn [EditFileTool.editFetched rethrow] in H. discriminate.
  - cbn zeta. split; [eexists; vm_compute; reflexivity|].
    split; vm_compute; reflexivity.
Qed.

(** C7, at the input on which the code fails it.  On the page as the
    scripts leave it [create_file] makes [a.txt] with the text "hi".  A
    second [create_file] on [a.txt] throws and leaves the world as it
    was, the file with "hi"; but it does not throw the already-exists
    error: the look-up of the path calls [Storage.getFileContent] and
    throws before the test for an existing file is reached.  So it is
    with every path that has an entry.  On a page that binds [Storage]
    to a manager the second call does throw the already-exists error,
    and leaves "hi"; but after [a.txt] was written twice, deleted and
    created with "hi", the second [create_file] leaves it with "v2", the
    text its look-up took from the content cache. *)
Theorem create_twice_wrong_error {ext : Externals} :
  (exists text w1,
      CreateFileTool.execute 1 "k1" Sample.plainWorld "a.txt" "hi" "text"
      = (Returned text, w1)
      /\ VirtualFileSystem.contentAt (World.fileSystem w1) "a.txt"
         = Some (Some "hi")
      /\ CreateFileTool.execute 2 "k2" w1 "a.txt" "bye" "text"
         = (Thrown (Err "Failed to create file: Storage.getFileContent is not a function"),
            w1)
      /\ "Failed to create file: Storage.getFileContent is not a function"
         <> Messages.exists_ "a.txt")
  /\ (forall now id w p content file_type e,
         VirtualFileSystem.storage (World.fileSystem w) = Builtin ->
         JsMap.get (VirtualFileSystem.files (World.fileSystem w))
                   (Utils.normalizePath p) = Some e ->
         CreateFileTool.execute now id w p content file_type
         = (Thrown (Err (Messages.lookupFailed "Failed to create file: ")), w))
  /\ (exists text w1,
         CreateFileTool.execute 1 "k1" Sample.world0 "a.txt" "hi" "text"
         = (Returned text, w1)
         /\ VirtualFileSystem.contentAt (World.fileSystem w1) "a.txt"
            = Some (Some "hi")
         /\ CreateFileTool.execute 2 "k2" w1 "a.txt" "bye" "text"
            = (Thrown (Err (Messages.exists_ "a.txt")), w1))
  /\ (exists w4,
         History.runAll Sample.staleCalls Sample.world0 = Some w4
         /\ VirtualFileSystem.contentAt (World.fileSystem w4) "a.txt"
            = Some (Some "hi")
         /\ fst (CreateFileTool.execute 5 "s5" w4 "a.txt" "bye" "text")
            = Thrown (Err (Messages.exists_ "a.txt"))
         /\ VirtualFileSystem.contentAt
              (World.fileSystem
                 (snd (CreateFileTool.execute 5 "s5" w4 "a.txt" "bye" "text")))
              "a.txt"
            = Some (Some "v2")).
Proof.
  split; [|split; [|split]].
  - eexists. eexists. split; [vm_compute; reflexivity|].
    split; [vm_compute; reflexivity|].
    split; [vm_compute; reflexivity|].
    vm_compute. discriminate.
  - intros. eapply create_on_entry; eauto.
  - eexists. eexists. split; [vm_compute; reflexivity|].
    split; vm_compute; reflexivity.
  - eexists. split; [vm_compute; reflexivity|].
    split; [|split]; vm_compute; reflexivity.
Qed.

(* ================================================================== *)
(** * Indexing a file twice *)

Section IndexFacts.
Import Indexing.

Lemma JsSet_has_add (s : JsSet) (x : string) : JsSet.has (JsSet.add s x) x = true.
Proof.
  unfold JsSet.add. destruct (JsSet.has s x) eqn:E; [exact E|].
  unfold JsSet.has. rewrite existsb_app. simpl.
  rewrite String.eqb_refl. now rewrite orb_true_r.
Qed.

Lemma addToken_covers filePath tokenIndex token :
  covered (FileIndex.addToken filePath tokenIndex token) filePath token = true.
Proof.
  unfold covered, FileIndex.addToken.
  destruct (JsMap.get tokenIndex token); rewrite get_set_same; apply JsSet_has_add.
Qed.

Lemma addToken_keeps filePath tokenIndex token other :
  covered tokenIndex filePath other = true ->
  covered (FileIndex.addToken filePath tokenIndex token) filePath other = true.
Proof.
  intros H. destruct (String.eqb other token) eqn:E.
  - apply String.eqb_eq in E. subst other. apply addToken_covers.
  - apply String.eqb_neq in E. unfold covered, FileIndex.addToken in *.
    destruct (JsMap.get tokenIndex token); now rewrite get_set_other.
Qed.

(** Adding a token the index already has for the file changes nothing. *)
Lemma addToken_covered filePath tokenIndex token :
  covered tokenIndex filePath token = true ->
  FileIndex.addToken filePath tokenIndex token = tokenIndex.
Proof.
  unfold covered, FileIndex.addToken.
  destruct (JsMap.get tokenIndex token) as [files|] eqn:G; [|discriminate].
  intros H. unfold JsSet.add. rewrite H. now apply set_get_same.
Qed.

Lemma fold_addToken_keeps filePath tokens : forall tokenIndex other,
    covered tokenIndex filePath other = true ->
    covered (fold_left (FileIndex.addToken filePath) tokens tokenIndex)
            filePath other = true.
Proof.
  induction tokens as [|t tokens IH]; simpl; intros ti other H; [exact H|].
  apply IH. now apply addToken_keeps.
Qed.

Lemma fold_addToken_covers filePath tokens : forall tokenIndex token,
    In token tokens ->
    covered (fold_left (FileIndex.addToken filePath) tokens tokenIndex)
            filePath token = true.
Proof.
  induction tokens as [|t tokens IH]; simpl; intros ti token Hin; [contradiction|].
  destruct Hin as [->|Hin].
  - apply fold_addToken_keeps, addToken_covers.
  - now apply IH.
Qed.

Lemma fold_addToken_covered filePath tokens : forall tokenIndex,
    (forall token, In token tokens -> covered tokenIndex filePath token = true) ->
    fold_left (FileIndex.addToken filePath) tokens tokenIndex = tokenIndex.
Proof.
  induction tokens as [|t tokens IH]; simpl; intros ti H; [reflexivity|].
  rewrite addToken_covered by (apply H; now left).
  apply IH. intros token Hin. apply H. now right.
Qed.

Lemma indexLines_keeps filePath lines : forall index tokenIndex other,
    covered tokenIndex filePath other = true ->
    covered (snd (FileIndex.indexLines filePath lines index tokenIndex))
            filePath other = true.
Proof.
  induction lines as [|line lines IH]; simpl; intros index ti other H; [exact H|].
  specialize (IH (S index)
                 (fold_left (FileIndex.addToken filePath) (FileIndex.tokenize line) ti)
                 other (fold_addToken_keeps _ _ _ _ H)).
  destruct (FileIndex.indexLines filePath lines (S index) _) as [infos ti'].
  exact IH.
Qed.

(** After the loop over the lines, every token of every line is in the
    index for the file. *)
Lemma indexLines_covers filePath lines : forall index tokenIndex line token,
    In line lines -> In token (FileIndex.tokenize line) ->
    covered (snd (FileIndex.indexLines filePath lines index tokenIndex))
            filePath token = true.
Proof.
  induction lines as [|l lines IH]; simpl; intros index ti line token Hl Ht;
    [contradiction|].
  destruct Hl as [->|Hl].
  - pose proof (indexLines_keeps filePath lines (S index) _ token
                  (fold_addToken_covers filePath _ ti token Ht)) as H.
    destruct (FileIndex.indexLines filePath lines (S index) _) as [infos ti'].
    exact H.
  - specialize (IH (S index)
                   (fold_left (FileIndex.addToken filePath) (FileIndex.tokenize l) ti)
                   line token Hl Ht).
    destruct (FileIndex.indexLines filePath lines (S index) _) as [infos ti'].
    exact IH.
Qed.

(** The loop over lines whose tokens the index has leaves the token
    index as it is; and the line records do not depend on the token
    index. *)
Lemma indexLines_covered filePath lines : forall index tokenIndex,
    (forall line token, In line lines -> In token (FileIndex.tokenize line) ->
                        covered tokenIndex filePath token = true) ->
    snd (FileIndex.indexLines filePath lines index tokenIndex) = tokenIndex.
Proof.
  induction lines as [|l lines IH]; simpl; intros index ti H; [reflexivity|].
  rewrite fold_addToken_covered by (intros token Ht; apply (H l); auto).
  specialize (IH (S index) ti
                 (fun line token Hl Ht => H line token (or_intror Hl) Ht)).
  destruct (FileIndex.indexLines filePath lines (S index) ti) as [infos ti'].
  exact IH.
Qed.

Lemma indexLines_records filePath lines : forall index tokenIndex tokenIndex',
    fst (FileIndex.indexLines filePath lines index tokenIndex)
    = fst (FileIndex.indexLines filePath lines index tokenIndex').
Proof.
  induction lines as [|l lines IH]; simpl; intros index ti ti'; [reflexivity|].
  specialize (IH (S index)
                 (fold_left (FileIndex.addToken filePath) (FileIndex.tokenize l) ti)
                 (fold_left (FileIndex.addToken filePath) (FileIndex.tokenize l) ti')).
  destruct (FileIndex.indexLines filePath lines (S index)
              (fold_left (FileIndex.addToken filePath) (FileIndex.tokenize l) ti)).
  destruct (FileIndex.indexLines filePath lines (S index)
              (fold_left (FileIndex.addToken filePath) (FileIndex.tokenize l) ti')).
  simpl in *. now rewrite IH.
Qed.

Context {ext : Externals}.

Lemma indexFile_tokenIndex idx filePath content :
  FileIndex.tokenIndex (FileIndex.indexFile idx filePath content)
  = snd (FileIndex.indexLines filePath (Str.split Utils.newline content) 0
                              (FileIndex.tokenIndex idx)).
Proof.
  unfold FileIndex.indexFile.
  destruct (FileIndex.indexLines filePath _ 0 (FileIndex.tokenIndex idx)).
  reflexivity.
Qed.

Lemma indexFile_lineIndex idx filePath content :
  FileIndex.lineIndex (FileIndex.indexFile idx filePath content)
  = JsMap.set (FileIndex.lineIndex idx) filePath
              (fst (FileIndex.indexLines filePath (Str.split Utils.newline content) 0
                                         (FileIndex.tokenIndex idx))).
Proof.
  unfold FileIndex.indexFile.
  destruct (FileIndex.indexLines filePath _ 0 (FileIndex.tokenIndex idx)).
  reflexivity.
Qed.

Lemma indexFile_symbolIndex idx filePath content :
  FileIndex.symbolIndex (FileIndex.indexFile idx filePath content)
  = fold_left FileIndex.addSymbol (FileIndex.symbolsOf filePath content)
              (FileIndex.symbolIndex idx).
Proof.
  unfold FileIndex.indexFile.
  destruct (FileIndex.indexLines filePath _ 0 (FileIndex.tokenIndex idx)).
  reflexivity.
Qed.

(** Indexing the same content a second time leaves the token index and
    the line index as the first pass left them. *)
Lemma indexFile_twice_tokenIndex idx filePath content :
  FileIndex.tokenIndex
    (FileIndex.indexFile (FileIndex.indexFile idx filePath content) filePath content)
  = FileIndex.tokenIndex (FileIndex.indexFile idx filePath content).
Proof.
  rewrite indexFile_tokenIndex. apply indexLines_covered.
  intros line token Hl Ht. rewrite indexFile_tokenIndex.
  now apply indexLines_covers with (line := line).
Qed.

Lemma indexFile_twice_lineIndex idx filePath content :
  FileIndex.lineIndex
    (FileIndex.indexFile (FileIndex.indexFile idx filePath content) filePath content)
  = FileIndex.lineIndex (FileIndex.indexFile idx filePath content).
Proof.
  rewrite !indexFile_lineIndex, set_set_same.
  f_equal. apply indexLines_records.
Qed.

End IndexFacts.

(* ================================================================== *)
(** * The index after a mutation *)

(** C2, at the inputs on which the code fails it.  [deleteFile] never
    touches the index.  So after [a.txt], holding the line "run(x) {", is
    added and deleted, the store has no file at the path, and yet a search
    for the symbol "run" returns the symbol of [a.txt], a search of the
    contents for "run" returns [a.txt], and the line index still has its
    lines.  After [updateFile] replaces the line by "walk(y) {" the symbol
    "run" of the old content is still found next to the new one.  All of
    this whatever the global [Storage] of the page is. *)
Theorem deleted_path_stays_indexed {ext : Externals} (global : StorageGlobal)
        (now : Z) :
  (forall fs p,
      VirtualFileSystem.index (snd (VirtualFileSystem.deleteFile fs p))
      = VirtualFileSystem.index fs)
  /\ (let fs2 := snd (VirtualFileSystem.deleteFile (Sample.withRun global now)
                                                   "a.txt") in
      fst (VirtualFileSystem.getFile now fs2 "a.txt") = Returned None
      /\ map SymbolInfo.filePath
             (FileIndex.searchSymbols (VirtualFileSystem.index fs2) "run" 50)
         = ["a.txt"]
      /\ option_map (map FileSearchResult.filePath)
                    (FileIndex.searchContent (VirtualFileSystem.index fs2) "run"
                                             SearchOptions.default)
         = Some ["a.txt"]
      /\ option_map (map LineInfo.content)
                    (JsMap.get (FileIndex.lineIndex (VirtualFileSystem.index fs2))
                               "a.txt")
         = Some ["run(x) {"])
  /\ (let fs3 := snd (VirtualFileSystem.updateFile now (Sample.withRun global now)
                                                   "a.txt" "walk(y) {") in
      VirtualFileSystem.contentAt fs3 "a.txt" = Some (Some "walk(y) {")
      /\ map SymbolInfo.name
             (FileIndex.getSymbols (VirtualFileSystem.index fs3) "a.txt")
         = ["run"; "walk"]).
Proof.
  split; [|split].
  - intros fs p. unfold VirtualFileSystem.deleteFile.
    destruct (JsMap.get _ _); reflexivity.
  - destruct global; vm_compute; repeat split; reflexivity.
  - destruct global; vm_compute; repeat split; reflexivity.
Qed.

(** C4, at the input on which the code fails it.  For every index, path
    and content, indexing the content a second time leaves the line index
    and the token index as the first pass left them; the symbol index gets
    every symbol of the content once more.  So after [a.txt] with the line
    "run(x) {" is indexed twice, [getSymbols] returns two equal symbols
    where it returned one after the first pass. *)
Theorem reindex_duplicates_symbols {ext : Externals} :
  (forall idx filePath content,
      let once := FileIndex.indexFile idx filePath content in
      let twice := FileIndex.indexFile once filePath content in
      FileIndex.lineIndex twice = FileIndex.lineIndex once
      /\ FileIndex.tokenIndex twice = FileIndex.tokenIndex once
      /\ FileIndex.symbolIndex twice
         = fold_left FileIndex.addSymbol (FileIndex.symbolsOf filePath content)
                     (FileIndex.symbolIndex once))
  /\ (let once := FileIndex.indexFile FileIndex.empty "a.txt" "run(x) {" in
      let twice := FileIndex.indexFile once "a.txt" "run(x) {" in
      FileIndex.getSymbols once "a.txt"
      = [SymbolInfo.mk "run" SFunction "a.txt" 1 0 "run(x) {"]
      /\ FileIndex.getSymbols twice "a.txt"
         = [SymbolInfo.mk "run" SFunction "a.txt" 1 0 "run(x) {";
            SymbolInfo.mk "run" SFunction "a.txt" 1 0 "run(x) {"]
      /\ FileIndex.symbolIndex twice <> FileIndex.symbolIndex once).
Proof.
  split.
  - intros idx filePath content once twice. subst once twice.
    split; [apply indexFile_twice_lineIndex|].
    split; [apply indexFile_twice_tokenIndex|apply indexFile_symbolIndex].
  - vm_compute. repeat split; try reflexivity. discriminate.
Qed.

(* ================================================================== *)
(** * The order of the relevant files *)

(** C3, at the input on which the code fails it.  The store holds
    [auth.js] and [notes.txt], the latter with the line "a bug here"; the
    intent of the prompt "fix bug in auth.js" names [auth.js] and has the
    keywords fix, bug and auth.  [findRelevantFiles] returns [notes.txt]
    first, as a keyword match of score 3.12 (the search score 3.9 times
    0.8), and [auth.js], the file the prompt names, second with its score
    of 1.  That is on a page that binds [Storage] to a manager; on the
    page as the scripts leave it the call returns no list at all: the
    look-up of [auth.js] in the first stage throws. *)
Theorem keyword_match_outranks_mention {ext : Externals} (now : Z) :
  option_map
    (fun r => match fst r with
              | Returned files =>
                  map (fun f => (RelevantFile.path f, RelevantFile.reason f,
                                 Qred (RelevantFile.relevanceScore f)))
                      files
              | Thrown _ => []
              end)
    (ContextManager.findRelevantFiles now (Sample.withAuth (Manager []) now)
                                      Sample.fixBug 5)
  = Some [("notes.txt", "keyword_match", (78 # 25)%Q);
          ("auth.js", "directly_mentioned", 1%Q)]
  /\ option_map fst
       (ContextManager.findRelevantFiles now (Sample.withAuth Builtin now)
                                         Sample.fixBug 5)
     = Some (Thrown (Err "Storage.getFileContent is not a function")).
Proof.
  split; vm_compute; reflexivity.
Qed.

(* ================================================================== *)
(** * Further properties of the code

    The properties below cover code the statements above leave out: the
    path helpers, the similarity, the hash and the cipher of the
    utilities and the storage manager, the searches of the index and of
    the store, the log and the bounds of the change tracker, the registry
    of tools, and the tools that write, delete and search. *)

(* ================================================================== *)
(** * Sorting *)

Section SortFacts.
Context {A : Type} (after : A -> A -> bool).

Lemma insert_perm (x : A) (l : list A) :
  Permutation (Sort.insert after x l) (x :: l).
Proof.
  induction l as [|y l IH]; simpl; [reflexivity|].
  destruct (after x y); [|reflexivity].
  rewrite IH. apply perm_swap.
Qed.

Lemma sort_perm (l : list A) : Permutation (Sort.sort after l) l.
Proof.
  unfold Sort.sort. induction l as [|x l IH]; simpl; [reflexivity|].
  rewrite insert_perm. now constructor.
Qed.

Lemma sort_In (x : A) (l : list A) : In x (Sort.sort after l) <-> In x l.
Proof.
  split; apply Permutation_in; [apply sort_perm|symmetry; apply sort_perm].
Qed.

Hypothesis after_asym : forall x y, after x y = true -> after y x = false.
Hypothesis before_trans :
  forall x y z, after x y = false -> after y z = false -> after x z = false.

Lemma insert_sorted (x : A) (l : list A) :
  StronglySorted (fun a b => after a b = false) l ->
  StronglySorted (fun a b => after a b = false) (Sort.insert after x l).
Proof.
  induction 1 as [|y l Hs IH Hy]; simpl.
  - repeat constructor.
  - destruct (after x y) eqn:E.
    + constructor; [assumption|].
      eapply Permutation_Forall; [symmetry; apply insert_perm|].
      constructor; [now apply after_asym|assumption].
    + constructor; [now constructor|].
      constructor; [assumption|].
      eapply Forall_impl; [|exact Hy]. intros z Hz. eapply before_trans; eauto.
Qed.

Lemma sort_sorted (l : list A) :
  StronglySorted (fun a b => after a b = false) (Sort.sort after l).
Proof.
  unfold Sort.sort. induction l as [|x l IH]; simpl.
  - constructor.
  - now apply insert_sorted.
Qed.
End SortFacts.

Lemma In_firstn {A : Type} (x : A) (n : nat) : forall l,
    In x (firstn n l) -> In x l.
Proof.
  induction n as [|n IH]; intros [|y l]; simpl; try tauto.
  intros [H|H]; auto.
Qed.

Lemma sorted_firstn {A : Type} (R : A -> A -> Prop) (n : nat) (l : list A) :
  StronglySorted R l -> StronglySorted R (firstn n l).
Proof.
  intros H. revert n. induction H as [|x l Hs IH Hx]; intros [|n]; simpl;
    try constructor.
  - apply IH.
  - apply Forall_forall. intros y Hy. apply In_firstn in Hy.
    rewrite Forall_forall in Hx. now apply Hx.
Qed.

Lemma sorted_impl {A : Type} (R R' : A -> A -> Prop) (l : list A) :
  (forall a b, R a b -> R' a b) -> StronglySorted R l -> StronglySorted R' l.
Proof.
  intros HR. induction 1; constructor; auto.
  eapply Forall_impl; [|eassumption]. auto.
Qed.

Lemma Qltb_false (x y : Q) : Qltb x y = false <-> (y <= x)%Q.
Proof.
  unfold Qltb. rewrite negb_false_iff. apply Qle_bool_iff.
Qed.

Lemma Qltb_true (x y : Q) : Qltb x y = true <-> (x < y)%Q.
Proof.
  unfold Qltb. rewrite negb_true_iff. split; intros H.
  - apply Qnot_le_lt. intros Hle. apply Qle_bool_iff in Hle. congruence.
  - destruct (Qle_bool y x) eqn:E; [|reflexivity].
    apply Qle_bool_iff in E. exfalso. eapply Qlt_not_le; eauto.
Qed.

(** Sorting by a score, the highest first. *)
Lemma sort_by_score {A : Type} (f : A -> Q) (l : list A) :
  StronglySorted (fun a b => (f b <= f a)%Q)
                 (Sort.sort (fun a b => Qltb (f a) (f b)) l).
Proof.
  eapply sorted_impl; [|apply sort_sorted].
  - intros a b H. now apply Qltb_false.
  - intros x y H. apply Qltb_true in H. apply Qltb_false. now apply Qlt_le_weak.
  - intros x y z H1 H2. apply Qltb_false in H1, H2. apply Qltb_false.
    eapply Qle_trans; eauto.
Qed.

(* ================================================================== *)
(** * Texts *)

Lemma length_toLowerCase (s : string) :
  String.length (Str.toLowerCase s) = String.length s.
Proof. induction s as [|c s IH]; simpl; auto. Qed.

Lemma length_mapChars (f : ascii -> ascii) (s : string) :
  String.length (Str.mapChars f s) = String.length s.
Proof. induction s as [|c s IH]; simpl; auto. Qed.

Lemma all_impl (f g : ascii -> bool) (s : string) :
  (forall c, f c = true -> g c = true) ->
  Text.all f s = true -> Text.all g s = true.
Proof.
  intros H. induction s as [|c s IH]; simpl; auto.
  intros E. apply andb_true_iff in E as [E1 E2].
  rewrite (H c E1). now apply IH.
Qed.

(** The pieces of a text split at white space are free of white space,
    and made of characters of the text. *)
Lemma splitSpaces_pieces (P : ascii -> bool) (s : string) : forall inRun,
    Text.all (fun c => Str.isSpace c || P c) s = true ->
    Forall (fun piece => Text.all P piece = true /\ String.length piece <= String.length s)
           (Str.splitSpacesFrom inRun s).
Proof.
  induction s as [|c s IH]; intros inRun H; simpl in *.
  - repeat constructor.
  - apply andb_true_iff in H as [Hc Hs].
    destruct (Str.isSpace c) eqn:E.
    + assert (Forall (fun piece => Text.all P piece = true
                                   /\ String.length piece <= S (String.length s))
                     (Str.splitSpacesFrom true s)) as F.
      { eapply Forall_impl; [|apply (IH true Hs)]. simpl. intros a [? ?].
        split; auto. }
      destruct inRun; [exact F|]. constructor; [|exact F]. simpl. split; auto. lia.
    + simpl in Hc. specialize (IH false Hs).
      destruct (Str.splitSpacesFrom false s) as [|w ws].
      * constructor; [|constructor]. simpl. rewrite Hc. split; auto. lia.
      * inversion IH as [|? ? [Hw Hl] Hws]; subst. constructor.
        -- simpl. rewrite Hc, Hw. split; auto. lia.
        -- eapply Forall_impl; [|exact Hws]. simpl. intros a [? ?]. split; auto.
Qed.

(** What is left of a character once the text is put in lower case
    and its punctuation blanked. *)
Lemma blanked_char (c : ascii) :
  Str.isSpace (FileIndex.blankPunctuation (Str.lowerChar c))
  || Text.isLowerWordChar (FileIndex.blankPunctuation (Str.lowerChar c)) = true.
Proof. destruct c as [[] [] [] [] [] [] [] []]; reflexivity. Qed.

Lemma blanked_text (text : string) :
  Text.all (fun c => Str.isSpace c || Text.isLowerWordChar c)
           (Str.mapChars FileIndex.blankPunctuation (Str.toLowerCase text)) = true.
Proof.
  induction text as [|c s IH]; simpl; auto.
  now rewrite blanked_char, IH.
Qed.

(** The words of a text: lower-case runs of word characters, none
    longer than the text. *)
Lemma words_of_text (text word : string) :
  In word (Str.splitSpaces
             (Str.mapChars FileIndex.blankPunctuation (Str.toLowerCase text))) ->
  Text.all Text.isLowerWordChar word = true
  /\ String.length word <= String.length text.
Proof.
  intros H.
  pose proof (splitSpaces_pieces Text.isLowerWordChar _ false (blanked_text text)) as F.
  rewrite Forall_forall in F. destruct (F word H) as [H1 H2].
  now rewrite length_mapChars, length_toLowerCase in H2.
Qed.

(* ================================================================== *)
(** * Sets in insertion order *)

Lemma JsSet_has_false (s : JsSet) (x : string) :
  JsSet.has s x = false -> ~ In x s.
Proof.
  unfold JsSet.has. induction s as [|y s IH]; simpl; [tauto|].
  intros H. apply orb_false_iff in H as [H1 H2].
  intros [E|E]; [subst; now rewrite String.eqb_refl in H1|now apply IH].
Qed.

Lemma JsSet_has_true (s : JsSet) (x : string) :
  JsSet.has s x = true -> In x s.
Proof.
  unfold JsSet.has. intros H. apply existsb_exists in H as (y & Hy & E).
  apply String.eqb_eq in E. now subst.
Qed.

Lemma JsSet_add_NoDup (s : JsSet) (x : string) : NoDup s -> NoDup (JsSet.add s x).
Proof.
  intros H. unfold JsSet.add. destruct (JsSet.has s x) eqn:E; [assumption|].
  apply NoDup_app; [assumption|repeat constructor; simpl; tauto|].
  intros y Hy [Hx|[]]. subst. now apply (JsSet_has_false _ _ E).
Qed.

Lemma JsSet_add_In (s : JsSet) (x y : string) :
  In y (JsSet.add s x) <-> In y s \/ y = x.
Proof.
  unfold JsSet.add. destruct (JsSet.has s x) eqn:E.
  - split; [tauto|]. intros [H|H]; [assumption|]. subst. now apply JsSet_has_true.
  - rewrite in_app_iff. simpl. intuition.
Qed.

Lemma JsSet_fold_NoDup (l : list string) : forall s,
    NoDup s -> NoDup (fold_left JsSet.add l s).
Proof.
  induction l as [|x l IH]; simpl; intros s H; [assumption|].
  apply IH. now apply JsSet_add_NoDup.
Qed.

Lemma JsSet_fold_In (l : list string) (y : string) : forall s,
    In y (fold_left JsSet.add l s) <-> In y s \/ In y l.
Proof.
  induction l as [|x l IH]; simpl; intros s; [tauto|].
  rewrite IH, JsSet_add_In. intuition.
Qed.

(* ================================================================== *)
(** * Tokens and keywords *)

(** X1.  The tokens the index keeps for a text are words of three characters
    or more, made of lower-case letters, digits and underscores only,
    none of them a stop word, and none longer than the text. *)
Theorem tokens_are_clean (text token : string) :
  In token (FileIndex.tokenize text) ->
  2 < String.length token <= String.length text
  /\ FileIndex.isStopWord token = false
  /\ Text.all Text.isLowerWordChar token = true.
Proof.
  unfold FileIndex.tokenize. intros H. apply filter_In in H as [Hin Hf].
  apply andb_true_iff in Hf as [Hlen Hstop].
  apply Nat.ltb_lt in Hlen. apply negb_true_iff in Hstop.
  destruct (words_of_text _ _ Hin) as [Hall Hle]. auto.
Qed.

Lemma tokens_are_clean_witness :
  In "run" (FileIndex.tokenize "Run(x) the END")
  /\ (2 < String.length "run" <= String.length "Run(x) the END"
      /\ FileIndex.isStopWord "run" = false
      /\ Text.all Text.isLowerWordChar "run" = true).
Proof.
  assert (In "run" (FileIndex.tokenize "Run(x) the END")) as H
      by (vm_compute; auto).
  split; [exact H|]. exact (tokens_are_clean _ _ H).
Defined.


(** X2.  The keywords of a prompt are pairwise distinct; each is a word of
    three characters or more, made of lower-case letters, digits and
    underscores, and none is one of the stop words of the prompt
    analysis. *)
Theorem keywords_are_distinct (prompt : string) :
  NoDup (ContextManager.extractKeywords prompt)
  /\ forall word,
      In word (ContextManager.extractKeywords prompt) ->
      2 < String.length word
      /\ existsb (String.eqb word) ContextManager.keywordStopWords = false
      /\ Text.all Text.isLowerWordChar word = true.
Proof.
  unfold ContextManager.extractKeywords. split.
  - apply JsSet_fold_NoDup. constructor.
  - intros word H. apply JsSet_fold_In in H as [[]|H].
    apply filter_In in H as [Hin Hf]. unfold ContextManager.isKeyword in Hf.
    apply andb_true_iff in Hf as [Hlen Hstop].
    apply Nat.ltb_lt in Hlen. apply negb_true_iff in Hstop.
    destruct (words_of_text _ _ Hin) as [Hall _]. auto.
Qed.

(* ================================================================== *)
(** * Paths *)

Lemma all_mapChars_toSlash (s : string) :
  Text.all (fun c => negb (Ascii.eqb Utils.backslash c))
           (Str.mapChars Utils.toSlash s) = true.
Proof.
  induction s as [|c s IH]; cbn [Text.all Str.mapChars]; auto.
  rewrite IH, andb_true_r.
  unfold Utils.toSlash. destruct (Ascii.eqb c Utils.backslash) eqn:E.
  - reflexivity.
  - rewrite Ascii.eqb_sym. now rewrite E.
Qed.

Lemma all_collapseSlashes (f : ascii -> bool) (s : string) : forall prev,
    Text.all f s = true -> Text.all f (Utils.collapseSlashes prev s) = true.
Proof.
  induction s as [|c s IH]; cbn [Text.all Utils.collapseSlashes];
    intros prev H; auto.
  apply andb_true_iff in H as [Hc Hs].
  destruct (Ascii.eqb c Utils.slash) eqn:E.
  - destruct prev; [now apply IH|]. cbn [Text.all].
    apply Ascii.eqb_eq in E. subst c. rewrite Hc. now apply IH.
  - cbn [Text.all]. rewrite Hc. now apply IH.
Qed.

Lemma includes_empty (p : string) :
  Str.includes "" p = Str.startsWith "" p.
Proof.
  unfold Str.includes, Str.indexOf. cbn [Str.indexOfFrom].
  now destruct (Str.startsWith "" p).
Qed.

Lemma startsWith_nil (s : string) : Str.startsWith s "" = true.
Proof. now destruct s. Qed.

(** A text none of whose characters is [a] does not include [a]. *)
Lemma includes_char (a : ascii) (s : string) :
  Str.includes s (String a "")
  = negb (Text.all (fun c => negb (Ascii.eqb a c)) s).
Proof.
  induction s as [|c s IH].
  - reflexivity.
  - rewrite includes_cons, IH. cbn [Str.startsWith Text.all].
    rewrite startsWith_nil. now destruct (Ascii.eqb a c).
Qed.

Lemma collapse_no_double (s : string) : forall prev,
    Str.includes (Utils.collapseSlashes prev s) "//" = false
    /\ (prev = true -> Str.startsWith (Utils.collapseSlashes prev s) "/" = false).
Proof.
  induction s as [|c s IH]; intros prev; cbn [Utils.collapseSlashes].
  - split; reflexivity.
  - destruct (Ascii.eqb c Utils.slash) eqn:E.
    + destruct prev.
      * apply IH.
      * split; [|discriminate]. rewrite includes_cons.
        destruct (IH true) as [H1 H2]. rewrite H1, orb_false_r.
        cbn [Str.startsWith]. rewrite (H2 eq_refl). reflexivity.
    + destruct (IH false) as [H1 _]. split.
      * rewrite includes_cons, H1, orb_false_r. cbn [Str.startsWith].
        rewrite Ascii.eqb_sym. unfold Utils.slash in E. now rewrite E.
      * intros _. cbn [Str.startsWith]. rewrite Ascii.eqb_sym.
        unfold Utils.slash in E. now rewrite E.
Qed.

(** X3.  A normalised path holds no backslash and no run of slashes, and
    normalising it again gives the same path. *)
Theorem normalizePath_normal_form (path : string) :
  Str.includes (Utils.normalizePath path) "\" = false
  /\ Str.includes (Utils.normalizePath path) "//" = false
  /\ Utils.normalizePath (Utils.normalizePath path) = Utils.normalizePath path.
Proof.
  repeat split.
  - rewrite includes_char. apply negb_false_iff.
    unfold Utils.normalizePath. apply all_collapseSlashes.
    apply all_mapChars_toSlash.
  - apply collapse_no_double.
  - apply normalizePath_idem.
Qed.

Lemma split_nonempty (sep : ascii) (s : string) :
  exists w ws, Str.split sep s = w :: ws.
Proof.
  destruct s as [|c s]; simpl; [eauto|].
  destruct (Ascii.eqb c sep); [eauto|].
  destruct (Str.split sep s); eauto.
Qed.

Lemma split_app (sep : ascii) (a b : string) :
  Str.split sep (a ++ String sep b) = (Str.split sep a ++ Str.split sep b)%list.
Proof.
  induction a as [|c a IH]; simpl.
  - now rewrite Ascii.eqb_refl.
  - destruct (Ascii.eqb c sep); [now rewrite IH|].
    rewrite IH. destruct (split_nonempty sep a) as (w & ws & E). now rewrite E.
Qed.

Lemma split_whole (sep : ascii) (s : string) :
  Str.includes s (String sep "") = false -> Str.split sep s = [s].
Proof.
  rewrite includes_char. intros H. apply negb_false_iff in H.
  induction s as [|c s IH]; simpl in *; [reflexivity|].
  apply andb_true_iff in H as [Hc Hs]. apply negb_true_iff in Hc.
  rewrite Ascii.eqb_sym, Hc. now rewrite (IH Hs).
Qed.

Lemma join_cons_char (sep : string) (c : ascii) (w : string) (ws : list string) :
  Str.join sep (String c w :: ws) = String c (Str.join sep (w :: ws)).
Proof. destruct ws; reflexivity. Qed.

Lemma join_split (s : string) : Str.join "/" (Str.split Utils.slash s) = s.
Proof.
  induction s as [|c s IH]; [reflexivity|]. cbn [Str.split].
  destruct (split_nonempty Utils.slash s) as (w & ws & E). rewrite E in *.
  destruct (Ascii.eqb c Utils.slash) eqn:Ec.
  - apply Ascii.eqb_eq in Ec. subst c.
    change (Str.join "/" ("" :: w :: ws)) with ("" ++ "/" ++ Str.join "/" (w :: ws)).
    rewrite IH. reflexivity.
  - rewrite join_cons_char. now rewrite IH.
Qed.

(** X4.  A path [dir/name], where [name] holds no slash: the directory path
    is [dir] and the file name is [name], unless [name] is empty, in
    which case the file name is the whole path.  A path without a slash
    is its own file name and has the empty directory path. *)
Theorem path_splits_at_last_slash (dir name : string) :
  Str.includes name "/" = false ->
  Utils.getDirectoryPath (dir ++ "/" ++ name) = dir
  /\ Utils.getFileName (dir ++ "/" ++ name)
     = (if String.eqb name "" then dir ++ "/" ++ name else name)
  /\ Utils.getDirectoryPath name = ""
  /\ Utils.getFileName name = name.
Proof.
  intros H. pose proof (split_whole Utils.slash name H) as Hn.
  assert (Str.split Utils.slash (dir ++ "/" ++ name)
          = (Str.split Utils.slash dir ++ [name])%list) as Hs.
  { change (dir ++ "/" ++ name) with (dir ++ String Utils.slash name).
    now rewrite split_app, Hn. }
  unfold Utils.getDirectoryPath, Utils.getFileName, Utils.lastOr.
  rewrite Hs, Hn, removelast_last, last_last, join_split.
  repeat split; destruct name; reflexivity.
Qed.

Lemma path_splits_at_last_slash_witness :
  Utils.getDirectoryPath ("src/core" ++ "/" ++ "utils.js") = "src/core"
  /\ Utils.getFileName ("src/core" ++ "/" ++ "utils.js")
     = (if String.eqb "utils.js" "" then "src/core" ++ "/" ++ "utils.js"
        else "utils.js")
  /\ Utils.getDirectoryPath "utils.js" = ""
  /\ Utils.getFileName "utils.js" = "utils.js".
Proof. apply (path_splits_at_last_slash "src/core" "utils.js"). reflexivity. Defined.


(* ================================================================== *)
(** * The extension of a path *)

(** X5.  The extension of a path is what follows its last dot, in lower
    case; a path without a dot is, in lower case, its own extension. *)
Theorem extension_is_after_last_dot (base extension : string) :
  Str.includes extension "." = false ->
  Utils.getFileExtension (base ++ "." ++ extension) = Str.toLowerCase extension
  /\ Utils.getFileExtension extension = Str.toLowerCase extension.
Proof.
  intros H. pose proof (split_whole Utils.dot extension H) as Hn.
  unfold Utils.getFileExtension, Utils.lastOr.
  change (base ++ "." ++ extension) with (base ++ String Utils.dot extension).
  rewrite split_app, Hn, last_last. split; reflexivity.
Qed.

Lemma extension_is_after_last_dot_witness :
  Utils.getFileExtension ("src/app.test" ++ "." ++ "JS") = Str.toLowerCase "JS"
  /\ Utils.getFileExtension "JS" = Str.toLowerCase "JS".
Proof. apply (extension_is_after_last_dot "src/app.test" "JS"). reflexivity. Defined.


(* ================================================================== *)
(** * The similarity of two texts *)

Section SimilarityFacts.
Import Utils.

Lemma nextRow_length (c2 : ascii) (str1 : string) : forall above left,
    List.length above = S (String.length str1) ->
    List.length (nextRow c2 str1 above left) = String.length str1.
Proof.
  induction str1 as [|c1 str1 IH]; intros above left H; [reflexivity|].
  destruct above as [|diag [|up rest]]; try discriminate.
  cbn [nextRow List.length String.length]. f_equal. apply IH.
  simpl in H. simpl. lia.
Qed.

Lemma lastRow_length (str2 str1 : string) : forall above i,
    List.length above = S (String.length str1) ->
    List.length (lastRow str2 str1 above i) = S (String.length str1).
Proof.
  induction str2 as [|c2 str2 IH]; intros above i H; cbn [lastRow]; [assumption|].
  apply IH. cbn [List.length]. now rewrite nextRow_length.
Qed.

(** No cell of row [r] exceeds the larger of [r] and its column. *)
Lemma nextRow_upper (c2 : ascii) (r : nat) (str1 : string) :
  forall above left k,
    (forall j, nth j above 0 <= Nat.max r (k + j)) ->
    forall j, nth j (nextRow c2 str1 above left) 0 <= Nat.max (S r) (k + j + 1).
Proof.
  induction str1 as [|c1 str1 IH]; intros above left k H j.
  - destruct j; simpl; lia.
  - destruct above as [|diag [|up rest]]; try (destruct j; simpl; lia).
    cbn [nextRow]. destruct j as [|j]; cbn [nth].
    + pose proof (H 0) as H0. cbn [nth] in H0.
      destruct (Ascii.eqb c2 c1); lia.
    + specialize (IH (up :: rest)
                     (if Ascii.eqb c2 c1 then diag
                      else Nat.min (diag + 1) (Nat.min (left + 1) (up + 1)))
                     (S k)).
      replace (k + S j + 1) with (S k + j + 1) by lia. apply IH.
      intros j'. specialize (H (S j')). cbn [nth] in H.
      replace (S k + j') with (k + S j') by lia. exact H.
Qed.

Lemma lastRow_upper (str1 : string) (str2 : string) : forall above r,
    (forall j, nth j above 0 <= Nat.max r j) ->
    forall j, nth j (lastRow str2 str1 above (S r)) 0
              <= Nat.max (r + String.length str2) j.
Proof.
  induction str2 as [|c2 str2 IH]; intros above r H j; cbn [lastRow String.length].
  - rewrite Nat.add_0_r. apply H.
  - replace (r + S (String.length str2)) with (S r + String.length str2) by lia.
    apply IH. intros [|j']; cbn [nth]; [lia|].
    pose proof (nextRow_upper c2 r str1 above (S r) 0 H j') as L. simpl in L.
    replace (j' + 1) with (S j') in L by lia. exact L.
Qed.

Lemma last_as_nth (l : list nat) : List.last l 0 = nth (List.length l - 1) l 0.
Proof.
  induction l as [|x l IH]; [reflexivity|].
  destruct l as [|y l]; [reflexivity|].
  change (List.last (x :: y :: l) 0) with (List.last (y :: l) 0). rewrite IH.
  simpl. now rewrite Nat.sub_0_r.
Qed.

Lemma seq_upper (n j : nat) : nth j (List.seq 0 n) 0 <= Nat.max 0 j.
Proof.
  destruct (Nat.lt_ge_cases j n) as [H|H].
  - rewrite seq_nth by assumption. lia.
  - rewrite nth_overflow by (rewrite length_seq; lia). lia.
Qed.

(** The distance never exceeds the length of the longer text. *)
Lemma editDistance_upper (str1 str2 : string) :
  editDistance str1 str2 <= Nat.max (String.length str1) (String.length str2).
Proof.
  unfold editDistance. rewrite last_as_nth.
  rewrite lastRow_length by (rewrite length_seq; reflexivity).
  pose proof (lastRow_upper str1 str2 (List.seq 0 (S (String.length str1))) 0
                            (seq_upper _) (S (String.length str1) - 1)) as L.
  simpl in L. rewrite Nat.sub_0_r in L. simpl. rewrite Nat.sub_0_r. lia.
Qed.

(** Where the character of the row is the character of the column, the
    cell is the cell up and to the left. *)
Lemma nextRow_diag (c2 : ascii) (str1 : string) : forall above left j,
    List.length above = S (String.length str1) ->
    String.get j str1 = Some c2 ->
    nth j (nextRow c2 str1 above left) 0 = nth j above 0.
Proof.
  induction str1 as [|c1 str1 IH]; intros above left j Hl Hg.
  - destruct j; discriminate.
  - destruct above as [|diag [|up rest]]; try discriminate.
    cbn [nextRow]. destruct j as [|j]; cbn [nth String.get] in *.
    + injection Hg as ->. now rewrite Ascii.eqb_refl.
    + apply IH; [simpl in *; lia|assumption].
Qed.

Lemma get_middle (pre : string) (c : ascii) (rest : string) :
  String.get (String.length pre) (pre ++ String c rest) = Some c.
Proof. induction pre as [|a pre IH]; simpl; auto. Qed.

Lemma append_char_assoc (pre : string) (c : ascii) (rest : string) :
  (pre ++ String c "") ++ rest = pre ++ String c rest.
Proof. induction pre as [|a pre IH]; simpl; [reflexivity|now rewrite IH]. Qed.

Lemma append_empty (s : string) : s ++ "" = s.
Proof. induction s as [|a s IH]; simpl; [reflexivity|now rewrite IH]. Qed.

Lemma lastRow_diag (s : string) (str2 : string) : forall pre above,
    s = pre ++ str2 ->
    List.length above = S (String.length s) ->
    nth (String.length pre) above 0 = 0 ->
    nth (String.length s) (lastRow str2 s above (S (String.length pre))) 0 = 0.
Proof.
  induction str2 as [|c2 str2 IH]; intros pre above Hs Hl H0; cbn [lastRow].
  - rewrite append_empty in Hs. now subst pre.
  - specialize (IH (pre ++ String c2 "")
                   (S (String.length pre)
                    :: nextRow c2 s above (S (String.length pre)))).
    rewrite length_append in IH. cbn [String.length] in IH.
    replace (String.length pre + 1) with (S (String.length pre)) in IH by lia.
    apply IH.
    + now rewrite append_char_assoc.
    + cbn [List.length]. now rewrite nextRow_length.
    + cbn [nth]. rewrite nextRow_diag; auto.
      rewrite Hs. apply get_middle.
Qed.

(** A text is at distance zero from itself. *)
Lemma editDistance_same (s : string) : editDistance s s = 0.
Proof.
  unfold editDistance. rewrite last_as_nth.
  rewrite lastRow_length by (rewrite length_seq; reflexivity).
  replace (S (String.length s) - 1) with (String.length s) by lia.
  apply lastRow_diag with (pre := "");
    [reflexivity|now rewrite length_seq|reflexivity].
Qed.

Lemma Zpos_of_nat_S (n : nat) : Zpos (Pos.of_nat (S n)) = Z.of_nat (S n).
Proof. rewrite <- Pos.of_nat_succ, Zpos_P_of_succ_nat. lia. Qed.

End SimilarityFacts.

(** X6.  The similarity of two texts lies between 0 and 1, and a text is as
    similar to itself as can be: the similarity is 1. *)
Theorem similarity_is_a_ratio (str1 str2 : string) :
  (0 <= Utils.calculateSimilarity str1 str2 <= 1)%Q
  /\ (Utils.calculateSimilarity str1 str1 == 1)%Q.
Proof.
  unfold Utils.calculateSimilarity. split.
  - pose proof (editDistance_upper str1 str2) as U.
    destruct (Nat.max (String.length str1) (String.length str2)) as [|m] eqn:E.
    + split; discriminate.
    + unfold Qle. cbn [Qnum Qden]. rewrite Zpos_of_nat_S. split; lia.
  - rewrite editDistance_same, Nat.max_id.
    destruct (String.length str1) as [|m]; [reflexivity|].
    unfold Qeq. cbn [Qnum Qden]. rewrite Zpos_of_nat_S. lia.
Qed.

(* ================================================================== *)
(** * Chunks of an array *)

Lemma chunksFrom_spec {A : Type} (array : list A) (chunkSize : nat) :
  0 < chunkSize ->
  forall fuel i,
    List.length array - i <= fuel ->
    concat (Utils.chunksFrom fuel array chunkSize i) = skipn i array
    /\ Forall (fun chunk => 0 < List.length chunk <= chunkSize)
              (Utils.chunksFrom fuel array chunkSize i)
    /\ Forall (fun chunk => List.length chunk = chunkSize)
              (removelast (Utils.chunksFrom fuel array chunkSize i)).
Proof.
  intros Hpos. induction fuel as [|fuel IH]; intros i Hfuel; cbn [Utils.chunksFrom].
  - repeat split; try constructor. simpl.
    symmetry. apply skipn_all2. lia.
  - destruct (i <? List.length array) eqn:E.
    + apply Nat.ltb_lt in E.
      destruct (IH (i + chunkSize)) as (H1 & H2 & H3); [lia|].
      unfold Arr.slice. replace (i + chunkSize - i) with chunkSize by lia.
      repeat split.
      * cbn [concat]. rewrite H1.
        replace (i + chunkSize) with (chunkSize + i) by lia.
        rewrite <- skipn_skipn. apply firstn_skipn.
      * constructor; [|assumption].
        rewrite length_firstn, length_skipn. lia.
      * destruct (Utils.chunksFrom fuel array chunkSize (i + chunkSize))
          as [|chunk rest] eqn:Er; [constructor|].
        change (removelast (firstn chunkSize (skipn i array) :: chunk :: rest))
          with (firstn chunkSize (skipn i array) :: removelast (chunk :: rest)).
        constructor; [|assumption].
        rewrite length_firstn, length_skipn.
        destruct fuel as [|fuel']; [discriminate|]. cbn [Utils.chunksFrom] in Er.
        destruct (i + chunkSize <? List.length array) eqn:E2; [|discriminate].
        apply Nat.ltb_lt in E2. lia.
    + apply Nat.ltb_ge in E. repeat split; try constructor. simpl.
      symmetry. now apply skipn_all2.
Qed.

(** X7.  With a chunk size of one or more, [chunkArray] returns: the chunks,
    put end to end, are the array; no chunk is empty or longer than the
    chunk size; every chunk but the last has exactly the chunk size. *)
Theorem chunkArray_partitions {A : Type} (array : list A) (chunkSize : nat) :
  0 < chunkSize ->
  exists chunks,
    Utils.chunkArray array chunkSize = Some chunks
    /\ concat chunks = array
    /\ Forall (fun chunk => 0 < List.length chunk <= chunkSize) chunks
    /\ Forall (fun chunk => List.length chunk = chunkSize) (removelast chunks).
Proof.
  intros Hpos. exists (Utils.chunksFrom (List.length array) array chunkSize 0).
  split.
  - unfold Utils.chunkArray. destruct chunkSize; [lia|reflexivity].
  - destruct (@chunksFrom_spec _ array chunkSize Hpos (List.length array) 0)
      as (H1 & H2 & H3);
      [lia|]. auto.
Qed.

Lemma chunkArray_partitions_witness :
  exists chunks,
    Utils.chunkArray [1; 2; 3; 4; 5] 2 = Some chunks
    /\ concat chunks = [1; 2; 3; 4; 5]
    /\ Forall (fun chunk => 0 < List.length chunk <= 2) chunks
    /\ Forall (fun chunk => List.length chunk = 2) (removelast chunks).
Proof. apply (chunkArray_partitions [1; 2; 3; 4; 5]). lia. Defined.


(* ================================================================== *)
(** * The content cache *)

Section CacheFacts.
Import StorageManager.

Lemma getFileContent_stored (now later : Z) (st : SessionStorage)
      (filePath content : string) :
  getFileContent later (storeFileContent now st filePath content) filePath
  = if (later - now >? 3600000)%Z
    then (None, JsMap.delete (storeFileContent now st filePath content)
                             (Utils.simpleHash filePath))
    else (Some content, storeFileContent now st filePath content).
Proof.
  unfold getFileContent, storeFileContent. rewrite get_set_same.
  reflexivity.
Qed.

(** X8.  A text stored for a path is read back until it expires; the read
    that finds it expired removes it, so that no later read, whatever
    the clock says then, finds it again. *)
Theorem cache_round_trip (now later again : Z) (st : SessionStorage)
        (filePath content : string) :
  let stored := storeFileContent now st filePath content in
  let read := getFileContent later stored filePath in
  fst read = (if (later - now >? 3600000)%Z then None else Some content)
  /\ snd read = (if (later - now >? 3600000)%Z
                 then JsMap.delete stored (Utils.simpleHash filePath)
                 else stored)
  /\ fst (getFileContent again (snd read) filePath)
     = (if ((later - now >? 3600000) || (again - now >? 3600000))%Z
        then None else Some content).
Proof.
  cbv zeta. rewrite getFileContent_stored.
  destruct (later - now >? 3600000)%Z; cbn [fst snd orb].
  - repeat split. unfold getFileContent. now rewrite get_delete_same.
  - repeat split. rewrite getFileContent_stored.
    now destruct (again - now >? 3600000)%Z.
Qed.

Lemma get_fold_delete (keys : list Z) (key : Z) : forall st : SessionStorage,
    JsMap.get (fold_left (fun storage k => JsMap.delete storage k) keys st) key
    = if existsb (Z.eqb key) keys then None else JsMap.get st key.
Proof.
  induction keys as [|k keys IH]; intros st; cbn [fold_left existsb]; [reflexivity|].
  rewrite IH. destruct (Z.eqb key k) eqn:E; cbn [orb].
  - apply Z.eqb_eq in E. subst k. rewrite get_delete_same.
    now destruct (existsb (Z.eqb key) keys).
  - apply Z.eqb_neq in E. rewrite get_delete_other by assumption. reflexivity.
Qed.

Lemma get_some_key (st : SessionStorage) (key : Z) (data : CacheItem.t) :
  JsMap.get st key = Some data -> In key (JsMap.keys st).
Proof.
  unfold JsMap.keys. induction st as [|[k d] st IH]; cbn [JsMap.get map fst];
    [discriminate|].
  destruct (keq k key) eqn:E.
  - apply keq_spec in E. intros _. now left.
  - intros H. right. now apply IH.
Qed.

Lemma existsb_Zeqb (key : Z) (keys : list Z) :
  existsb (Z.eqb key) keys = true <-> In key keys.
Proof.
  rewrite existsb_exists. split.
  - intros (k & Hk & E). apply Z.eqb_eq in E. now subst.
  - intros H. exists key. split; [assumption|apply Z.eqb_refl].
Qed.

(** What the cache holds after the expired items were cleared. *)
Lemma get_clearExpiredCache (now : Z) (st : SessionStorage) (key : Z) :
  JsMap.get (clearExpiredCache now st) key
  = match JsMap.get st key with
    | Some data => if isExpired now data then None else Some data
    | None => None
    end.
Proof.
  unfold clearExpiredCache. rewrite get_fold_delete.
  destruct (existsb (Z.eqb key) _) eqn:E.
  - apply existsb_Zeqb in E. apply filter_In in E as [_ E].
    destruct (JsMap.get st key) as [data|]; [|discriminate]. now rewrite E.
  - destruct (JsMap.get st key) as [data|] eqn:G; [|reflexivity].
    destruct (isExpired now data) eqn:X; [|reflexivity].
    assert (existsb (Z.eqb key)
              (filter (fun k => match JsMap.get st k with
                                | Some d => isExpired now d
                                | None => false
                                end) (JsMap.keys st)) = true) as C.
    { apply existsb_Zeqb. apply filter_In. split.
      - eapply get_some_key; eauto.
      - now rewrite G. }
    congruence.
Qed.

(** X9.  Clearing the expired items keeps every item that has not expired,
    keeps no item that has, and changes the answer of no read made at
    the same time. *)
Theorem clearExpiredCache_keeps_fresh (now : Z) (st : SessionStorage)
        (filePath : string) :
  fst (getFileContent now (clearExpiredCache now st) filePath)
  = fst (getFileContent now st filePath)
  /\ forall key,
      JsMap.get (clearExpiredCache now st) key
      = match JsMap.get st key with
        | Some data => if isExpired now data then None else Some data
        | None => None
        end.
Proof.
  split; [|intros key; apply get_clearExpiredCache].
  unfold getFileContent. rewrite get_clearExpiredCache.
  destruct (JsMap.get st (Utils.simpleHash filePath)) as [data|]; [|reflexivity].
  unfold isExpired. destruct (now - CacheItem.timestamp data >? CacheItem.ttl data)%Z eqn:E.
  - reflexivity.
  - now rewrite E.
Qed.

End CacheFacts.

(* ================================================================== *)
(** * The hash *)

Section HashFacts.
Import Utils.
Local Open Scope Z_scope.

Lemma toInt32_range (z : Z) : -2147483648 <= toInt32 z < 2147483648.
Proof.
  unfold toInt32.
  pose proof (Z.mod_pos_bound (z + 2147483648) 4294967296 eq_refl). lia.
Qed.

Lemma toInt32_mod (z : Z) : toInt32 z mod 4294967296 = z mod 4294967296.
Proof.
  unfold toInt32. rewrite Zminus_mod_idemp_l. f_equal. lia.
Qed.

Lemma toInt32_congr (a b : Z) :
  a mod 4294967296 = b mod 4294967296 -> toInt32 a = toInt32 b.
Proof.
  intros H. unfold toInt32. f_equal.
  rewrite <- (Zplus_mod_idemp_l a), <- (Zplus_mod_idemp_l b). now rewrite H.
Qed.

(** One round of the hash: thirty-one times the hash so far, plus the
    character, wrapped to 32 bits. *)
Lemma hash_round (hash char : Z) :
  toInt32 (toInt32 (hash * 32) - hash + char) = toInt32 (31 * hash + char).
Proof.
  apply toInt32_congr.
  rewrite <- Zplus_mod_idemp_l, <- Zminus_mod_idemp_l, toInt32_mod.
  rewrite Zminus_mod_idemp_l, Zplus_mod_idemp_l. f_equal. lia.
Qed.

Lemma hash_round_congr (a b char : Z) :
  a mod 4294967296 = b mod 4294967296 ->
  toInt32 (31 * a + char) = toInt32 (31 * b + char).
Proof.
  intros H. apply toInt32_congr.
  rewrite <- (Zplus_mod_idemp_l (31 * a)), <- (Zplus_mod_idemp_l (31 * b)).
  rewrite <- (Zmult_mod_idemp_r a), <- (Zmult_mod_idemp_r b). now rewrite H.
Qed.

Lemma hashFrom_app (a b : string) : forall hash,
    hashFrom hash (a ++ b) = hashFrom (hashFrom hash a) b.
Proof. induction a as [|c a IH]; intros hash; simpl; auto. Qed.

Lemma hashFrom_range (str : string) : forall hash,
    -2147483648 <= hash < 2147483648 ->
    -2147483648 <= hashFrom hash str < 2147483648.
Proof.
  induction str as [|c str IH]; intros hash H; cbn [hashFrom]; [assumption|].
  apply IH. apply toInt32_range.
Qed.

Lemma hashFrom_Aa_BB (hash : Z) : hashFrom hash "Aa" = hashFrom hash "BB".
Proof.
  cbn [hashFrom]. rewrite !hash_round.
  change (Z.of_nat (Str.code "A")) with 65.
  change (Z.of_nat (Str.code "a")) with 97.
  change (Z.of_nat (Str.code "B")) with 66.
  apply toInt32_congr.
  rewrite <- (Zplus_mod_idemp_l (31 * toInt32 (31 * hash + 65))),
          <- (Zplus_mod_idemp_l (31 * toInt32 (31 * hash + 66))).
  rewrite <- (Zmult_mod_idemp_r (toInt32 (31 * hash + 65))),
          <- (Zmult_mod_idemp_r (toInt32 (31 * hash + 66))).
  rewrite !toInt32_mod.
  rewrite !Zmult_mod_idemp_r, !Zplus_mod_idemp_l. f_equal. lia.
Qed.

Lemma simpleHash_Aa_BB (pre post : string) :
  simpleHash (pre ++ "Aa" ++ post) = simpleHash (pre ++ "BB" ++ post).
Proof.
  unfold simpleHash. rewrite !hashFrom_app. now rewrite hashFrom_Aa_BB.
Qed.

End HashFacts.

(** X10.  The hash of a text is a 32-bit integer, and it is not one-to-one:
    two texts that differ only in that one has "Aa" where the other has
    "BB" have the same hash.  So the index does not see the change from
    the one to the other, and the content cache answers for the one path
    with the text stored for the other. *)
Theorem simpleHash_collisions {ext : Externals} (pre post : string) :
  (-2147483648 <= Utils.simpleHash pre < 2147483648)%Z
  /\ Utils.simpleHash (pre ++ "Aa" ++ post) = Utils.simpleHash (pre ++ "BB" ++ post)
  /\ (forall idx filePath,
         FileIndex.needsReindexing
           (FileIndex.indexFile idx filePath (pre ++ "Aa" ++ post))
           filePath (pre ++ "BB" ++ post) = false)
  /\ (forall now st content,
         fst (StorageManager.getFileContent
                now
                (StorageManager.storeFileContent now st (pre ++ "Aa" ++ post) content)
                (pre ++ "BB" ++ post))
         = Some content).
Proof.
  repeat split.
  - apply hashFrom_range. lia.
  - apply hashFrom_range. lia.
  - apply simpleHash_Aa_BB.
  - intros idx filePath. unfold FileIndex.needsReindexing, FileIndex.indexFile.
    destruct (FileIndex.indexLines filePath _ 0 (FileIndex.tokenIndex idx))
      as [lineInfos tokenIndex'].
    cbn [FileIndex.fileHashes FileIndex.extractSymbols].
    rewrite get_set_same, simpleHash_Aa_BB, Z.eqb_refl. reflexivity.
  - intros now st content.
    unfold StorageManager.getFileContent, StorageManager.storeFileContent.
    rewrite simpleHash_Aa_BB, get_set_same.
    cbn [CacheItem.timestamp CacheItem.ttl CacheItem.content].
    replace (now - now)%Z with 0%Z by lia. reflexivity.
Qed.

(* ================================================================== *)
(** * Encrypting and decrypting *)

Section Base64Facts.
Import Base64.

Lemma string_ind3 (P : string -> Prop) :
  P "" ->
  (forall a, P (String a "")) ->
  (forall a b, P (String a (String b ""))) ->
  (forall a b c rest, P rest -> P (String a (String b (String c rest)))) ->
  forall s, P s.
Proof.
  intros H0 H1 H2 H3.
  assert (forall n s, String.length s <= n -> P s) as H.
  { induction n as [|n IH]; intros s Hs.
    - destruct s; [exact H0|simpl in Hs; lia].
    - destruct s as [|a [|b [|c rest]]]; auto.
      apply H3. apply IH. simpl in Hs. lia. }
  intros s. apply (H (String.length s)). lia.
Qed.

Lemma valueOf_charOf (s : Sextet) : valueOf (charOf s) = Some s.
Proof. destruct s as [[[[[[] []] []] []] []] []]; vm_compute; reflexivity. Qed.

Lemma charOf_not_space (s : Sextet) : isAsciiWhitespace (charOf s) = false.
Proof. destruct s as [[[[[[] []] []] []] []] []]; vm_compute; reflexivity. Qed.

Lemma charOf_not_pad (s : Sextet) : Ascii.eqb (charOf s) pad = false.
Proof. destruct s as [[[[[[] []] []] []] []] []]; vm_compute; reflexivity. Qed.

Ltac bits :=
  repeat match goal with
         | c : ascii |- _ => destruct c
         end.

Ltac plain :=
  cbn [btoa body encode1 encode2 encode3 append removeWhitespace removePadding
       valuesOf bytesOf byte1 byte2 byte3 String.length];
  rewrite ?charOf_not_space, ?charOf_not_pad, ?valueOf_charOf;
  cbn [andb].

Lemma removeWhitespace_btoa (data : string) :
  removeWhitespace (btoa data) = btoa data.
Proof.
  induction data as [|a|a b|a b c rest IH] using string_ind3; bits; plain;
    try reflexivity.
  now rewrite IH.
Qed.

Lemma removePadding_btoa (data : string) : removePadding (btoa data) = body data.
Proof.
  induction data as [|a|a b|a b c rest IH] using string_ind3; bits; plain;
    try reflexivity.
  now rewrite IH.
Qed.

Lemma length_btoa (data : string) :
  String.length (btoa data) = 4 * ((String.length data + 2) / 3).
Proof.
  induction data as [|a|a b|a b c rest IH] using string_ind3; bits; plain;
    try reflexivity.
  rewrite IH.
  replace (S (S (S (String.length rest))) + 2)
    with (String.length rest + 2 + 1 * 3) by lia.
  rewrite Nat.div_add by lia. lia.
Qed.

Lemma length_body (data : string) :
  exists k r, String.length (body data) = r + k * 4 /\ (r = 0 \/ r = 2 \/ r = 3).
Proof.
  induction data as [|a|a b|a b c rest IH] using string_ind3; bits; plain.
  - exists 0, 0. auto.
  - exists 0, 2. auto.
  - exists 0, 3. auto.
  - destruct IH as (k & r & H & Hr). exists (S k), r. split; [lia|assumption].
Qed.

Lemma decode_body (data : string) :
  exists values, valuesOf (body data) = Some values /\ bytesOf values = data.
Proof.
  induction data as [|a|a b|a b c rest IH] using string_ind3; bits; plain.
  - exists []. auto.
  - eexists. split; reflexivity.
  - eexists. split; reflexivity.
  - destruct IH as (values & H1 & H2). rewrite H1. eexists. split; [reflexivity|].
    cbn [bytesOf byte1 byte2 byte3]. now rewrite H2.
Qed.

(** What [btoa] writes, [atob] reads back. *)
Lemma atob_btoa (data : string) : atob (btoa data) = Some data.
Proof.
  unfold atob. rewrite removeWhitespace_btoa, length_btoa.
  rewrite Nat.mul_comm, Nat.Div0.mod_mul. cbn [Nat.eqb].
  rewrite removePadding_btoa.
  destruct (length_body data) as (k & r & H & Hr). rewrite H, Nat.Div0.mod_add.
  destruct (decode_body data) as (values & H1 & H2). rewrite H1.
  destruct Hr as [-> | [-> | ->]]; cbn; now rewrite H2.
Qed.

End Base64Facts.

Section CipherFacts.
Import StorageManager.

Lemma xorb_twice (a b : bool) : xorb (xorb a b) b = a.
Proof. now destruct a, b. Qed.

Lemma xorChar_twice (c k : ascii) : xorChar (xorChar c k) k = c.
Proof. destruct c, k. cbn. now rewrite !xorb_twice. Qed.

Lemma xorWithKey_twice (text : string) : forall i,
    xorWithKey (xorWithKey text i) i = text.
Proof.
  induction text as [|c text IH]; intros i; cbn [xorWithKey]; [reflexivity|].
  now rewrite xorChar_twice, IH.
Qed.

Lemma length_xorWithKey (text : string) : forall i,
    String.length (xorWithKey text i) = String.length text.
Proof. induction text as [|c text IH]; intros i; simpl; auto. Qed.

End CipherFacts.

(** X11.  Decrypting what was encrypted gives the text back.  The encrypted
    form of a text of [n] characters has four characters for every three
    of the text, rounded up; and a text that [atob] refuses is returned
    by [decrypt] as it is. *)
Theorem decrypt_encrypt (text : string) :
  StorageManager.decrypt (StorageManager.encrypt text) = text
  /\ String.length (StorageManager.encrypt text) = 4 * ((String.length text + 2) / 3)
  /\ Base64.atob (StorageManager.encrypt text)
     = Some (StorageManager.xorWithKey text 0)
  /\ (Base64.atob text = None -> StorageManager.decrypt text = text).
Proof.
  unfold StorageManager.decrypt, StorageManager.encrypt. rewrite atob_btoa.
  repeat split.
  - apply xorWithKey_twice.
  - now rewrite length_btoa, length_xorWithKey.
  - intros H. now rewrite H.
Qed.

(* ================================================================== *)
(** * Searching the index *)

Section IndexSearchFacts.
Context {ext : Externals}.

Lemma filter_none {A : Type} (f : A -> bool) (l : list A) :
  (forall x, In x l -> f x = false) -> filter f l = [].
Proof.
  induction l as [|x l IH]; simpl; intros H; [reflexivity|].
  rewrite (H x) by now left. apply IH. intros y Hy. apply H. now right.
Qed.

Lemma tokenize_short (text : string) :
  String.length text <= 2 -> FileIndex.tokenize text = [].
Proof.
  intros H. unfold FileIndex.tokenize. apply filter_none. intros word Hw.
  destruct (words_of_text _ _ Hw) as [_ L].
  replace (2 <? String.length word) with false; [reflexivity|].
  symmetry. apply Nat.ltb_ge. lia.
Qed.

Lemma tokenize_stop_word (text : string) :
  FileIndex.isStopWord (Str.toLowerCase text) = true -> FileIndex.tokenize text = [].
Proof.
  unfold FileIndex.isStopWord. intros H.
  apply existsb_exists in H as (word & Hin & E). apply String.eqb_eq in E.
  unfold FileIndex.tokenize. rewrite E.
  unfold FileIndex.stopWords in Hin. simpl in Hin.
  repeat (destruct Hin as [<-|Hin]; [reflexivity|]). contradiction.
Qed.

Lemma searchContent_no_token (idx : FileIndex.t) (query : string)
      (options : SearchOptions.t) :
  FileIndex.tokenize query = [] -> FileIndex.searchContent idx query options = Some [].
Proof.
  intros H. unfold FileIndex.searchContent. rewrite H.
  unfold FileIndex.candidateFiles. cbn [fold_left FileIndex.scanCandidates].
  unfold Arr.slice0, Sort.sort. cbn [fold_right]. now rewrite firstn_nil.
Qed.

Lemma matchLines_sound (caseSensitive : bool) (query searchQuery : string)
      (lines : list LineInfo.t) (matched : MatchedLine.t) :
  In matched (FileIndex.matchLines caseSensitive query searchQuery lines) ->
  exists lineInfo,
    In lineInfo lines
    /\ LineInfo.lineNumber lineInfo = MatchedLine.lineNumber matched
    /\ LineInfo.content lineInfo = MatchedLine.content matched
    /\ Str.indexOf (Text.fold caseSensitive (MatchedLine.content matched)) searchQuery
       = Some (MatchedLine.matchStart matched)
    /\ MatchedLine.matchEnd matched
       = MatchedLine.matchStart matched + String.length query.
Proof.
  unfold FileIndex.matchLines. intros H. apply in_flat_map in H as (lineInfo & Hin & H).
  exists lineInfo. unfold Text.fold.
  destruct (Str.indexOf (if caseSensitive then LineInfo.content lineInfo
                         else Str.toLowerCase (LineInfo.content lineInfo))
                        searchQuery) as [matchIndex|] eqn:E; [|contradiction].
  destruct H as [<-|[]]. cbn. auto.
Qed.

Lemma scanCandidates_sound (idx : FileIndex.t) (caseSensitive : bool)
      (query searchQuery : string) (candidates : list string) :
  forall results,
    FileIndex.scanCandidates idx caseSensitive query searchQuery candidates
    = Some results ->
    forall result,
      In result results ->
      In (FileSearchResult.filePath result) candidates
      /\ FileSearchResult.content result = None
      /\ FileSearchResult.reason result = "content_match"
      /\ FileSearchResult.matchedLines result <> []
      /\ exists lines,
          JsMap.get (FileIndex.lineIndex idx) (FileSearchResult.filePath result)
          = Some lines
          /\ FileSearchResult.matchedLines result
             = FileIndex.matchLines caseSensitive query searchQuery lines.
Proof.
  induction candidates as [|filePath rest IH]; intros results H result Hin;
    cbn [FileIndex.scanCandidates] in H.
  - injection H as <-. contradiction.
  - destruct (JsMap.get (FileIndex.lineIndex idx) filePath) as [lines|] eqn:G.
    + destruct (FileIndex.matchLines caseSensitive query searchQuery lines)
        as [|m ms] eqn:M.
      * destruct (IH results H result Hin) as (H1 & H2). split; [now right|exact H2].
      * destruct (FileIndex.calculateRelevanceScore query (m :: ms)) as [score|];
          [|discriminate].
        destruct (FileIndex.scanCandidates idx caseSensitive query searchQuery rest)
          as [found|]; [|discriminate].
        injection H as <-. destruct Hin as [<-|Hin].
        -- cbn. repeat split; auto; [discriminate|]. exists lines. now rewrite M.
        -- destruct (IH found eq_refl result Hin) as (H1 & H2).
           split; [now right|exact H2].
    + cbn [FileIndex.matchLines flat_map] in H.
      destruct (IH results H result Hin) as (H1 & H2). split; [now right|exact H2].
Qed.

Lemma scanCandidates_paths (idx : FileIndex.t) (caseSensitive : bool)
      (query searchQuery : string) (candidates : list string) :
  forall results,
    NoDup candidates ->
    FileIndex.scanCandidates idx caseSensitive query searchQuery candidates
    = Some results ->
    NoDup (map FileSearchResult.filePath results).
Proof.
  induction candidates as [|filePath rest IH]; intros results Hnd H;
    cbn [FileIndex.scanCandidates] in H.
  - injection H as <-. constructor.
  - inversion Hnd as [|? ? Hnotin Hrest]; subst.
    destruct (FileIndex.matchLines caseSensitive query searchQuery
                match JsMap.get (FileIndex.lineIndex idx) filePath with
                | Some l => l
                | None => []
                end) as [|m ms] eqn:M.
    + now apply IH.
    + destruct (FileIndex.calculateRelevanceScore query (m :: ms)) as [score|];
        [|discriminate].
      destruct (FileIndex.scanCandidates idx caseSensitive query searchQuery rest)
        as [found|] eqn:F; [|discriminate].
      injection H as <-. cbn [map FileSearchResult.filePath]. constructor.
      * intros Hin. apply in_map_iff in Hin as (r & Hr & Hin).
        destruct (scanCandidates_sound idx caseSensitive query searchQuery rest F r Hin)
          as (H1 & _). congruence.
      * now apply IH.
Qed.

Lemma candidateFiles_NoDup (idx : FileIndex.t) (queryTokens : list string) :
  NoDup (FileIndex.candidateFiles idx queryTokens).
Proof.
  unfold FileIndex.candidateFiles.
  assert (forall acc, NoDup acc ->
            NoDup (fold_left
                     (fun candidates token =>
                        match JsMap.get (FileIndex.tokenIndex idx) token with
                        | Some files => fold_left JsSet.add files candidates
                        | None => candidates
                        end) queryTokens acc)) as H.
  { induction queryTokens as [|t ts IH]; intros acc Hacc; cbn [fold_left];
      [assumption|].
    apply IH. destruct (JsMap.get (FileIndex.tokenIndex idx) t); [|assumption].
    now apply JsSet_fold_NoDup. }
  apply H. constructor.
Qed.

End IndexSearchFacts.

Lemma NoDup_firstn {A : Type} (n : nat) : forall l : list A,
    NoDup l -> NoDup (firstn n l).
Proof.
  induction n as [|n IH]; intros [|x l] H; simpl; try constructor.
  - inversion H; subst. intros Hin. apply In_firstn in Hin. contradiction.
  - inversion H; subst. now apply IH.
Qed.

Lemma firstn_map {A B : Type} (f : A -> B) (n : nat) : forall l,
    map f (firstn n l) = firstn n (map f l).
Proof. induction n as [|n IH]; intros [|x l]; simpl; auto. now rewrite IH. Qed.

(** X12.  A query of one or two characters, or one that is a stop word of the
    index, finds nothing in the contents, whatever the index holds. *)
Theorem short_queries_find_nothing (idx : FileIndex.t) (query : string)
        (options : SearchOptions.t) :
  String.length query <= 2 \/ FileIndex.isStopWord (Str.toLowerCase query) = true ->
  FileIndex.searchContent idx query options = Some [].
Proof.
  intros [H|H]; apply searchContent_no_token.
  - now apply tokenize_short.
  - now apply tokenize_stop_word.
Qed.

Lemma short_queries_find_nothing_witness :
  FileIndex.searchContent Example.notesIndex "to" SearchOptions.default = Some [].
Proof. apply short_queries_find_nothing. left. simpl. lia. Defined.


(** X13.  Every result of a content search names a file of the line index,
    carries no content and at least one matched line; each matched line
    is a line of that file, and the query occurs in it (in its lower-case
    form when the search does not look at case), first at the position
    the match gives as its start. *)
Theorem content_matches_are_real (idx : FileIndex.t) (query : string)
        (options : SearchOptions.t) (results : list FileSearchResult.t) :
  FileIndex.searchContent idx query options = Some results ->
  forall result,
    In result results ->
    FileSearchResult.content result = None
    /\ FileSearchResult.reason result = "content_match"
    /\ FileSearchResult.matchedLines result <> []
    /\ exists lines,
        JsMap.get (FileIndex.lineIndex idx) (FileSearchResult.filePath result)
        = Some lines
        /\ forall matched,
            In matched (FileSearchResult.matchedLines result) ->
            Str.indexOf (Text.fold (SearchOptions.caseSensitive options)
                                   (MatchedLine.content matched))
                        (Text.fold (SearchOptions.caseSensitive options) query)
            = Some (MatchedLine.matchStart matched)
            /\ MatchedLine.matchEnd matched
               = MatchedLine.matchStart matched + String.length query
            /\ exists lineInfo,
                In lineInfo lines
                /\ LineInfo.lineNumber lineInfo = MatchedLine.lineNumber matched
                /\ LineInfo.content lineInfo = MatchedLine.content matched.
Proof.
  unfold FileIndex.searchContent. intros H result Hin.
  destruct (FileIndex.scanCandidates idx _ query _ _) as [found|] eqn:F;
    [|discriminate].
  injection H as <-. unfold Arr.slice0 in Hin.
  apply In_firstn in Hin. apply sort_In in Hin.
  destruct (scanCandidates_sound _ _ _ _ _ F _ Hin) as (_ & H1 & H2 & H3 & lines & G & M).
  repeat split; auto. exists lines. split; [assumption|].
  intros matched Hm. rewrite M in Hm.
  destruct (matchLines_sound _ _ _ _ _ Hm) as (lineInfo & L1 & L2 & L3 & L4 & L5).
  repeat split; eauto.
Qed.

Lemma content_matches_are_real_witness :
  FileIndex.searchContent Example.notesIndex "shop" SearchOptions.default
  = Some [Example.shopHit]
  /\ FileSearchResult.content Example.shopHit = None
  /\ FileSearchResult.reason Example.shopHit = "content_match"
  /\ FileSearchResult.matchedLines Example.shopHit <> [].
Proof.
  assert (FileIndex.searchContent Example.notesIndex "shop" SearchOptions.default
          = Some [Example.shopHit]) as H by (vm_compute; reflexivity).
  split; [exact H|].
  destruct (content_matches_are_real Example.notesIndex "shop" SearchOptions.default
                                     H Example.shopHit (or_introl eq_refl))
    as (H1 & H2 & H3 & _).
  auto.
Defined.

(** X14.  The results of a content search come with the highest score first,
    there is one result per file at most, and no more results than the
    options ask for (50 when they ask for none). *)
Theorem content_results_are_ranked (idx : FileIndex.t) (query : string)
        (options : SearchOptions.t) (results : list FileSearchResult.t) :
  FileIndex.searchContent idx query options = Some results ->
  StronglySorted (fun a b => (FileSearchResult.score b <= FileSearchResult.score a)%Q)
                 results
  /\ NoDup (map FileSearchResult.filePath results)
  /\ List.length results <= orDefault (SearchOptions.maxResults options) 50.
Proof.
  unfold FileIndex.searchContent. intros H.
  destruct (FileIndex.scanCandidates idx _ query _ _) as [found|] eqn:F;
    [|discriminate].
  injection H as <-. unfold Arr.slice0. repeat split.
  - apply sorted_firstn. apply (sort_by_score FileSearchResult.score).
  - rewrite firstn_map. apply NoDup_firstn.
    eapply Permutation_NoDup.
    + apply Permutation_map. symmetry. apply sort_perm.
    + eapply scanCandidates_paths; [|exact F]. apply candidateFiles_NoDup.
  - rewrite length_firstn. lia.
Qed.

(** A search for "shop" that asks for two results, in an index of four
    files, three of which hold the word: the two of the highest score
    come back, the higher one first. *)
Lemma content_results_are_ranked_witness :
  map (fun result => (FileSearchResult.filePath result,
                      Qred (FileSearchResult.score result)))
      Example.shopBest
  = [("docs/shop-list.md", (471 # 100)%Q); ("todo.txt", (49 # 25)%Q)]
  /\ StronglySorted
       (fun a b => (FileSearchResult.score b <= FileSearchResult.score a)%Q)
       Example.shopBest
  /\ NoDup (map FileSearchResult.filePath Example.shopBest)
  /\ List.length Example.shopBest <= 2.
Proof.
  split; [vm_compute; reflexivity|].
  apply (@content_results_are_ranked Example.shopIndex "shop" Example.twoBest
                                     Example.shopBest).
  vm_compute. reflexivity.
Defined.


(* ================================================================== *)
(** * What was indexed is found *)

Section FoundFacts.
Context {ext : Externals}.

Lemma word_char_facts (c : ascii) :
  Text.isLowerWordChar c = true ->
  Str.lowerChar c = c /\ FileIndex.blankPunctuation c = c
  /\ Str.isSpace c = false /\ Str.isMetaChar c = false /\ Str.isWordChar c = true.
Proof. destruct c as [[] [] [] [] [] [] [] []]; cbv; intros H; auto; discriminate. Qed.

Lemma word_lower (w : string) :
  Text.all Text.isLowerWordChar w = true -> Str.toLowerCase w = w.
Proof.
  induction w as [|c w IH]; simpl; intros H; [reflexivity|].
  apply andb_true_iff in H as [Hc Hw].
  destruct (word_char_facts c Hc) as (-> & _). now rewrite IH.
Qed.

Lemma word_blank (w : string) :
  Text.all Text.isLowerWordChar w = true ->
  Str.mapChars FileIndex.blankPunctuation w = w.
Proof.
  induction w as [|c w IH]; simpl; intros H; [reflexivity|].
  apply andb_true_iff in H as [Hc Hw].
  destruct (word_char_facts c Hc) as (_ & -> & _). now rewrite IH.
Qed.

Lemma word_literal (w : string) :
  Text.all Text.isLowerWordChar w = true -> Str.isLiteralPattern w = true.
Proof.
  induction w as [|c w IH]; simpl; intros H; [reflexivity|].
  apply andb_true_iff in H as [Hc Hw].
  destruct (word_char_facts c Hc) as (_ & _ & _ & -> & _). now rewrite IH.
Qed.

Lemma word_one_piece (w : string) :
  Text.all Text.isLowerWordChar w = true -> Str.splitSpacesFrom false w = [w].
Proof.
  induction w as [|c w IH]; simpl; intros H; [reflexivity|].
  apply andb_true_iff in H as [Hc Hw].
  destruct (word_char_facts c Hc) as (_ & _ & -> & _). now rewrite IH.
Qed.

(** A token is the one token of itself. *)
Lemma tokenize_token (text token : string) :
  In token (FileIndex.tokenize text) -> FileIndex.tokenize token = [token].
Proof.
  unfold FileIndex.tokenize at 1. intros H. apply filter_In in H as [Hin Hf].
  destruct (words_of_text _ _ Hin) as [Hall _].
  unfold FileIndex.tokenize. rewrite word_lower, word_blank by assumption.
  unfold Str.splitSpaces. rewrite word_one_piece by assumption.
  cbn [filter]. now rewrite Hf.
Qed.

(** The first piece of a text split at white space starts the text. *)
Lemma first_piece_prefix (s : string) : forall w ws,
    Str.splitSpacesFrom false s = w :: ws -> Str.startsWith s w = true.
Proof.
  induction s as [|c s IH]; intros w ws; cbn [Str.splitSpacesFrom].
  - intros H. injection H as <- <-. reflexivity.
  - destruct (Str.isSpace c).
    + intros H. injection H as <- _. reflexivity.
    + destruct (Str.splitSpacesFrom false s) as [|w0 ws0] eqn:E.
      * intros H. injection H as <- <-. cbn. rewrite Ascii.eqb_refl.
        apply startsWith_nil.
      * intros H. injection H as <- <-. cbn [Str.startsWith].
        rewrite Ascii.eqb_refl. cbn [andb]. eapply IH. reflexivity.
Qed.

(** A piece of a text split at white space occurs in the text. *)
Lemma piece_occurs (s : string) : forall inRun w,
    In w (Str.splitSpacesFrom inRun s) -> Str.includes s w = true.
Proof.
  induction s as [|c s IH]; intros inRun w; cbn [Str.splitSpacesFrom].
  - intros [<-|[]]. reflexivity.
  - destruct (Str.isSpace c) eqn:Hc.
    + intros H.
      assert (w = "" \/ In w (Str.splitSpacesFrom true s)) as [->|Hw]
          by (destruct inRun; [now right|destruct H; [left; now symmetry|now right]]).
      * apply includes_start. reflexivity.
      * rewrite includes_cons. rewrite (IH true w Hw). apply orb_true_r.
    + destruct (Str.splitSpacesFrom false s) as [|w0 ws0] eqn:E.
      * intros [<-|[]]. apply includes_start. cbn. rewrite Ascii.eqb_refl.
        apply startsWith_nil.
      * intros [<-|Hw].
        -- apply includes_start. cbn [Str.startsWith]. rewrite Ascii.eqb_refl.
           cbn [andb]. eapply first_piece_prefix. exact E.
        -- rewrite includes_cons. rewrite (IH false w); [apply orb_true_r|].
           rewrite E. now right.
Qed.

(** Where a word starts the blanked text, it starts the text. *)
Lemma startsWith_blanked (w : string) : forall t,
    Text.all Text.isLowerWordChar w = true ->
    Str.startsWith (Str.mapChars FileIndex.blankPunctuation t) w = true ->
    Str.startsWith t w = true.
Proof.
  induction w as [|a w IH]; intros t Hw H; [apply startsWith_nil|].
  destruct t as [|c t]; [discriminate|].
  cbn [Text.all] in Hw. apply andb_true_iff in Hw as [Ha Hw].
  cbn [Str.mapChars Str.startsWith] in *.
  apply andb_true_iff in H as [H1 H2]. rewrite (IH t Hw H2), andb_true_r.
  apply Ascii.eqb_eq in H1. apply Ascii.eqb_eq.
  destruct (word_char_facts a Ha) as (_ & _ & Hs & _ & Hword).
  unfold FileIndex.blankPunctuation in H1.
  destruct (Str.isWordChar c || Str.isSpace c); [assumption|].
  subst a. discriminate.
Qed.

Lemma includes_blanked (w : string) : forall t,
    Text.all Text.isLowerWordChar w = true ->
    Str.includes (Str.mapChars FileIndex.blankPunctuation t) w = true ->
    Str.includes t w = true.
Proof.
  intros t Hw. induction t as [|c t IH]; cbn [Str.mapChars].
  - rewrite !includes_empty. intros H.
    now apply (startsWith_blanked w "" Hw).
  - rewrite !includes_cons. intros H. apply orb_true_iff in H as [H|H].
    + rewrite (startsWith_blanked w (String c t) Hw H). reflexivity.
    + rewrite (IH H). apply orb_true_r.
Qed.

(** A token of a line occurs in the lower-case form of the line. *)
Lemma token_occurs (line token : string) :
  In token (FileIndex.tokenize line) ->
  Str.includes (Str.toLowerCase line) token = true.
Proof.
  unfold FileIndex.tokenize. intros H. apply filter_In in H as [Hin _].
  destruct (words_of_text _ _ Hin) as [Hall _].
  apply includes_blanked; [assumption|]. eapply piece_occurs. exact Hin.
Qed.

Lemma indexLines_has_line filePath lines : forall index tokenIndex line,
    In line lines ->
    exists lineInfo,
      In lineInfo (fst (FileIndex.indexLines filePath lines index tokenIndex))
      /\ LineInfo.content lineInfo = line.
Proof.
  induction lines as [|l lines IH]; intros index ti line Hin; [contradiction|].
  cbn [FileIndex.indexLines].
  specialize (IH (S index)
                 (fold_left (FileIndex.addToken filePath) (FileIndex.tokenize l) ti)
                 line).
  destruct (FileIndex.indexLines filePath lines (S index) _) as [infos ti'].
  cbn [fst] in *. destruct Hin as [->|Hin].
  - eexists. split; [now left|reflexivity].
  - destruct (IH Hin) as (info & H1 & H2). exists info. split; [now right|assumption].
Qed.

(** The score of a query without metacharacters is always defined. *)
Lemma sumScores_literal (queryLower : string) (lines : list MatchedLine.t) :
  Str.isLiteralPattern queryLower = true ->
  forall score, exists total, FileIndex.sumScores queryLower lines score = Some total.
Proof.
  intros L. induction lines as [|m ms IH]; intros score; cbn [FileIndex.sumScores].
  - eauto.
  - unfold FileIndex.lineScore, FileIndex.regexpCount. rewrite L. apply IH.
Qed.

Lemma scanCandidates_complete (idx : FileIndex.t) (query : string)
      (candidates : list string) :
  Str.isLiteralPattern (Str.toLowerCase query) = true ->
  exists found,
    FileIndex.scanCandidates idx false query (Str.toLowerCase query) candidates
    = Some found
    /\ forall filePath lines,
        In filePath candidates ->
        JsMap.get (FileIndex.lineIndex idx) filePath = Some lines ->
        FileIndex.matchLines false query (Str.toLowerCase query) lines <> [] ->
        In filePath (map FileSearchResult.filePath found).
Proof.
  intros L. induction candidates as [|c rest IH]; cbn [FileIndex.scanCandidates].
  - exists []. split; [reflexivity|]. intros ? ? [].
  - destruct IH as (found & F & C). rewrite F.
    destruct (FileIndex.matchLines false query (Str.toLowerCase query)
                match JsMap.get (FileIndex.lineIndex idx) c with
                | Some l => l
                | None => []
                end) as [|m ms] eqn:M.
    + exists found. split; [reflexivity|].
      intros filePath lines [->|Hin] G N; [|eauto].
      rewrite G in M. contradiction.
    + unfold FileIndex.calculateRelevanceScore.
      destruct (@sumScores_literal (Str.toLowerCase query) (m :: ms) L 0%Q)
        as (total & T).
      rewrite T.
      eexists. split; [reflexivity|].
      intros filePath lines [->|Hin] G N; cbn [map FileSearchResult.filePath].
      * now left.
      * right. eauto.
Qed.

Lemma firstn_whole {A : Type} (n : nat) (l : list A) :
  List.length l <= n -> firstn n l = l.
Proof. intros H. now apply firstn_all2. Qed.

End FoundFacts.

(** X15.  Once a file is indexed, a search that does not look at case, for a
    token of one of its lines, finds the file: the search returns, and
    either the result list is full or it holds a result for the file. *)
Theorem indexed_word_is_found {ext : Externals} (idx : FileIndex.t)
        (filePath content line token : string) (options : SearchOptions.t) :
  In line (Str.split Utils.newline content) ->
  In token (FileIndex.tokenize line) ->
  SearchOptions.caseSensitive options = false ->
  exists results,
    FileIndex.searchContent (FileIndex.indexFile idx filePath content) token options
    = Some results
    /\ (List.length results = orDefault (SearchOptions.maxResults options) 50
        \/ In filePath (map FileSearchResult.filePath results)).
Proof.
  intros Hline Htoken Hcase.
  assert (Text.all Text.isLowerWordChar token = true) as Hall.
  { unfold FileIndex.tokenize in Htoken. apply filter_In in Htoken as [Hin _].
    now destruct (words_of_text _ _ Hin). }
  unfold FileIndex.searchContent. rewrite Hcase.
  rewrite (tokenize_token _ _ Htoken).
  destruct (@scanCandidates_complete
              (FileIndex.indexFile idx filePath content) token
              (FileIndex.candidateFiles (FileIndex.indexFile idx filePath content)
                                        [token]))
    as (found & F & C).
  { rewrite word_lower by assumption. now apply word_literal. }
  rewrite F. eexists. split; [reflexivity|]. unfold Arr.slice0.
  destruct (Nat.le_gt_cases (List.length found)
                            (orDefault (SearchOptions.maxResults options) 50))
    as [Hle|Hgt].
  - right. rewrite firstn_whole
      by (rewrite (Permutation_length (sort_perm _ _)); exact Hle).
    eapply Permutation_in; [apply Permutation_map; symmetry; apply sort_perm|].
    destruct (indexLines_has_line filePath (Str.split Utils.newline content) 0
                                  (FileIndex.tokenIndex idx) line Hline)
      as (lineInfo & Hinfo & Hcontent).
    eapply C.
    + unfold FileIndex.candidateFiles. cbn [fold_left].
      pose proof (indexLines_covers filePath (Str.split Utils.newline content) 0
                                    (FileIndex.tokenIndex idx) line token
                                    Hline Htoken) as Cov.
      rewrite <- indexFile_tokenIndex in Cov. unfold Indexing.covered in Cov.
      destruct (JsMap.get (FileIndex.tokenIndex (FileIndex.indexFile idx filePath content))
                          token) as [files|]; [|discriminate].
      apply JsSet_fold_In. right. now apply JsSet_has_true.
    + rewrite indexFile_lineIndex. apply get_set_same.
    + unfold FileIndex.matchLines. intros N.
      assert (In (MatchedLine.mk (LineInfo.lineNumber lineInfo)
                                 (LineInfo.content lineInfo)
                                 match Str.indexOf (Str.toLowerCase line) token with
                                 | Some i => i | None => 0 end
                                 (match Str.indexOf (Str.toLowerCase line) token with
                                  | Some i => i | None => 0 end + String.length token))
                 []) as Absurd; [|contradiction].
      rewrite <- N. apply in_flat_map. exists lineInfo. split; [assumption|].
      rewrite Hcontent, (@word_lower token Hall).
      pose proof (token_occurs _ _ Htoken) as O. unfold Str.includes in O.
      destruct (Str.indexOf (Str.toLowerCase line) token); [now left|discriminate].
  - left. rewrite length_firstn, (Permutation_length (sort_perm _ _)). lia.
Qed.

Lemma indexed_word_is_found_witness :
  exists results,
    FileIndex.searchContent
      (@FileIndex.indexFile blankExternals FileIndex.empty "notes.txt" Example.notes)
      "shop" SearchOptions.default
    = Some results
    /\ (List.length results = orDefault (SearchOptions.maxResults SearchOptions.default) 50
        \/ In "notes.txt" (map FileSearchResult.filePath results)).
Proof.
  apply (@indexed_word_is_found blankExternals FileIndex.empty "notes.txt"
                                Example.notes "go to the shop" "shop"
                                SearchOptions.default).
  - vm_compute. auto.
  - vm_compute. auto.
  - reflexivity.
Defined.


(* ================================================================== *)
(** * Symbols *)

Section MapInvariants.
Context {V : Type}.

Lemma forallb_set (f : string * V -> bool) (m : JsMap string V) (k : string) (v : V) :
  forallb f m = true -> f (k, v) = true -> forallb f (JsMap.set m k v) = true.
Proof.
  intros Hm Hv. induction m as [|[k' v'] m IH]; cbn [JsMap.set forallb] in *.
  - now rewrite Hv.
  - apply andb_true_iff in Hm as [H1 H2].
    destruct (keq k' k) eqn:E; cbn [forallb].
    + apply keq_spec in E. subst k'. now rewrite Hv, H2.
    + now rewrite H1, IH.
Qed.

Lemma forallb_delete (f : string * V -> bool) (m : JsMap string V) (k : string) :
  forallb f m = true -> forallb f (JsMap.delete m k) = true.
Proof.
  intros Hm. induction m as [|[k' v'] m IH]; cbn [JsMap.delete forallb] in *; auto.
  apply andb_true_iff in Hm as [H1 H2].
  destruct (keq k' k); cbn [forallb]; auto. now rewrite H1, IH.
Qed.

Lemma forallb_get (f : string * V -> bool) (m : JsMap string V) (k : string) (v : V) :
  forallb f m = true -> JsMap.get m k = Some v -> f (k, v) = true.
Proof.
  intros Hm. induction m as [|[k' v'] m IH]; cbn [JsMap.get forallb] in *;
    [discriminate|].
  apply andb_true_iff in Hm as [H1 H2].
  destruct (keq k' k) eqn:E.
  - apply keq_spec in E. subst k'. intros H. injection H as <-. exact H1.
  - now apply IH.
Qed.

Lemma get_In (m : JsMap string V) (k : string) (v : V) :
  JsMap.get m k = Some v -> In (k, v) m.
Proof.
  induction m as [|[k' v'] m IH]; cbn [JsMap.get]; [discriminate|].
  destruct (keq k' k) eqn:E.
  - apply keq_spec in E. subst k'. intros H. injection H as <-. now left.
  - intros H. right. now apply IH.
Qed.

(** The keys after a [set]: as before when the key was bound, with the
    new key at the end otherwise. *)
Lemma keys_set (m : JsMap string V) (k : string) (v : V) :
  JsMap.keys (JsMap.set m k v)
  = if JsMap.has m k then JsMap.keys m else (JsMap.keys m ++ [k])%list.
Proof.
  unfold JsMap.keys, JsMap.has.
  induction m as [|[k' v'] m IH]; cbn [JsMap.set JsMap.get map fst app]; [reflexivity|].
  destruct (keq k' k) eqn:E; cbn [map fst]; [reflexivity|].
  rewrite IH. now destruct (JsMap.get m k).
Qed.

Lemma has_false_not_key (m : JsMap string V) (k : string) :
  JsMap.has m k = false -> ~ In k (JsMap.keys m).
Proof.
  unfold JsMap.keys, JsMap.has.
  induction m as [|[k' v'] m IH]; cbn [JsMap.get map fst]; [tauto|].
  destruct (keq k' k) eqn:E; [discriminate|].
  intros H [Hk|Hk]; [|now apply IH].
  cbn in Hk. subst k'. rewrite keq_refl in E. discriminate.
Qed.

Lemma NoDup_keys_set (m : JsMap string V) (k : string) (v : V) :
  NoDup (JsMap.keys m) -> NoDup (JsMap.keys (JsMap.set m k v)).
Proof.
  intros H. rewrite keys_set. destruct (JsMap.has m k) eqn:E; [assumption|].
  apply NoDup_app; [assumption|repeat constructor; simpl; tauto|].
  intros x Hx [<-|[]]. now apply (has_false_not_key _ _ E).
Qed.
End MapInvariants.

Section SymbolFacts.
Context {ext : Externals}.

Import Symbols.

Lemma addSymbol_keyed (m : JsMap string (list SymbolInfo.t)) (symbol : SymbolInfo.t) :
  forallb filedUnder m = true -> forallb filedUnder (FileIndex.addSymbol m symbol) = true.
Proof.
  intros H. unfold FileIndex.addSymbol.
  destruct (JsMap.get m (SymbolInfo.name symbol)) as [symbols|] eqn:G.
  - apply forallb_set; [assumption|].
    pose proof (forallb_get _ _ _ H G) as F. unfold filedUnder in F |- *.
    cbn [fst snd] in *. unfold Arr.push. rewrite forallb_app, F.
    cbn [forallb]. now rewrite String.eqb_refl.
  - apply forallb_set; [assumption|]. unfold filedUnder. cbn.
    now rewrite String.eqb_refl.
Qed.

Lemma fold_addSymbol_keyed (symbols : list SymbolInfo.t) :
  forall m, forallb filedUnder m = true ->
            forallb filedUnder (fold_left FileIndex.addSymbol symbols m) = true.
Proof.
  induction symbols as [|s symbols IH]; intros m H; cbn [fold_left]; [assumption|].
  apply IH. now apply addSymbol_keyed.
Qed.

End SymbolFacts.

(** X16.  When every symbol of an index is filed under its own name, the
    same holds after a file is indexed; and a symbol search over the
    index then returns no more symbols than the limit, each with a name
    that holds the query, case aside. *)
Theorem symbol_search_is_sound {ext : Externals} (idx : FileIndex.t)
        (filePath content query : string) (limit : nat) :
  Symbols.keyed idx = true ->
  Symbols.keyed (FileIndex.indexFile idx filePath content) = true
  /\ List.length (FileIndex.searchSymbols (FileIndex.indexFile idx filePath content)
                                          query limit) <= limit
  /\ forall symbol,
      In symbol (FileIndex.searchSymbols (FileIndex.indexFile idx filePath content)
                                         query limit) ->
      Str.includes (Str.toLowerCase (SymbolInfo.name symbol))
                   (Str.toLowerCase query) = true.
Proof.
  intros H.
  assert (Symbols.keyed (FileIndex.indexFile idx filePath content) = true) as K.
  { unfold Symbols.keyed in *. rewrite indexFile_symbolIndex.
    now apply fold_addSymbol_keyed. }
  split; [exact K|]. unfold FileIndex.searchSymbols, Arr.slice0. split.
  - rewrite length_firstn. lia.
  - intros symbol Hin. apply In_firstn in Hin.
    apply in_flat_map in Hin as ([name symbols] & He & Hs). cbn [fst snd] in Hs.
    destruct (Str.includes (Str.toLowerCase name) (Str.toLowerCase query)) eqn:E;
      [|contradiction].
    unfold Symbols.keyed in K. rewrite forallb_forall in K.
    specialize (K _ He). unfold Symbols.filedUnder in K. cbn [fst snd] in K.
    rewrite forallb_forall in K.
    specialize (K _ Hs). apply String.eqb_eq in K. now rewrite K.
Qed.

Lemma symbol_search_is_sound_witness :
  Symbols.keyed (@FileIndex.indexFile blankExternals FileIndex.empty
                                      "a.txt" "run(x) {") = true
  /\ List.length (FileIndex.searchSymbols
                    (@FileIndex.indexFile blankExternals FileIndex.empty
                                          "a.txt" "run(x) {") "RU" 5) <= 5
  /\ forall symbol,
      In symbol (FileIndex.searchSymbols
                   (@FileIndex.indexFile blankExternals FileIndex.empty
                                         "a.txt" "run(x) {") "RU" 5) ->
      Str.includes (Str.toLowerCase (SymbolInfo.name symbol))
                   (Str.toLowerCase "RU") = true.
Proof.
  apply (@symbol_search_is_sound blankExternals FileIndex.empty "a.txt" "run(x) {" "RU" 5).
  reflexivity.
Defined.


(** X17.  The symbols listed for a file are the symbols of the index that
    name that file, all of them, in the order of their line numbers. *)
Theorem file_symbols_are_listed (idx : FileIndex.t) (filePath : string) :
  (forall symbol,
      In symbol (FileIndex.getSymbols idx filePath)
      <-> SymbolInfo.filePath symbol = filePath
          /\ exists symbolList,
              In symbolList (JsMap.values (FileIndex.symbolIndex idx))
              /\ In symbol symbolList)
  /\ StronglySorted (fun a b => SymbolInfo.lineNumber a <= SymbolInfo.lineNumber b)
                    (FileIndex.getSymbols idx filePath).
Proof.
  unfold FileIndex.getSymbols. split.
  - intros symbol. rewrite sort_In, in_flat_map. split.
    + intros (symbolList & Hl & Hs). apply filter_In in Hs as [Hs E].
      apply String.eqb_eq in E. eauto.
    + intros (E & symbolList & Hl & Hs). exists symbolList. split; [assumption|].
      apply filter_In. split; [assumption|]. now apply String.eqb_eq.
  - eapply sorted_impl; [|apply sort_sorted].
    + intros a b H. cbn beta in H. apply Nat.ltb_ge in H. exact H.
    + intros x y H. apply Nat.ltb_lt in H. apply Nat.ltb_ge. lia.
    + intros x y z H1 H2. apply Nat.ltb_ge in H1, H2. apply Nat.ltb_ge. lia.
Qed.

(* ================================================================== *)
(** * The symbols of a file of no known language *)

Section GenericFacts.

Lemma all_takeWhile (f : ascii -> bool) (s : string) :
  Text.all f (Str.takeWhile f s) = true.
Proof.
  induction s as [|c s IH]; simpl; [reflexivity|].
  destruct (f c) eqn:E; simpl; [now rewrite E|reflexivity].
Qed.

Lemma startsWith_takeWhile (f : ascii -> bool) (s : string) :
  Str.startsWith s (Str.takeWhile f s) = true.
Proof.
  induction s as [|c s IH]; simpl; [reflexivity|].
  destruct (f c); simpl; [now rewrite Ascii.eqb_refl|reflexivity].
Qed.

Lemma callAt_word (s word : string) :
  FileIndex.callAt s = Some word ->
  word = Str.takeWhile Str.isWordChar s /\ word <> "".
Proof.
  unfold FileIndex.callAt.
  destruct (Str.takeWhile Str.isWordChar s) as [|c w]; [discriminate|].
  destruct (Str.dropWhile Str.isSpace (Str.dropWhile Str.isWordChar s)) as [|d rest];
    [discriminate|].
  destruct (Ascii.eqb d "(" && Str.includes rest ")"); [|discriminate].
  intros H. injection H as <-. split; [reflexivity|discriminate].
Qed.

Lemma matchCall_word (line word : string) :
  FileIndex.matchCall line = Some word ->
  word <> "" /\ Text.all Str.isWordChar word = true /\ Str.includes line word = true.
Proof.
  induction line as [|c line IH]; cbn [FileIndex.matchCall].
  - destruct (FileIndex.callAt "") as [w|] eqn:E; [|discriminate].
    intros H. injection H as <-. apply callAt_word in E as [-> E]. now elim E.
  - destruct (FileIndex.callAt (String c line)) as [w|] eqn:E.
    + intros H. injection H as <-. apply callAt_word in E as [E1 E2].
      repeat split; [assumption| |].
      * rewrite E1. apply all_takeWhile.
      * apply includes_start. rewrite E1. apply startsWith_takeWhile.
    + intros H. destruct (IH H) as (H1 & H2 & H3). repeat split; auto.
      rewrite includes_cons, H3. apply orb_true_r.
Qed.

Lemma genericLines_sound (filePath : string) (lines : list string)
      (symbol : SymbolInfo.t) :
  forall index,
    In symbol (FileIndex.genericLines filePath lines index) ->
    SymbolInfo.filePath symbol = filePath
    /\ SymbolInfo.type symbol = SFunction
    /\ SymbolInfo.name symbol <> ""
    /\ Text.all Str.isWordChar (SymbolInfo.name symbol) = true
    /\ exists k line,
        nth_error lines k = Some line
        /\ SymbolInfo.lineNumber symbol = index + k + 1
        /\ Str.includes line "{" = true
        /\ Str.indexOf line (SymbolInfo.name symbol) = Some (SymbolInfo.column symbol)
        /\ SymbolInfo.context symbol = Str.trim line.
Proof.
  induction lines as [|line rest IH]; intros index H; [contradiction|].
  cbn [FileIndex.genericLines] in H.
  assert (In symbol (FileIndex.genericLines filePath rest (S index)) ->
          SymbolInfo.filePath symbol = filePath
          /\ SymbolInfo.type symbol = SFunction
          /\ SymbolInfo.name symbol <> ""
          /\ Text.all Str.isWordChar (SymbolInfo.name symbol) = true
          /\ exists k line0,
              nth_error (line :: rest) k = Some line0
              /\ SymbolInfo.lineNumber symbol = index + k + 1
              /\ Str.includes line0 "{" = true
              /\ Str.indexOf line0 (SymbolInfo.name symbol)
                 = Some (SymbolInfo.column symbol)
              /\ SymbolInfo.context symbol = Str.trim line0) as Later.
  { intros Hin. destruct (IH (S index) Hin) as (H1 & H2 & H3 & H4 & k & l & H5 & H6 & H7).
    repeat split; auto. exists (S k), l. split; [exact H5|]. split; [lia|exact H7]. }
  destruct (FileIndex.matchCall line) as [name|] eqn:M; [|auto].
  destruct (Str.includes line "{") eqn:B; [|auto].
  destruct H as [<-|H]; [|auto].
  destruct (matchCall_word _ M) as (N1 & N2 & N3).
  cbn [SymbolInfo.filePath SymbolInfo.type SymbolInfo.name SymbolInfo.lineNumber
       SymbolInfo.column SymbolInfo.context].
  split; [reflexivity|]. split; [reflexivity|]. split; [assumption|].
  split; [assumption|]. exists 0, line.
  split; [reflexivity|]. split; [lia|]. split; [assumption|].
  split; [|reflexivity].
  unfold FileIndex.indexOr0. unfold Str.includes in N3.
  now destruct (Str.indexOf line name).
Qed.

End GenericFacts.

(** X18.  Every symbol found in a file of no known language is a function of
    that file; its name is a run of word characters that is not empty;
    its line is a line of the content that holds an opening brace and
    the name, the column being the first place of the name in the line
    and the context the line without the white space around it. *)
Theorem generic_symbols_are_real (content filePath : string)
        (symbol : SymbolInfo.t) :
  In symbol (FileIndex.extractGenericSymbols content filePath) ->
  SymbolInfo.filePath symbol = filePath
  /\ SymbolInfo.type symbol = SFunction
  /\ SymbolInfo.name symbol <> ""
  /\ Text.all Str.isWordChar (SymbolInfo.name symbol) = true
  /\ exists line,
      nth_error (Str.split Utils.newline content) (SymbolInfo.lineNumber symbol - 1)
      = Some line
      /\ 1 <= SymbolInfo.lineNumber symbol
      /\ Str.includes line "{" = true
      /\ Str.indexOf line (SymbolInfo.name symbol) = Some (SymbolInfo.column symbol)
      /\ SymbolInfo.context symbol = Str.trim line.
Proof.
  unfold FileIndex.extractGenericSymbols. intros H.
  destruct (genericLines_sound _ _ _ _ H)
    as (H1 & H2 & H3 & H4 & k & line & H5 & H6 & H7 & H8 & H9).
  repeat split; auto. exists line. rewrite H6.
  replace (0 + k + 1 - 1) with k by lia. repeat split; auto. lia.
Qed.

Lemma generic_symbols_are_real_witness :
  SymbolInfo.filePath (SymbolInfo.mk "run" SFunction "a.txt" 2 5 "if run(x) {") = "a.txt"
  /\ SymbolInfo.type (SymbolInfo.mk "run" SFunction "a.txt" 2 5 "if run(x) {") = SFunction.
Proof.
  assert (In (SymbolInfo.mk "run" SFunction "a.txt" 2 5 "if run(x) {")
             (FileIndex.extractGenericSymbols
                ("// start" ++ nl ++ "  if run(x) {  ") "a.txt")) as H
      by (vm_compute; auto).
  destruct (generic_symbols_are_real _ _ _ H) as (H1 & H2 & _).
  auto.
Defined.


(* ================================================================== *)
(** * The store: its keys, reads after writes, searches *)

Section StoreFacts.
Context {ext : Externals}.
Import VirtualFileSystem.

Lemma getFile_index now fs path : index (snd (getFile now fs path)) = index fs.
Proof.
  unfold getFile.
  destruct (JsMap.get (files fs) (Utils.normalizePath path)) as [e|]; auto.
  destruct (storage fs) as [|st]; auto.
  destruct (StorageManager.getFileContent now st
              (Utils.normalizePath path)) as [[[|a cached]|] st']; auto.
  destruct (FileEntry.content e) as [c|]; auto.
  destruct (String.eqb c (String a cached)); auto.
Qed.

(** With a manager and nothing cached for the path, a read of an entry
    returns it and changes nothing. *)
Lemma getFile_uncached now fs path st e :
  storage fs = Manager st ->
  JsMap.get (files fs) (Utils.normalizePath path) = Some e ->
  JsMap.get st (Utils.simpleHash (Utils.normalizePath path)) = None ->
  getFile now fs path = (Returned (Some e), fs).
Proof.
  intros Hs He H. unfold getFile, StorageManager.getFileContent.
  rewrite He, Hs, H. destruct fs; cbn in Hs |- *. now subst.
Qed.

Lemma getFile_path now fs path e :
  Store.wellKeyed fs = true ->
  fst (getFile now fs path) = Returned (Some e) ->
  FileEntry.path e = Utils.normalizePath path.
Proof.
  unfold Store.wellKeyed, getFile. intros W.
  destruct (JsMap.get (files fs) (Utils.normalizePath path)) as [e0|] eqn:E;
    [|discriminate].
  pose proof (forallb_get _ _ _ W E) as F. unfold Store.filedUnder in F.
  cbn [fst snd] in F. apply andb_true_iff in F as [F _]. apply String.eqb_eq in F.
  destruct (storage fs) as [|st]; [discriminate|].
  destruct (StorageManager.getFileContent now st
              (Utils.normalizePath path)) as [[[|a cached]|] st'];
    cbn [fst]; try (intros H; injection H as <-; exact F).
  destruct (FileEntry.content e0) as [c|]; cbn [fst].
  - destruct (String.eqb c (String a cached)); cbn [fst];
      intros H; injection H as <-; exact F.
  - intros H; injection H as <-; exact F.
Qed.

Lemma getFile_wellKeyed now fs path :
  Store.wellKeyed fs = true -> Store.wellKeyed (snd (getFile now fs path)) = true.
Proof.
  unfold Store.wellKeyed, getFile. intros W.
  destruct (JsMap.get (files fs) (Utils.normalizePath path)) as [e|] eqn:E; auto.
  pose proof (forallb_get _ _ _ W E) as F.
  destruct (storage fs) as [|st]; auto.
  destruct (StorageManager.getFileContent now st
              (Utils.normalizePath path)) as [[[|a cached]|] st']; auto.
  destruct (FileEntry.content e) as [c|]; cbn [snd files].
  - destruct (String.eqb c (String a cached)); cbn [snd files]; auto.
    apply forallb_set; auto.
  - apply forallb_set; auto.
Qed.

Lemma addFile_wellKeyed now fs path content type size lastModified :
  Store.wellKeyed fs = true ->
  Store.wellKeyed (snd (addFile now fs path content type size lastModified)) = true.
Proof.
  unfold Store.wellKeyed. intros W. rewrite addFile_files.
  apply forallb_set; [assumption|]. unfold Store.filedUnder, addFile.
  cbn [fst snd FileEntry.path]. now rewrite normalizePath_idem, String.eqb_refl.
Qed.

Lemma updateFile_wellKeyed now fs path newContent :
  Store.wellKeyed fs = true ->
  Store.wellKeyed (snd (updateFile now fs path newContent)) = true.
Proof.
  intros W.
  destruct (JsMap.get (files fs) (Utils.normalizePath path)) as [e|] eqn:E.
  - unfold Store.wellKeyed in *.
    destruct (updateFile_present now fs path newContent E) as (-> & _).
    apply forallb_set; [assumption|].
    pose proof (forallb_get _ _ _ W E) as F. exact F.
  - rewrite updateFile_absent by assumption. cbn [snd].
    now apply addFile_wellKeyed.
Qed.

Lemma deleteFile_wellKeyed fs path :
  Store.wellKeyed fs = true -> Store.wellKeyed (snd (deleteFile fs path)) = true.
Proof.
  intros W. unfold deleteFile.
  destruct (JsMap.get (files fs) (Utils.normalizePath path)) as [e|]; [|assumption].
  unfold Store.wellKeyed in *. cbn [snd files]. now apply forallb_delete.
Qed.


End StoreFacts.

(** X19.  In a store in which every entry is filed under its own normalised
    path, the same holds after a file is added, updated, deleted or
    read, whether the call returns or throws; and the entry a read
    returns for a path carries the normalised form of that path. *)
Theorem store_stays_well_keyed {ext : Externals} (now : Z)
        (fs : VirtualFileSystem.t) (path : string) :
  Store.wellKeyed fs = true ->
  (forall content type size lastModified,
      Store.wellKeyed (snd (VirtualFileSystem.addFile now fs path content type
                                                      size lastModified)) = true)
  /\ (forall newContent,
         Store.wellKeyed (snd (VirtualFileSystem.updateFile now fs path newContent))
         = true)
  /\ Store.wellKeyed (snd (VirtualFileSystem.deleteFile fs path)) = true
  /\ Store.wellKeyed (snd (VirtualFileSystem.getFile now fs path)) = true
  /\ (forall entry,
         fst (VirtualFileSystem.getFile now fs path) = Returned (Some entry) ->
         FileEntry.path entry = Utils.normalizePath path).
Proof.
  intros W. repeat split.
  - intros. now apply addFile_wellKeyed.
  - intros. now apply updateFile_wellKeyed.
  - now apply deleteFile_wellKeyed.
  - now apply getFile_wellKeyed.
  - intros entry. now apply getFile_path.
Qed.

Lemma store_stays_well_keyed_witness :
  Store.wellKeyed Example.oneFile = true
  /\ Store.wellKeyed
       (snd (@VirtualFileSystem.updateFile blankExternals 1 Example.oneFile
                                           "src\lib//b.js" "let b")) = true.
Proof.
  split; [reflexivity|].
  destruct (@store_stays_well_keyed blankExternals 1 Example.oneFile "src\lib//b.js"
                                    eq_refl) as (_ & H & _).
  apply H.
Defined.


(** X20.  A read leaves the index alone and every entry but the one read.
    For a path without an entry it returns nothing and changes nothing.
    For a path with an entry it throws, on the page as the scripts
    leave it, and changes nothing; on a page that binds [Storage] to a
    manager it returns an entry of the same type, the one the store
    holds afterwards, and with nothing cached for the path it returns
    the stored entry and changes nothing. *)
Theorem getFile_is_a_read (now : Z) (fs : VirtualFileSystem.t)
        (path : string) :
  VirtualFileSystem.index (snd (VirtualFileSystem.getFile now fs path))
  = VirtualFileSystem.index fs
  /\ (forall other,
         other <> Utils.normalizePath path ->
         JsMap.get (VirtualFileSystem.files
                      (snd (VirtualFileSystem.getFile now fs path))) other
         = JsMap.get (VirtualFileSystem.files fs) other)
  /\ match JsMap.get (VirtualFileSystem.files fs) (Utils.normalizePath path) with
     | None => VirtualFileSystem.getFile now fs path = (Returned None, fs)
     | Some entry =>
         match VirtualFileSystem.storage fs with
         | Builtin =>
             VirtualFileSystem.getFile now fs path
             = (Thrown (Err "Storage.getFileContent is not a function"), fs)
         | Manager st =>
             (exists found,
                 fst (VirtualFileSystem.getFile now fs path) = Returned (Some found)
                 /\ FileEntry.type found = FileEntry.type entry
                 /\ JsMap.get (VirtualFileSystem.files
                                 (snd (VirtualFileSystem.getFile now fs path)))
                              (Utils.normalizePath path) = Some found)
             /\ (JsMap.get st (Utils.simpleHash (Utils.normalizePath path)) = None ->
                 VirtualFileSystem.getFile now fs path = (Returned (Some entry), fs))
         end
     end.
Proof.
  split; [apply getFile_index|].
  split; [intros other H; now apply get_getFile_other|].
  destruct (JsMap.get (VirtualFileSystem.files fs) (Utils.normalizePath path))
    as [entry|] eqn:E.
  - destruct (VirtualFileSystem.storage fs) as [|st] eqn:Es.
    + now apply getFile_builtin with (e := entry).
    + split.
      * now apply getFile_some with (st := st).
      * now apply getFile_uncached.
  - now apply getFile_none.
Qed.




Section SearchFilesFacts.
Context {ext : Externals}.
Import VirtualFileSystem.

Lemma loadContents_index now results : forall fs,
    index (snd (loadContents now fs results)) = index fs.
Proof.
  induction results as [|r rest IH]; intros fs; cbn [loadContents]; [reflexivity|].
  pose proof (getFile_index now fs (FileSearchResult.filePath r)) as G.
  destruct (getFile now fs (FileSearchResult.filePath r)) as [[file|error] fs1];
    cbn [snd] in G; [|exact G].
  specialize (IH fs1).
  destruct (loadContents now fs1 rest) as [[loaded|error] fs2]; cbn [snd] in *;
    congruence.
Qed.

Lemma addUnique_inv (m : JsMap string FileSearchResult.t) (r : FileSearchResult.t) :
  NoDup (JsMap.keys m) /\ forallb Store.resultFiledUnder m = true ->
  NoDup (JsMap.keys (addUnique m r))
  /\ forallb Store.resultFiledUnder (addUnique m r) = true.
Proof.
  intros [H1 H2]. unfold addUnique.
  assert (NoDup (JsMap.keys (JsMap.set m (FileSearchResult.filePath r) r))
          /\ forallb Store.resultFiledUnder
                     (JsMap.set m (FileSearchResult.filePath r) r) = true) as S.
  { split; [now apply NoDup_keys_set|].
    apply forallb_set; [assumption|]. unfold Store.resultFiledUnder. cbn [fst snd].
    apply String.eqb_refl. }
  destruct (JsMap.get m (FileSearchResult.filePath r)) as [existing|]; [|exact S].
  destruct (Qltb (FileSearchResult.score existing) (FileSearchResult.score r));
    [exact S|auto].
Qed.

Lemma fold_addUnique_inv (results : list FileSearchResult.t) :
  forall m,
    NoDup (JsMap.keys m) /\ forallb Store.resultFiledUnder m = true ->
    NoDup (JsMap.keys (fold_left addUnique results m))
    /\ forallb Store.resultFiledUnder (fold_left addUnique results m) = true.
Proof.
  induction results as [|r rest IH]; intros m H; cbn [fold_left]; [assumption|].
  apply IH. now apply addUnique_inv.
Qed.

Lemma paths_of_values (m : JsMap string FileSearchResult.t) :
  forallb Store.resultFiledUnder m = true ->
  map FileSearchResult.filePath (JsMap.values m) = JsMap.keys m.
Proof.
  unfold JsMap.values, JsMap.keys.
  induction m as [|[k r] m IH]; cbn [forallb map fst snd]; [reflexivity|].
  intros H. apply andb_true_iff in H as [H1 H2].
  unfold Store.resultFiledUnder in H1. cbn [fst snd] in H1.
  apply String.eqb_eq in H1. now rewrite H1, IH.
Qed.

(** A search leaves the index as it was, whether it returns or
    throws. *)
Lemma searchFiles_index now fs query options r fs' :
  searchFiles now fs query options = Some (r, fs') -> index fs' = index fs.
Proof.
  unfold searchFiles.
  destruct (SearchOptions.includeContent options).
  - destruct (FileIndex.searchContent (index fs) query options)
      as [contentResults|]; [|discriminate].
    pose proof (loadContents_index now contentResults fs) as L.
    destruct (loadContents now fs contentResults) as [[loaded|error] fs1];
      cbn [snd] in L; intros H; injection H as _ <-; exact L.
  - intros H. now injection H as _ <-.
Qed.

End SearchFilesFacts.

(** X22.  A search of the store that returns gives at most one result per
    path, the highest score first, and no more results than the options
    ask for (50 when they ask for none); and a search leaves the index
    as it was, whether it returns or throws. *)
Theorem file_search_results_are_ranked (now : Z)
        (fs fs' : VirtualFileSystem.t) (query : string)
        (options : SearchOptions.t) (results : list FileSearchResult.t) :
  VirtualFileSystem.searchFiles now fs query options = Some (Returned results, fs') ->
  StronglySorted (fun a b => (FileSearchResult.score b <= FileSearchResult.score a)%Q)
                 results
  /\ NoDup (map FileSearchResult.filePath results)
  /\ List.length results <= orDefault (SearchOptions.maxResults options) 50
  /\ VirtualFileSystem.index fs' = VirtualFileSystem.index fs.
Proof.
  intros H. pose proof (searchFiles_index _ _ _ _ H) as Hindex.
  unfold VirtualFileSystem.searchFiles in H.
  set (byName := if SearchOptions.includeFilenames options
                 then VirtualFileSystem.filenameMatches fs query else []) in H.
  destruct (if SearchOptions.includeContent options
            then match FileIndex.searchContent (VirtualFileSystem.index fs) query options with
                 | Some contentResults =>
                     Some (VirtualFileSystem.loadContents now fs contentResults)
                 | None => None
                 end
            else Some (Returned [], fs)) as [[[loaded|error] fs1]|] eqn:C;
    try discriminate.
  injection H as <- <-. unfold Arr.slice0.
  destruct (@fold_addUnique_inv (byName ++ loaded) []) as [U1 U2];
    [split; [constructor|reflexivity]|].
  repeat split.
  - apply sorted_firstn. apply (sort_by_score FileSearchResult.score).
  - rewrite firstn_map. apply NoDup_firstn.
    eapply Permutation_NoDup.
    + apply Permutation_map. symmetry. apply sort_perm.
    + rewrite paths_of_values by assumption. exact U1.
  - rewrite length_firstn. lia.
  - exact Hindex.
Qed.

(** Two searches for "shop" in a store of four files.  On a page with a
    manager, names and contents are searched and three results are asked
    for: four files match, one of them by its name and by its content,
    and the three of the highest score come back.  On the page as the
    scripts leave it only the names are searched: two files match. *)
Lemma file_search_results_are_ranked_witness :
  (map FileSearchResult.filePath (fst Example.shopSearch)
   = ["docs/shop-list.md"; "todo.txt"; "notes.txt"]
   /\ StronglySorted
        (fun a b => (FileSearchResult.score b <= FileSearchResult.score a)%Q)
        (fst Example.shopSearch)
   /\ NoDup (map FileSearchResult.filePath (fst Example.shopSearch))
   /\ List.length (fst Example.shopSearch) <= 3)
  /\ (map FileSearchResult.filePath (fst Example.shopNames)
      = ["shop.js"; "docs/shop-list.md"]
      /\ StronglySorted
           (fun a b => (FileSearchResult.score b <= FileSearchResult.score a)%Q)
           (fst Example.shopNames)
      /\ NoDup (map FileSearchResult.filePath (fst Example.shopNames))).
Proof.
  split.
  - split; [vm_compute; reflexivity|].
    destruct (@file_search_results_are_ranked
                1 (Example.shopFiles (Manager [])) (snd Example.shopSearch) "shop"
                Example.threeBest (fst Example.shopSearch))
      as (H1 & H2 & H3 & _); [vm_compute; reflexivity|].
    auto.
  - split; [vm_compute; reflexivity|].
    destruct (@file_search_results_are_ranked
                1 (Example.shopFiles Builtin) (snd Example.shopNames) "shop"
                Example.namesOnly (fst Example.shopNames))
      as (H1 & H2 & _); [vm_compute; reflexivity|].
    auto.
Defined.


(* ================================================================== *)
(** * The change tracker: its size, its failures, its log *)

Section HistoryFacts.
Context {ext : Externals}.
Import ChangeTracker.

Lemma pop_inv {A : Type} (l : list A) (x : A) (rest : list A) :
  Arr.pop l = Some (x, rest) -> l = Arr.push rest x.
Proof.
  unfold Arr.push. revert x rest.
  induction l as [|y l IH]; intros x rest; cbn [Arr.pop]; [discriminate|].
  destruct l as [|z l].
  - intros H. injection H as <- <-. reflexivity.
  - destruct (Arr.pop (z :: l)) as [[x' r']|] eqn:E; [|discriminate].
    intros H. injection H as <- <-. cbn [app]. f_equal. now apply IH.
Qed.

Lemma length_push {A : Type} (l : list A) (x : A) :
  List.length (Arr.push l x) = S (List.length l).
Proof. unfold Arr.push. rewrite length_app. simpl. lia. Qed.

Lemma recordChange_bounded now ct change :
  Bound.bounded ct -> Bound.bounded (recordChange now ct change).
Proof.
  unfold Bound.bounded, recordChange.
  cbn [undoStack redoStack maxHistorySize List.length]. intros H.
  destruct (maxHistorySize ct <? List.length (Arr.push (undoStack ct) _)) eqn:E.
  - unfold Arr.shift. rewrite length_tl, length_push. lia.
  - apply Nat.ltb_ge in E. lia.
Qed.

Lemma undo_bounded now ct win :
  Bound.bounded ct -> Bound.bounded (snd (fst (undo now ct win))).
Proof.
  unfold Bound.bounded, undo. intros H.
  destruct (Arr.pop (undoStack ct)) as [[action rest]|] eqn:P; [|exact H].
  apply pop_inv in P.
  assert (List.length (undoStack ct) = S (List.length rest)) as L
      by (rewrite P; apply length_push).
  destruct (revertChange now win (UndoAction.change action)) as [[u|error] win'];
    cbn [fst snd undoStack redoStack maxHistorySize]; rewrite length_push; lia.
Qed.

Lemma redo_bounded now ct win :
  Bound.bounded ct -> Bound.bounded (snd (fst (redo now ct win))).
Proof.
  unfold Bound.bounded, redo. intros H.
  destruct (Arr.pop (redoStack ct)) as [[action rest]|] eqn:P; [|exact H].
  apply pop_inv in P.
  assert (List.length (redoStack ct) = S (List.length rest)) as L
      by (rewrite P; apply length_push).
  destruct (applyChange now win (UndoAction.change action)) as [[u|error] win'];
    cbn [fst snd undoStack redoStack maxHistorySize]; rewrite length_push; lia.
Qed.

Lemma length_filter_le {A : Type} (f : A -> bool) (l : list A) :
  List.length (filter f l) <= List.length l.
Proof.
  induction l as [|x l IH]; simpl; [lia|]. destruct (f x); simpl; lia.
Qed.

Lemma clearFile_bounded ct filePath :
  Bound.bounded ct -> Bound.bounded (clearFile ct filePath).
Proof.
  unfold Bound.bounded, clearFile. cbn [undoStack redoStack maxHistorySize].
  intros H.
  pose proof (length_filter_le (fun action => negb (concerns filePath action))
                               (undoStack ct)).
  pose proof (length_filter_le (fun action => negb (concerns filePath action))
                               (redoStack ct)).
  lia.
Qed.

(** The changes logged, all files together. *)
Lemma logged_after_set (m : JsMap string (list Change.t)) (k : string)
      (change : Change.t) :
  List.length (concat (JsMap.values
                         (JsMap.set m k
                                    (Arr.push match JsMap.get m k with
                                              | Some l => l
                                              | None => []
                                              end change))))
  = S (List.length (concat (JsMap.values m))).
Proof.
  unfold JsMap.values.
  induction m as [|[k' l'] m IH]; cbn [JsMap.get JsMap.set map snd concat].
  - reflexivity.
  - destruct (keq k' k) eqn:E; cbn [map snd concat].
    + unfold Arr.push. rewrite !length_app. cbn [List.length]. lia.
    + rewrite !length_app, IH. lia.
Qed.

End HistoryFacts.

(** X23.  When the undo stack and the redo stack together hold no more
    actions than the history size, they still do after a change is
    recorded, after an undo and after a redo (whether these succeed or
    throw), after the history of one file is cleared, and after the whole
    history is cleared. *)
Theorem history_stays_bounded {ext : Externals} (now : Z) (ct : ChangeTracker.t)
        (win : Window.t) (change : Change.t) (filePath : string) :
  Bound.bounded ct ->
  Bound.bounded (ChangeTracker.recordChange now ct change)
  /\ Bound.bounded (snd (fst (ChangeTracker.undo now ct win)))
  /\ Bound.bounded (snd (fst (ChangeTracker.redo now ct win)))
  /\ Bound.bounded (ChangeTracker.clearFile ct filePath)
  /\ Bound.bounded (ChangeTracker.clear ct).
Proof.
  intros H. repeat split.
  - now apply recordChange_bounded.
  - now apply undo_bounded.
  - now apply redo_bounded.
  - now apply clearFile_bounded.
  - unfold Bound.bounded. cbn. lia.
Qed.

Lemma history_stays_bounded_witness :
  Bound.bounded (ChangeTracker.recordChange
                   9 (World.changeTracker Sample.world4)
                   (Change.mk Edit "src/b.js" (Some "") (Some "x") 9 "c5"))
  /\ Bound.bounded
       (snd (fst (@ChangeTracker.undo
                    blankExternals 9 (World.changeTracker Sample.world4)
                    (Window.mk (Some (World.fileSystem Sample.world4))))))
  /\ Bound.bounded
       (snd (fst (@ChangeTracker.redo
                    blankExternals 9 (World.changeTracker Sample.world4)
                    (Window.mk (Some (World.fileSystem Sample.world4))))))
  /\ Bound.bounded (ChangeTracker.clearFile (World.changeTracker Sample.world4) "a.txt")
  /\ Bound.bounded (ChangeTracker.clear (World.changeTracker Sample.world4)).
Proof.
  apply (@history_stays_bounded blankExternals).
  unfold Bound.bounded. vm_compute. lia.
Defined.


(** X24.  An undo whose change has a type the tracker does not know throws,
    and leaves the tracker and the window exactly as they were: the
    action is back on top of the undo stack.  The same holds for a redo. *)
Theorem failed_undo_changes_nothing {ext : Externals} (now : Z)
        (ct : ChangeTracker.t) (win : Window.t)
        (action : UndoAction.t) (rest : list UndoAction.t) (name : string) :
  Change.type (UndoAction.change action) = OtherKind name ->
  (ChangeTracker.undoStack ct = Arr.push rest action ->
   ChangeTracker.undo now ct win
   = (Thrown (Err ("Unknown change type: " ++ name)), ct, win))
  /\ (ChangeTracker.redoStack ct = Arr.push rest action ->
      ChangeTracker.redo now ct win
      = (Thrown (Err ("Unknown change type: " ++ name)), ct, win)).
Proof.
  intros T. split; intros S.
  - unfold ChangeTracker.undo, ChangeTracker.revertChange.
    rewrite S, pop_push, T. rewrite <- S. now destruct ct.
  - unfold ChangeTracker.redo, ChangeTracker.applyChange.
    rewrite S, pop_push, T. rewrite <- S. now destruct ct.
Qed.

Lemma failed_undo_changes_nothing_witness :
  @ChangeTracker.undo blankExternals 5 Example.renameTracker (Window.mk None)
  = (Thrown (Err "Unknown change type: rename"), Example.renameTracker, Window.mk None).
Proof.
  destruct (@failed_undo_changes_nothing
              blankExternals 5 Example.renameTracker (Window.mk None)
              Example.renameAction [] "rename" eq_refl) as [H _].
  apply H. reflexivity.
Defined.


(** X25.  Recording a change appends it to the log of its file and to no
    other log, makes the log of all files one longer (the log is never
    cut, whatever the history size), empties the redo stack, and, when
    the history size is not zero, leaves the change on top of the undo
    stack.  The recent changes are no more than the limit asked for,
    the newest first. *)
Theorem change_log_grows (now : Z) (ct : ChangeTracker.t) (change : Change.t)
        (c : ascii) (path : string) :
  ChangeTracker.getChanges (ChangeTracker.recordChange now ct change)
                           (Some (String c path))
  = (if String.eqb (String c path) (Change.filePath change)
     then Arr.push (ChangeTracker.getChanges ct (Some (String c path))) change
     else ChangeTracker.getChanges ct (Some (String c path)))
  /\ List.length (ChangeTracker.getChanges
                    (ChangeTracker.recordChange now ct change) None)
     = S (List.length (ChangeTracker.getChanges ct None))
  /\ ChangeTracker.redoStack (ChangeTracker.recordChange now ct change) = []
  /\ (ChangeTracker.maxHistorySize ct = 0
      \/ exists older,
          ChangeTracker.undoStack (ChangeTracker.recordChange now ct change)
          = Arr.push older (UndoAction.mk "change" change now))
  /\ (forall limit,
         List.length (ChangeTracker.getRecentChanges ct limit) <= limit
         /\ StronglySorted
              (fun a b => (Change.timestamp b <= Change.timestamp a)%Z)
              (ChangeTracker.getRecentChanges ct limit)).
Proof.
  unfold ChangeTracker.getChanges, ChangeTracker.recordChange.
  cbn [ChangeTracker.changes ChangeTracker.redoStack ChangeTracker.undoStack
       ChangeTracker.maxHistorySize].
  repeat split.
  - destruct (String.eqb (String c path) (Change.filePath change)) eqn:E.
    + apply String.eqb_eq in E. rewrite <- E. now rewrite get_set_same.
    + apply String.eqb_neq in E. now rewrite get_set_other.
  - rewrite !(Permutation_length (sort_perm _ _)). apply logged_after_set.
  - destruct (ChangeTracker.maxHistorySize ct) as [|n] eqn:M; [now left|right].
    destruct (S n <? _) eqn:E.
    + destruct (ChangeTracker.undoStack ct) as [|a older].
      * cbn in E. discriminate.
      * exists older. reflexivity.
    + eexists. reflexivity.
  - unfold ChangeTracker.getRecentChanges, Arr.slice0. rewrite length_firstn. lia.
  - unfold ChangeTracker.getRecentChanges, Arr.slice0. apply sorted_firstn.
    eapply sorted_impl; [|apply sort_sorted].
    + intros a b H. cbn beta in H. unfold ChangeTracker.olderThan in H.
      apply Z.ltb_ge in H. exact H.
    + intros x y H. unfold ChangeTracker.olderThan in *.
      apply Z.ltb_lt in H. apply Z.ltb_ge. lia.
    + intros x y z H1 H2. unfold ChangeTracker.olderThan in *.
      apply Z.ltb_ge in H1, H2. apply Z.ltb_ge. lia.
Qed.

(* ================================================================== *)
(** * Writing and deleting through the tools *)

(** X26.  [write_file] on a path without an entry returns, whatever the
    page: afterwards the store holds the content at the normalised path,
    and a create without old content is recorded.  On a path with an
    entry it throws on the page as the scripts leave it, and changes
    nothing: there a file that exists cannot be written.  On a page that
    binds [Storage] to a manager it returns, the store holds the
    content, and an edit is recorded whose old content is the content
    the look-up of the tool returned. *)
Theorem write_file_outcomes {ext : Externals} (now : Z) (id : string)
        (w : World.t) (file_path content : string) :
  let result := WriteFileTool.execute now id w file_path content in
  match JsMap.get (VirtualFileSystem.files (World.fileSystem w))
                  (Utils.normalizePath file_path) with
  | None =>
      (exists text, fst result = Returned text)
      /\ VirtualFileSystem.contentAt (World.fileSystem (snd result))
                                     (Utils.normalizePath file_path)
         = Some (Some content)
      /\ World.changeTracker (snd result)
         = ChangeTracker.recordChange
             now (World.changeTracker w)
             (Change.mk Create file_path None (Some content) now id)
  | Some entry =>
      match VirtualFileSystem.storage (World.fileSystem w) with
      | Builtin =>
          result
          = (Thrown (Err "Failed to write file: Storage.getFileContent is not a function"),
             w)
      | Manager _ =>
          exists text found,
            fst result = Returned text
            /\ fst (VirtualFileSystem.getFile now (World.fileSystem w) file_path)
               = Returned (Some found)
            /\ VirtualFileSystem.contentAt (World.fileSystem (snd result))
                                           (Utils.normalizePath file_path)
               = Some (Some content)
            /\ World.changeTracker (snd result)
               = ChangeTracker.recordChange
                   now (World.changeTracker w)
                   (Change.mk Edit file_path (FileEntry.content found)
                              (Some content) now id)
      end
  end.
Proof.
  cbv zeta.
  destruct (JsMap.get (VirtualFileSystem.files (World.fileSystem w))
                      (Utils.normalizePath file_path)) as [entry|] eqn:E.
  - destruct (VirtualFileSystem.storage (World.fileSystem w)) as [|st] eqn:Es.
    + exact (@write_on_entry _ now id w file_path content entry Es E).
    + destruct (getFile_some now (World.fileSystem w) file_path E Es)
        as (found & F1 & _ & F3).
      pose proof (hasCache_getFile now (World.fileSystem w) file_path) as Hc.
      unfold WriteFileTool.execute.
      destruct (VirtualFileSystem.getFile now (World.fileSystem w) file_path)
        as [o fs1] eqn:G.
      cbn [fst snd] in F1, F3, Hc. subst o.
      assert (VirtualFileSystem.hasCache fs1 = true) as Hc1.
      { rewrite Hc. unfold VirtualFileSystem.hasCache. now rewrite Es. }
      destruct (updateFile_returns now fs1 file_path content Hc1) as (e & He).
      pose proof (contentAt_updateFile_same now fs1 file_path content) as Hat.
      unfold WriteFileTool.writeFetched.
      destruct (VirtualFileSystem.updateFile now fs1 file_path content)
        as [o fs2] eqn:U.
      cbn [fst snd] in He, Hat. subst o.
      cbn [rethrow fst snd World.fileSystem World.changeTracker].
      eexists. exists found. repeat split; auto.
  - unfold WriteFileTool.execute.
    rewrite getFile_none by assumption.
    unfold WriteFileTool.writeFetched.
    rewrite updateFile_absent by assumption.
    cbn [rethrow fst snd World.fileSystem World.changeTracker].
    split; [eexists; reflexivity|]. split; [|reflexivity].
    rewrite <- (normalizePath_idem file_path) at 2.
    apply contentAt_addFile_same.
Qed.

(** X27.  A confirmed call of [delete_file] on a path without an entry
    throws "File not found" and leaves the world as it was.  On a path
    with an entry it throws on the page as the scripts leave it, whether
    the entry is a file or a directory, and changes nothing: there no
    file can be deleted.  On a page that binds [Storage] to a manager a
    directory makes it throw and record nothing, and a file makes it
    return: the entry is gone and a delete is recorded with the content
    the look-up returned.  The failure "Failed to delete file" of the
    deletion itself never occurs. *)
Theorem delete_file_outcomes (now : Z) (id : string)
        (w : World.t) (file_path : string) :
  let result := DeleteFileTool.execute now id w file_path true in
  match JsMap.get (VirtualFileSystem.files (World.fileSystem w))
                  (Utils.normalizePath file_path) with
  | None =>
      result
      = (Thrown (Err ("Failed to delete file: File not found: " ++ file_path)), w)
  | Some entry =>
      match VirtualFileSystem.storage (World.fileSystem w) with
      | Builtin =>
          result
          = (Thrown (Err "Failed to delete file: Storage.getFileContent is not a function"),
             w)
      | Manager _ =>
          match FileEntry.type entry with
          | KDirectory =>
              fst result
              = Thrown (Err ("Failed to delete file: Cannot delete directory with this tool: "
                             ++ file_path))
              /\ World.changeTracker (snd result) = World.changeTracker w
          | KFile =>
              fst result = Returned ("Deleted file: " ++ file_path)
              /\ JsMap.get (VirtualFileSystem.files (World.fileSystem (snd result)))
                           (Utils.normalizePath file_path) = None
              /\ exists found,
                  fst (VirtualFileSystem.getFile now (World.fileSystem w) file_path)
                  = Returned (Some found)
                  /\ World.changeTracker (snd result)
                     = ChangeTracker.recordChange
                         now (World.changeTracker w)
                         (Change.mk Delete file_path (FileEntry.content found)
                                    None now id)
          end
      end
  end.
Proof.
  cbv zeta.
  destruct (JsMap.get (VirtualFileSystem.files (World.fileSystem w))
                      (Utils.normalizePath file_path)) as [entry|] eqn:E.
  - destruct (VirtualFileSystem.storage (World.fileSystem w)) as [|st] eqn:Es.
    + exact (@delete_on_entry now id w file_path entry Es E).
    + unfold DeleteFileTool.execute. cbn [negb].
      destruct (@getFile_some now (World.fileSystem w) file_path entry st E Es)
        as (found & F1 & F2 & F3).
      destruct (VirtualFileSystem.getFile now (World.fileSystem w) file_path)
        as [file fs1] eqn:G.
      cbn [fst snd] in F1, F3. subst file. unfold DeleteFileTool.deleteFetched.
      rewrite F2. destruct (FileEntry.type entry).
      * pose proof (get_deleteFile_same fs1 file_path) as D.
        pose proof (deleteFile_present fs1 file_path F3) as P.
        destruct (VirtualFileSystem.deleteFile fs1 file_path) as [deleted fs2].
        cbn [fst snd] in D, P. subst deleted.
        cbn [negb fst snd rethrow World.fileSystem World.changeTracker].
        repeat split; auto. exists found. auto.
      * cbn [fst snd rethrow messageOf World.changeTracker]. auto.
  - unfold DeleteFileTool.execute. cbn [negb].
    rewrite getFile_none by assumption. cbn. now destruct w.
Qed.

(* ================================================================== *)
(** * The registry: registering, looking up, removing *)

Section RegistryFacts.
Variable S : Type.

Lemma getByCategory_registered (reg : ToolRegistry.t S) (category : string)
      (tool : Tool.t S) :
  In tool (ToolRegistry.getByCategory reg category) ->
  exists name, ToolRegistry.get reg name = Some tool.
Proof.
  unfold ToolRegistry.getByCategory, ToolRegistry.get. intros H.
  apply in_flat_map in H as (name & _ & H). exists name.
  destruct (JsMap.get (ToolRegistry.tools reg) name) as [t|]; [|contradiction].
  destruct H as [<-|[]]. reflexivity.
Qed.

Lemma get_unregister (reg : ToolRegistry.t S) (name other : string) :
  ToolRegistry.get (ToolRegistry.unregister reg name) other
  = if String.eqb other name then None else ToolRegistry.get reg other.
Proof.
  unfold ToolRegistry.unregister, ToolRegistry.get.
  destruct (JsMap.get (ToolRegistry.tools reg) name) as [t|] eqn:G;
    cbn [ToolRegistry.tools].
  - destruct (String.eqb other name) eqn:E.
    + apply String.eqb_eq in E. subst. apply get_delete_same.
    + apply String.eqb_neq in E. now apply get_delete_other.
  - destruct (String.eqb other name) eqn:E; [|reflexivity].
    apply String.eqb_eq in E. now subst.
Qed.

End RegistryFacts.

(** X28.  A tool that is registered is found under its name and listed in its
    category, and the tools of other names are found as before.  After a
    name is removed, no tool is found under it, a call of it is answered
    with "Unknown tool", the tools of other names are found as before,
    and every tool a category lists is one that is still registered. *)
Theorem registry_lookup_laws (S : Type) (reg : ToolRegistry.t S) (tool : Tool.t S)
        (category name : string) (call : ToolCall.t) (s : S) :
  ToolRegistry.get (ToolRegistry.register reg tool category) (Tool.name tool)
  = Some tool
  /\ In tool (ToolRegistry.getByCategory (ToolRegistry.register reg tool category)
                                         category)
  /\ (forall other,
         other <> Tool.name tool ->
         ToolRegistry.get (ToolRegistry.register reg tool category) other
         = ToolRegistry.get reg other)
  /\ ToolRegistry.get (ToolRegistry.unregister reg name) name = None
  /\ (forall other,
         other <> name ->
         ToolRegistry.get (ToolRegistry.unregister reg name) other
         = ToolRegistry.get reg other)
  /\ (forall listed anyCategory,
         In listed (ToolRegistry.getByCategory (ToolRegistry.unregister reg name)
                                               anyCategory) ->
         exists other,
           other <> name /\ ToolRegistry.get reg other = Some listed)
  /\ (ToolCall.name call = name ->
      ToolRegistry.execute (ToolRegistry.unregister reg name) call s
      = (Returned (ToolResult.mk false None (Some ("Unknown tool: " ++ name))), s)).
Proof.
  repeat split.
  - unfold ToolRegistry.get, ToolRegistry.register. cbn. apply get_set_same.
  - unfold ToolRegistry.getByCategory, ToolRegistry.register.
    cbn [ToolRegistry.tools ToolRegistry.categories].
    rewrite get_set_same. apply in_flat_map. exists (Tool.name tool). split.
    + unfold Arr.push. apply in_or_app. right. now left.
    + rewrite get_set_same. now left.
  - intros other H. unfold ToolRegistry.get, ToolRegistry.register. cbn.
    now apply get_set_other.
  - rewrite get_unregister. now rewrite String.eqb_refl.
  - intros other H. rewrite get_unregister.
    apply String.eqb_neq in H. now rewrite H.
  - intros listed anyCategory H.
    apply getByCategory_registered in H as (other & H).
    rewrite get_unregister in H. exists other.
    destruct (String.eqb other name) eqn:E; [discriminate|].
    apply String.eqb_neq in E. auto.
  - intros H. unfold ToolRegistry.execute. rewrite H, get_unregister.
    now rewrite String.eqb_refl.
Qed.

(* ================================================================== *)
(** * Highlighting a match *)

Section HighlightFacts.

Lemma take_drop (n : nat) : forall s, Str.take n s ++ Str.drop n s = s.
Proof.
  induction n as [|n IH]; intros [|c s]; simpl; auto. now rewrite IH.
Qed.

Lemma drop_drop (n m : nat) : forall s, Str.drop m (Str.drop n s) = Str.drop (n + m) s.
Proof.
  induction n as [|n IH]; intros s; simpl; [reflexivity|].
  destruct s as [|c s]; [now destruct m|]. apply IH.
Qed.

Lemma toLowerCase_take (n : nat) : forall s,
    Str.toLowerCase (Str.take n s) = Str.take n (Str.toLowerCase s).
Proof.
  induction n as [|n IH]; intros [|c s]; simpl; auto. now rewrite IH.
Qed.

Lemma toLowerCase_drop (n : nat) : forall s,
    Str.toLowerCase (Str.drop n s) = Str.drop n (Str.toLowerCase s).
Proof.
  induction n as [|n IH]; intros [|c s]; simpl; auto.
Qed.

Lemma fold_take cs n s : Text.fold cs (Str.take n s) = Str.take n (Text.fold cs s).
Proof. destruct cs; simpl; [reflexivity|apply toLowerCase_take]. Qed.

Lemma fold_drop cs n s : Text.fold cs (Str.drop n s) = Str.drop n (Text.fold cs s).
Proof. destruct cs; simpl; [reflexivity|apply toLowerCase_drop]. Qed.

Lemma length_fold cs s : String.length (Text.fold cs s) = String.length s.
Proof. destruct cs; simpl; [reflexivity|apply length_toLowerCase]. Qed.

Lemma startsWith_take (s : string) : forall p,
    Str.startsWith s p = true -> Str.take (String.length p) s = p.
Proof.
  induction s as [|c s IH]; intros [|a p]; simpl; intros H; try discriminate; auto.
  apply andb_true_iff in H as [H1 H2]. apply Ascii.eqb_eq in H1. subst.
  now rewrite IH.
Qed.

(** Where [indexOf] finds the pattern, the pattern starts. *)
Lemma indexOfFrom_found (s p : string) : forall i j,
    Str.indexOfFrom s p i = Some j ->
    exists k, j = i + k /\ k <= String.length s
              /\ Str.startsWith (Str.drop k s) p = true.
Proof.
  induction s as [|c s IH]; intros i j; cbn [Str.indexOfFrom].
  - destruct (Str.startsWith "" p) eqn:E; [|discriminate].
    intros H. injection H as <-. exists 0. simpl. repeat split; auto; lia.
  - destruct (Str.startsWith (String c s) p) eqn:E.
    + intros H. injection H as <-. exists 0. simpl. repeat split; auto; lia.
    + intros H. apply IH in H as (k & -> & Hk & Hs).
      exists (S k). simpl. repeat split; auto; lia.
Qed.

Lemma length_take_le (n : nat) (s : string) :
  n <= String.length s -> String.length (Str.take n s) = n.
Proof. intros H. rewrite length_take. lia. Qed.

End HighlightFacts.

(** X29.  When the query does not occur in the text, [highlightMatch] returns
    the text.  When it does, the text is split in three at the first
    occurrence: what comes before, the occurrence, what comes after; the
    result puts the occurrence between two pairs of asterisks and changes
    nothing else; and the occurrence is the query, up to the case of the
    letters when the search does not look at case. *)
Theorem highlight_marks_a_match (text query : string) (caseSensitive : bool) :
  match Str.indexOf (Text.fold caseSensitive text) (Text.fold caseSensitive query) with
  | None => SearchFilesTool.highlightMatch text query caseSensitive = text
  | Some index =>
      exists before occurrence rest,
        text = before ++ occurrence ++ rest
        /\ SearchFilesTool.highlightMatch text query caseSensitive
           = before ++ "**" ++ occurrence ++ "**" ++ rest
        /\ String.length before = index
        /\ Text.fold caseSensitive occurrence = Text.fold caseSensitive query
  end.
Proof.
  unfold SearchFilesTool.highlightMatch.
  change (if caseSensitive then text else Str.toLowerCase text)
    with (Text.fold caseSensitive text).
  change (if caseSensitive then query else Str.toLowerCase query)
    with (Text.fold caseSensitive query).
  destruct (Str.indexOf (Text.fold caseSensitive text) (Text.fold caseSensitive query))
    as [index|] eqn:E; [|reflexivity].
  unfold Str.indexOf in E. apply indexOfFrom_found in E as (k & -> & Hk & Hs).
  rewrite length_fold in Hk. cbn [Nat.add].
  exists (Str.take k text), (Str.take (String.length query) (Str.drop k text)),
         (Str.drop (k + String.length query) text).
  repeat split.
  - rewrite <- drop_drop. now rewrite take_drop, take_drop.
  - now apply length_take_le.
  - rewrite fold_take, fold_drop.
    rewrite <- (length_fold caseSensitive query). now apply startsWith_take.
Qed.

(* ================================================================== *)
(** * The files chosen for a prompt *)

Section RelevantFacts.
Context {ext : Externals}.
Import ContextManager.

Import Selection.

Lemma chosen_push relevantFiles seenPaths (file : RelevantFile.t) :
  chosen relevantFiles seenPaths ->
  JsSet.has seenPaths (RelevantFile.path file) = false ->
  chosen (Arr.push relevantFiles file)
         (JsSet.add seenPaths (RelevantFile.path file)).
Proof.
  intros [H1 H2] Hs. unfold chosen, Arr.push. rewrite map_app. cbn [map]. split.
  - apply NoDup_app; [assumption|repeat constructor; simpl; tauto|].
    intros p Hp [<-|[]]. apply (JsSet_has_false _ _ Hs). now apply H2.
  - intros p Hp. apply JsSet_add_In. apply in_app_iff in Hp as [Hp|[<-|[]]]; auto.
Qed.

Lemma addMentioned_chosen now targetFiles :
  forall fs relevantFiles seenPaths relevantFiles' seenPaths' fs',
    addMentioned now fs targetFiles relevantFiles seenPaths
    = (Returned (relevantFiles', seenPaths'), fs') ->
    chosen relevantFiles seenPaths ->
    chosen relevantFiles' seenPaths'.
Proof.
  induction targetFiles as [|filePath rest IH]; intros fs rel seen rel' seen' fs' A H;
    cbn [addMentioned] in A.
  - now injection A as <- <- <-.
  - destruct (JsSet.has seen filePath) eqn:E; [now apply (IH _ _ _ _ _ _ A)|].
    destruct (VirtualFileSystem.getFile now fs filePath) as [[[f|]|error] fs1];
      [|now apply (IH _ _ _ _ _ _ A)|discriminate].
    apply (IH _ _ _ _ _ _ A).
    apply (chosen_push (RelevantFile.mk filePath (FileEntry.content f) 1
                                        "directly_mentioned" []) H E).
Qed.

Lemma addResults_chosen now maxFiles searchResults : forall fs relevantFiles seenPaths,
    chosen relevantFiles seenPaths ->
    chosen (fst (fst (addResults now fs maxFiles searchResults relevantFiles seenPaths)))
           (snd (fst (addResults now fs maxFiles searchResults relevantFiles seenPaths))).
Proof.
  induction searchResults as [|result rest IH]; intros fs rel seen H;
    cbn [addResults]; [exact H|].
  destruct (JsSet.has seen (FileSearchResult.filePath result)) eqn:E;
    cbn [orb]; [exact H|].
  destruct (maxFiles <=? List.length rel); [exact H|].
  destruct (VirtualFileSystem.getFile now fs (FileSearchResult.filePath result))
    as [[[f|]|error] fs1]; [|now apply IH|exact H].
  apply IH.
  apply (chosen_push
           (RelevantFile.mk (FileSearchResult.filePath result)
                            (FileEntry.content f)
                            (FileSearchResult.score result * score08)%Q
                            "keyword_match"
                            (FileSearchResult.matchedLines result)) H E).
Qed.

Lemma addKeywords_chosen now maxFiles searchOptions keywords :
  forall fs relevantFiles seenPaths relevantFiles' seenPaths' fs',
    chosen relevantFiles seenPaths ->
    addKeywords now fs maxFiles searchOptions keywords relevantFiles seenPaths
    = Some (relevantFiles', seenPaths', fs') ->
    chosen relevantFiles' seenPaths'.
Proof.
  induction keywords as [|keyword rest IH]; intros fs rel seen rel' seen' fs' H;
    cbn [addKeywords].
  - intros E. now injection E as <- <- <-.
  - destruct (VirtualFileSystem.searchFiles now fs keyword searchOptions)
      as [[[searchResults|error] fs1]|]; [|now apply IH|discriminate].
    pose proof (addResults_chosen now maxFiles searchResults fs1 H) as C.
    destruct (addResults now fs1 maxFiles searchResults rel seen) as [[rel1 seen1] fs2].
    cbn [fst snd] in C. now apply IH.
Qed.

Lemma addRelated_distinct maxFiles relatedFiles : forall relevantFiles seenPaths,
    chosen relevantFiles seenPaths ->
    NoDup (map RelevantFile.path
               (addRelated maxFiles relatedFiles relevantFiles seenPaths)).
Proof.
  induction relatedFiles as [|file rest IH]; intros rel seen H;
    cbn [addRelated]; [apply H|].
  destruct (JsSet.has seen (RelevantFile.path file)) eqn:E; cbn [orb]; [apply H|].
  destruct (maxFiles <=? List.length rel); [apply H|].
  apply IH. now apply chosen_push.
Qed.

(** A path chosen stays chosen. *)
Lemma addResults_grows now maxFiles searchResults path :
  forall fs relevantFiles seenPaths,
    In path (map RelevantFile.path relevantFiles) ->
    In path (map RelevantFile.path
                 (fst (fst (addResults now fs maxFiles searchResults
                                       relevantFiles seenPaths)))).
Proof.
  induction searchResults as [|result rest IH]; intros fs rel seen H;
    cbn [addResults]; [exact H|].
  destruct (JsSet.has seen (FileSearchResult.filePath result) || _); [exact H|].
  destruct (VirtualFileSystem.getFile now fs (FileSearchResult.filePath result))
    as [[[f|]|error] fs1]; [|now apply IH|exact H].
  apply IH. unfold Arr.push. rewrite map_app. apply in_or_app. now left.
Qed.

Lemma addKeywords_grows now maxFiles searchOptions keywords path :
  forall fs relevantFiles seenPaths relevantFiles' seenPaths' fs',
    In path (map RelevantFile.path relevantFiles) ->
    addKeywords now fs maxFiles searchOptions keywords relevantFiles seenPaths
    = Some (relevantFiles', seenPaths', fs') ->
    In path (map RelevantFile.path relevantFiles').
Proof.
  induction keywords as [|keyword rest IH]; intros fs rel seen rel' seen' fs' H;
    cbn [addKeywords].
  - intros E. now injection E as <- <- <-.
  - destruct (VirtualFileSystem.searchFiles now fs keyword searchOptions)
      as [[[searchResults|error] fs1]|]; [|now apply IH|discriminate].
    pose proof (addResults_grows now maxFiles searchResults path fs1 rel seen H) as G.
    destruct (addResults now fs1 maxFiles searchResults rel seen) as [[rel1 seen1] fs2].
    cbn [fst snd] in G. now apply IH.
Qed.

Lemma addRelated_grows maxFiles relatedFiles path : forall relevantFiles seenPaths,
    In path (map RelevantFile.path relevantFiles) ->
    In path (map RelevantFile.path
                 (addRelated maxFiles relatedFiles relevantFiles seenPaths)).
Proof.
  induction relatedFiles as [|file rest IH]; intros rel seen H;
    cbn [addRelated]; [exact H|].
  destruct (JsSet.has seen (RelevantFile.path file) || _); [exact H|].
  apply IH. unfold Arr.push. rewrite map_app. apply in_or_app. now left.
Qed.

(** A read keeps every path that has an entry. *)
Lemma getFile_keeps_all now fs path other :
  JsMap.has (VirtualFileSystem.files fs) other = true ->
  JsMap.has (VirtualFileSystem.files (snd (VirtualFileSystem.getFile now fs path)))
            other = true.
Proof.
  unfold JsMap.has. intros H.
  destruct (String.eqb other (Utils.normalizePath path)) eqn:E.
  - apply String.eqb_eq in E. subst other.
    destruct (JsMap.get (VirtualFileSystem.files
                           (snd (VirtualFileSystem.getFile now fs path)))
                        (Utils.normalizePath path)) eqn:G; [reflexivity|].
    apply getFile_keeps_presence in G. now rewrite G in H.
  - apply String.eqb_neq in E. now rewrite get_getFile_other.
Qed.

Lemma addMentioned_grows now targetFiles path :
  forall fs relevantFiles seenPaths relevantFiles' seenPaths' fs',
    addMentioned now fs targetFiles relevantFiles seenPaths
    = (Returned (relevantFiles', seenPaths'), fs') ->
    In path (map RelevantFile.path relevantFiles) ->
    In path (map RelevantFile.path relevantFiles').
Proof.
  induction targetFiles as [|filePath rest IH]; intros fs rel seen rel' seen' fs' A H;
    cbn [addMentioned] in A.
  - now injection A as <- <- <-.
  - destruct (JsSet.has seen filePath); [now apply (IH _ _ _ _ _ _ A)|].
    destruct (VirtualFileSystem.getFile now fs filePath) as [[[f|]|error] fs1];
      [|now apply (IH _ _ _ _ _ _ A)|discriminate].
    apply (IH _ _ _ _ _ _ A).
    unfold Arr.push. rewrite map_app. apply in_or_app. now left.
Qed.

(** Every target that has an entry in the store is chosen. *)
Lemma addMentioned_takes now targetFiles target :
  forall fs relevantFiles seenPaths relevantFiles' seenPaths' fs',
    addMentioned now fs targetFiles relevantFiles seenPaths
    = (Returned (relevantFiles', seenPaths'), fs') ->
    (forall path, In path seenPaths -> In path (map RelevantFile.path relevantFiles)) ->
    In target targetFiles ->
    JsMap.has (VirtualFileSystem.files fs) (Utils.normalizePath target) = true ->
    In target (map RelevantFile.path relevantFiles').
Proof.
  induction targetFiles as [|filePath rest IH];
    intros fs rel seen rel' seen' fs' A Hseen Hin Hhas;
    [contradiction|]. cbn [addMentioned] in A.
  destruct (JsSet.has seen filePath) eqn:E.
  - destruct Hin as [->|Hin]; [|now apply (IH _ _ _ _ _ _ A)].
    apply (addMentioned_grows _ _ _ _ _ _ A). apply Hseen.
    now apply JsSet_has_true.
  - pose proof (getFile_keeps_all now fs filePath _ Hhas) as K.
    pose proof (getFile_found_iff now fs filePath) as F.
    destruct (VirtualFileSystem.getFile now fs filePath) as [[[f|]|error] fs1];
      cbn [fst snd] in K, F; [| |discriminate].
    + destruct Hin as [->|Hin].
      * apply (addMentioned_grows _ _ _ _ _ _ A). unfold Arr.push. rewrite map_app.
        apply in_or_app. right. now left.
      * apply (IH _ _ _ _ _ _ A); auto. intros p Hp. unfold Arr.push.
        rewrite map_app.
        apply in_or_app. apply JsSet_add_In in Hp as [Hp | ->]; [left; auto|].
        right. now left.
    + destruct Hin as [->|Hin]; [|now apply (IH _ _ _ _ _ _ A)].
      destruct F as [F _]. specialize (F eq_refl).
      unfold JsMap.has in Hhas. now rewrite F in Hhas.
Qed.

End RelevantFacts.

(** X30.  The files chosen for a prompt have pairwise distinct paths and come
    with the highest relevance first; and every file the prompt names
    that the store has is among them, whatever the limit on the number
    of files. *)
Theorem relevant_files_are_distinct (now : Z)
        (fs fs' : VirtualFileSystem.t) (intent : UserIntent.t) (maxFiles : nat)
        (relevantFiles : list RelevantFile.t) :
  ContextManager.findRelevantFiles now fs intent maxFiles
  = Some (Returned relevantFiles, fs') ->
  NoDup (map RelevantFile.path relevantFiles)
  /\ StronglySorted
       (fun a b => (RelevantFile.relevanceScore b <= RelevantFile.relevanceScore a)%Q)
       relevantFiles
  /\ forall target,
      In target (UserIntent.targetFiles intent) ->
      JsMap.has (VirtualFileSystem.files fs) (Utils.normalizePath target) = true ->
      In target (map RelevantFile.path relevantFiles).
Proof.
  unfold ContextManager.findRelevantFiles. intros H.
  assert (Selection.chosen [] []) as C0 by (split; [constructor|intros ? []]).
  destruct (ContextManager.addMentioned now fs (UserIntent.targetFiles intent) [] [])
    as [[[rel1 seen1]|error] fs1] eqn:A; [|discriminate].
  pose proof (@addMentioned_chosen now _ _ _ _ _ _ _ A C0) as C1.
  assert (forall target,
             In target (UserIntent.targetFiles intent) ->
             JsMap.has (VirtualFileSystem.files fs) (Utils.normalizePath target) = true ->
             In target (map RelevantFile.path rel1))
    as T1.
  { intros target Hin Hhas.
    apply (@addMentioned_takes now _ target _ _ _ _ _ _ A); auto. }
  set (stage2 := match UserIntent.keywords intent with
                 | [] => Some (rel1, seen1, fs1)
                 | _ :: _ =>
                     if List.length rel1 <? maxFiles
                     then ContextManager.addKeywords
                            now fs1 maxFiles
                            (SearchOptions.mk true true false (maxFiles * 2))
                            (Arr.slice0 3 (UserIntent.keywords intent)) rel1 seen1
                     else Some (rel1, seen1, fs1)
                 end) in H.
  assert (forall rel2 seen2 fs2,
             stage2 = Some (rel2, seen2, fs2) ->
             Selection.chosen rel2 seen2
             /\ forall path, In path (map RelevantFile.path rel1) ->
                             In path (map RelevantFile.path rel2)) as S2.
  { intros rel2 seen2 fs2 E. unfold stage2 in E.
    destruct (UserIntent.keywords intent) as [|k ks].
    - injection E as <- <- <-. auto.
    - destruct (List.length rel1 <? maxFiles).
      + split.
        * eapply addKeywords_chosen; eauto.
        * intros path Hp. eapply addKeywords_grows; eauto.
      + injection E as <- <- <-. auto. }
  destruct stage2 as [[[rel2 seen2] fs2]|]; [|discriminate].
  destruct (S2 rel2 seen2 fs2 eq_refl) as [C2 G2].
  destruct ((0 <? List.length rel2) && (List.length rel2 <? maxFiles)).
  - destruct (ContextManager.findRelatedFiles now fs2 rel2) as [[related|error] fs3];
      [|discriminate].
    injection H as <- <-. repeat split.
    + eapply Permutation_NoDup.
      * apply Permutation_map. symmetry. apply sort_perm.
      * now apply addRelated_distinct.
    + apply (sort_by_score RelevantFile.relevanceScore).
    + intros target Hin Hhas.
      eapply Permutation_in.
      * apply Permutation_map. symmetry. apply sort_perm.
      * apply addRelated_grows. apply G2. now apply T1.
  - injection H as <- <-. repeat split.
    + eapply Permutation_NoDup.
      * apply Permutation_map. symmetry. apply sort_perm.
      * apply C2.
    + apply (sort_by_score RelevantFile.relevanceScore).
    + intros target Hin Hhas.
      eapply Permutation_in.
      * apply Permutation_map. symmetry. apply sort_perm.
      * apply G2. now apply T1.
Qed.

Lemma relevant_files_are_distinct_witness :
  NoDup (map RelevantFile.path (fst Example.fixBugFiles))
  /\ StronglySorted
       (fun a b => (RelevantFile.relevanceScore b <= RelevantFile.relevanceScore a)%Q)
       (fst Example.fixBugFiles)
  /\ forall target,
      In target (UserIntent.targetFiles Sample.fixBug) ->
      JsMap.has (VirtualFileSystem.files Example.twoFiles)
                (Utils.normalizePath target) = true ->
      In target (map RelevantFile.path (fst Example.fixBugFiles)).
Proof.
  apply (@relevant_files_are_distinct 1 Example.twoFiles
                                      (snd Example.fixBugFiles) Sample.fixBug 5).
  vm_compute. reflexivity.
Defined.


